(** * Learning-path platform: progress, visibility and rating rules

    A shallow embedding of the domain logic of the Django/DRF project
    (courses/models.py, courses/views.py, courses/serializers.py,
    learning_paths/models.py, learning_paths/views.py,
    learning_paths/serializers.py, learning_paths/permissions.py, and the
    statistics of authentication/views.py).

    The relational store is a record of tables, each table a list of rows.
    Model fields that none of the embedded operations reads or writes
    (titles, descriptions, tags, ...) are left out of the rows.  A view is a
    function from the store (and the request) to a new store and a
    response; [timezone.now()] is passed in as the argument [now]. *)

From Stdlib Require Import ZArith List Bool Lia Floats Uint63.
From Stdlib Require Import String.
From Stdlib Require Import Sorted.
Import ListNotations.
Open Scope Z_scope.

(** ** Python numbers *)

Module Py.

(** A Python [int] that is used as a [float] operand.  The conversion is
    exact below 2^53, which covers every count of rows met here. *)
Definition float_of_int (n : Z) : float := PrimFloat.of_uint63 (Uint63.of_Z n).

(** [a / b] on two ints: true division, a correctly rounded binary64. *)
Definition truediv (a b : Z) : float :=
  PrimFloat.div (float_of_int a) (float_of_int b).

(** [int(x)]: truncation toward zero.  Python raises on an infinity or a
    NaN; neither is the quotient of two counts with a positive divisor,
    and the embedding maps them to 0. *)
Definition int (x : float) : Z :=
  match Prim2SF x with
  | S754_finite s m e =>
      let v := if 0 <=? e then Z.shiftl (Zpos m) e else Z.shiftr (Zpos m) (- e) in
      if s then - v else v
  | _ => 0
  end.

(** Truth value of a float: [0.0] and [-0.0] are falsy. *)
Definition bool_of_float (x : float) : bool :=
  match Prim2SF x with
  | S754_zero _ => false
  | _ => true
  end.

(** [round(x, 2)], as the number of hundredths of the result.  CPython
    rounds the exact value of the double to two decimals, ties to even
    (correctly rounded decimal conversion), so the result is [h / 100] for
    the integer [h] computed here. *)
Definition round2_hundredths (x : float) : Z :=
  match Prim2SF x with
  | S754_finite s m e =>
      let h :=
        if 0 <=? e then Z.shiftl (Zpos m * 100) e
        else
          let den := Z.shiftl 1 (- e) in
          let q := (Zpos m * 100) / den in
          let r := (Zpos m * 100) mod den in
          if 2 * r <? den then q
          else if den <? 2 * r then q + 1
          else if Z.even q then q else q + 1 in
      if s then - h else h
  | _ => 0
  end.

(** [round(x, 1)], as the number of tenths of the result; the rounding is
    that of [round(x, 2)]. *)
Definition round1_tenths (x : float) : Z :=
  match Prim2SF x with
  | S754_finite s m e =>
      let h :=
        if 0 <=? e then Z.shiftl (Zpos m * 10) e
        else
          let den := Z.shiftl 1 (- e) in
          let q := (Zpos m * 10) / den in
          let r := (Zpos m * 10) mod den in
          if 2 * r <? den then q
          else if den <? 2 * r then q + 1
          else if Z.even q then q else q + 1 in
      if s then - h else h
  | _ => 0
  end.

End Py.

(** ** Data model *)

Definition datetime := Z.

Inductive Status := draft | published | archived.

Definition Status_eqb (a b : Status) : bool :=
  match a, b with
  | draft, draft | published, published | archived, archived => true
  | _, _ => false
  end.

Module Course.
(** [rating] is a DecimalField with two decimal places, kept in
    hundredths; [None] is SQL NULL. *)
Record t := mk {
  id : Z;
  creator : Z;
  is_public : bool;
  status : Status;
  rating : option Z;
  total_ratings : Z
}.
End Course.

Module CourseReview.
Record t := mk {
  id : Z;
  course : Z;
  user : Z;
  rating : Z
}.
End CourseReview.

Module LearningPath.
Record t := mk {
  id : Z;
  creator : Z;
  is_public : bool;
  status : Status
}.
End LearningPath.

Module LearningPathCourse.
Record t := mk {
  learning_path : Z;
  course : Z;
  order : Z;
  is_required : bool;
  notes : string
}.
End LearningPathCourse.

Module UserCourseProgress.
(** [time_spent_hours] is a DecimalField with two decimal places, kept in
    hundredths of an hour. *)
Record t := mk {
  id : Z;
  user : Z;
  course : Z;
  started_at : datetime;
  completed_at : option datetime;
  progress_percentage : Z;
  time_spent_hours : Z;
  notes : string
}.

Definition is_completed (self : t) : bool :=
  match completed_at self with Some _ => true | None => false end.

(** Names of the model's fields, as [_meta.get_field] knows them. *)
Definition field_names : list string :=
  ["id"; "user"; "course"; "started_at"; "completed_at";
   "progress_percentage"; "time_spent_hours"; "notes"]%string.
End UserCourseProgress.

Module UserLearningProgress.
(** The model declares no percentage column: the fields are exactly
    these (learning_paths/models.py, lines 139-162). *)
Record t := mk {
  id : Z;
  user : Z;
  learning_path : Z;
  started_at : datetime;
  completed_at : option datetime;
  current_course : option Z;
  notes : string
}.

Definition is_completed (self : t) : bool :=
  match completed_at self with Some _ => true | None => false end.

(** Names of the model's fields, as [_meta.get_field] knows them. *)
Definition field_names : list string :=
  ["id"; "user"; "learning_path"; "started_at"; "completed_at";
   "current_course"; "notes"]%string.
End UserLearningProgress.

(** The relational store. *)
Record DB := mkDB {
  courses : list Course.t;
  reviews : list CourseReview.t;
  learning_paths : list LearningPath.t;
  path_courses : list LearningPathCourse.t;
  course_progress : list UserCourseProgress.t;
  learning_progress : list UserLearningProgress.t
}.

Definition count {A} (l : list A) : Z := Z.of_nat (List.length l).

Definition exists_ {A} (l : list A) : bool :=
  match l with [] => false | _ :: _ => true end.

(** ** Progress calculator (learning_paths/models.py, lines 177-190) *)

(** [self.learning_path.path_courses.filter(is_required=True)] *)
Definition required_courses (db : DB) (self : UserLearningProgress.t)
  : list LearningPathCourse.t :=
  filter
    (fun pc =>
       (LearningPathCourse.learning_path pc =? UserLearningProgress.learning_path self)
       && LearningPathCourse.is_required pc)
    (path_courses db).

(** [self.user.course_progress.filter(course__in=required_courses.values('course'),
     completed_at__isnull=False).count()] *)
Definition completed_courses (db : DB) (self : UserLearningProgress.t) : Z :=
  count
    (filter
       (fun p =>
          (UserCourseProgress.user p =? UserLearningProgress.user self)
          && existsb
               (fun pc => LearningPathCourse.course pc =? UserCourseProgress.course p)
               (required_courses db self)
          && UserCourseProgress.is_completed p)
       (course_progress db)).

(** [int((completed_courses / required_courses.count()) * 100)] *)
Definition percentage (completed required : Z) : Z :=
  Py.int (PrimFloat.mul (Py.truediv completed required) (Py.float_of_int 100)).

Definition calculate_progress (db : DB) (self : UserLearningProgress.t) : Z :=
  let required := required_courses db self in
  if negb (exists_ required) then
    if UserLearningProgress.is_completed self then 100 else 0
  else
    percentage (completed_courses db self) (count required).

(** ** Requests, responses and permissions *)

Inductive RequestUser := AnonymousUser | User (pk : Z).

Definition is_authenticated (u : RequestUser) : bool :=
  match u with User _ => true | AnonymousUser => false end.

(** [obj.creator == request.user], [queryset.filter(user=request.user)] *)
Definition is_user (u : RequestUser) (pk : Z) : bool :=
  match u with User uid => uid =? pk | AnonymousUser => false end.

Inductive Method := GET | HEAD | OPTIONS | POST | PUT | PATCH | DELETE.

Definition SAFE_METHODS (m : Method) : bool :=
  match m with GET | HEAD | OPTIONS => true | _ => false end.

Inductive status_code :=
| HTTP_200_OK
| HTTP_201_CREATED
| HTTP_204_NO_CONTENT
| HTTP_400_BAD_REQUEST
| HTTP_403_FORBIDDEN
| HTTP_404_NOT_FOUND.

(** Exceptions that leave a view.  The framework answers [NotAuthenticated]
    with 401 (or 403 without a challenge header), [PermissionDenied] with
    403 and [Http404] with 404; [FieldError] and [IntegrityError] are not
    caught anywhere and end the request as a server error. *)
Inductive Exception :=
| NotAuthenticated
| PermissionDenied
| Http404
| ValidationError
| FieldError
| IntegrityError
| TypeError.

(** What a view hands back: serializer data with a status, a
    [{'detail': ...}] body with a status, or an exception. *)
Inductive Response (A : Type) :=
| Data (st : status_code) (data : A)
| Detail (st : status_code) (detail : string)
| Raise (e : Exception).

Arguments Data {A} st data.
Arguments Detail {A} st detail.
Arguments Raise {A} e.

(** [rest_framework.permissions.IsAuthenticated.has_permission] *)
Definition IsAuthenticated (u : RequestUser) : bool := is_authenticated u.

(** Objects that carry the fields the visibility filter and the object
    permission read. *)
Class Owned (A : Type) := {
  pk_of : A -> Z;
  creator_of : A -> Z;
  is_public_of : A -> bool;
  status_of : A -> Status
}.

#[global] Instance Course_Owned : Owned Course.t :=
  {| pk_of := Course.id; creator_of := Course.creator;
     is_public_of := Course.is_public; status_of := Course.status |}.

#[global] Instance LearningPath_Owned : Owned LearningPath.t :=
  {| pk_of := LearningPath.id; creator_of := LearningPath.creator;
     is_public_of := LearningPath.is_public; status_of := LearningPath.status |}.

(** learning_paths/permissions.py, [IsOwnerOrReadOnly.has_object_permission] *)
Definition IsOwnerOrReadOnly {A} `{Owned A} (m : Method) (u : RequestUser) (obj : A) : bool :=
  if SAFE_METHODS m then true else is_user u (creator_of obj).

(** learning_paths/permissions.py, [IsOwner.has_object_permission] *)
Definition IsOwner {A} `{Owned A} (m : Method) (u : RequestUser) (obj : A) : bool :=
  is_user u (creator_of obj).

(** learning_paths/permissions.py,
    [IsOwnerOrReadOnlyForPublic.has_object_permission]; every [Owned] object
    has the attribute [is_public]. *)
Definition IsOwnerOrReadOnlyForPublic {A} `{Owned A}
    (m : Method) (u : RequestUser) (obj : A) : bool :=
  if SAFE_METHODS m then
    if is_public_of obj then true
    else is_user u (creator_of obj)
  else is_user u (creator_of obj).

(** [Q(is_public=True, status='published')] *)
Definition public_published {A} `{Owned A} (x : A) : bool :=
  is_public_of x && Status_eqb (status_of x) published.

Section ModelViewSet.
Context {A : Type} `{Owned A}.

(** [get_queryset] of [CourseViewSet] (courses/views.py, lines 57-71) and
    of [LearningPathViewSet] (learning_paths/views.py, lines 39-53): the
    two bodies differ in the model only. *)
Definition get_queryset (objects : list A) (u : RequestUser) : list A :=
  match u with
  | AnonymousUser => filter public_published objects
  | User uid =>
      filter (fun x => public_published x || (creator_of x =? uid)) objects
  end.

(** [permission_classes = [permissions.IsAuthenticated, IsOwnerOrReadOnly]]:
    [initial()] runs the class-level checks before the handler. *)
Definition check_permissions (u : RequestUser) : bool := IsAuthenticated u.

(** [GenericAPIView.get_object]: look the key up in the queryset, then run
    the object permissions.  Every name in the [filterset_fields] of the
    two viewsets is a field of its model, so [DjangoFilterBackend] lets the
    queryset through; search and ordering do not change which key is
    found. *)
Definition get_object (objects : list A) (m : Method) (u : RequestUser) (pk : Z)
  : Exception + A :=
  match find (fun x => pk_of x =? pk) (get_queryset objects u) with
  | None => inl Http404
  | Some obj => if IsOwnerOrReadOnly m u obj then inr obj else inl PermissionDenied
  end.

(** The [list] action, for a request without filter, search or paging
    parameters: the entities of the answer.  Their order in the answer
    ([ordering = ['-created_at']]) is outside the embedding. *)
Definition list_action (objects : list A) (u : RequestUser) : Response (list A) :=
  if check_permissions u then Data HTTP_200_OK (get_queryset objects u)
  else Raise NotAuthenticated.

(** The [retrieve] action. *)
Definition retrieve (objects : list A) (u : RequestUser) (pk : Z) : Response A :=
  if check_permissions u then
    match get_object objects GET u pk with
    | inr obj => Data HTTP_200_OK obj
    | inl e => Raise e
    end
  else Raise NotAuthenticated.
End ModelViewSet.

(** [Manager.get_or_create]'s check of the names it is about to pass to the
    model constructor ([QuerySet._extract_model_params]): a name that is no
    field of the model raises [FieldError]. *)
Definition extract_model_params (field_names : list string) (defaults : list (string * Z))
  : Exception + list (string * Z) :=
  if forallb (fun kv => existsb (String.eqb (fst kv)) field_names) defaults
  then inr defaults
  else inl FieldError.

(** [DjangoFilterBackend.filter_queryset]: the backend builds a filter set
    for the view's [filterset_fields]; django-filter refuses a name that is
    no field of the model with [TypeError] ("'Meta.fields' must not contain
    non-model field names").  A filter set that could be built, on a
    request without query parameters, lets the queryset through. *)
Definition DjangoFilterBackend {A} (field_names filterset_fields : list string)
    (queryset : list A) : Exception + list A :=
  if forallb (fun name => existsb (String.eqb name) field_names) filterset_fields
  then inr queryset
  else inl TypeError.

Fixpoint lookup_default (name : string) (params : list (string * Z)) (dflt : Z) : Z :=
  match params with
  | [] => dflt
  | (k, v) :: rest => if String.eqb k name then v else lookup_default name rest dflt
  end.

(** Next value of an auto-increment primary key. *)
Definition next_id (ids : list Z) : Z := 1 + fold_right Z.max 0 ids.

(** ** Table updates *)

Definition with_courses (db : DB) (t : list Course.t) : DB :=
  mkDB t (reviews db) (learning_paths db) (path_courses db)
       (course_progress db) (learning_progress db).

Definition with_reviews (db : DB) (t : list CourseReview.t) : DB :=
  mkDB (courses db) t (learning_paths db) (path_courses db)
       (course_progress db) (learning_progress db).

Definition with_learning_paths (db : DB) (t : list LearningPath.t) : DB :=
  mkDB (courses db) (reviews db) t (path_courses db)
       (course_progress db) (learning_progress db).

Definition with_path_courses (db : DB) (t : list LearningPathCourse.t) : DB :=
  mkDB (courses db) (reviews db) (learning_paths db) t
       (course_progress db) (learning_progress db).

Definition with_course_progress (db : DB) (t : list UserCourseProgress.t) : DB :=
  mkDB (courses db) (reviews db) (learning_paths db) (path_courses db)
       t (learning_progress db).

Definition with_learning_progress (db : DB) (t : list UserLearningProgress.t) : DB :=
  mkDB (courses db) (reviews db) (learning_paths db) (path_courses db)
       (course_progress db) t.

(** [Course.objects.get(id=...)]: [None] stands for [Course.DoesNotExist]. *)
Definition Course_objects_get (db : DB) (pk : Z) : option Course.t :=
  find (fun c => Course.id c =? pk) (courses db).

(** ** Course progress (courses/views.py) *)

Module CourseViewSet.

(** [start_course], lines 118-139. *)
Definition start_course (db : DB) (u : RequestUser) (now : datetime) (pk : Z)
  : DB * Response UserCourseProgress.t :=
  match u with
  | AnonymousUser => (db, Raise NotAuthenticated)
  | User uid =>
      match get_object (courses db) POST u pk with
      | inl e => (db, Raise e)
      | inr course =>
          match find (fun p => (UserCourseProgress.user p =? uid)
                               && (UserCourseProgress.course p =? Course.id course))
                     (course_progress db) with
          | Some _ =>
              (db, Detail HTTP_400_BAD_REQUEST "You have already started this course.")
          | None =>
              match extract_model_params UserCourseProgress.field_names
                      [("progress_percentage"%string, 0)] with
              | inl e => (db, Raise e)
              | inr params =>
                  let progress :=
                    UserCourseProgress.mk
                      (next_id (map UserCourseProgress.id (course_progress db)))
                      uid (Course.id course) now None
                      (lookup_default "progress_percentage" params 0) 0 "" in
                  (with_course_progress db (course_progress db ++ [progress]),
                   Data HTTP_201_CREATED progress)
              end
          end
      end
  end.

End CourseViewSet.

Module UserCourseProgressViewSet.

(** Body of an [update_progress] request; [None] is a key that is absent
    (or null). *)
Record UpdateData := {
  progress_percentage : option Z;
  time_spent_hours : option Z;
  notes : option string
}.

(** [UserCourseProgress.objects.filter(user=self.request.user)] *)
Definition get_queryset (db : DB) (u : RequestUser) : list UserCourseProgress.t :=
  filter (fun p => is_user u (UserCourseProgress.user p)) (course_progress db).

(** [filterset_fields = ['course', 'progress_percentage']] (line 264) *)
Definition filterset_fields : list string := ["course"; "progress_percentage"]%string.

(** [GenericAPIView.get_object].  Every name of [filterset_fields] is a
    field of the model, so the filter backend lets the queryset through
    (see [course_filterset_fields_pass]). *)
Definition get_object (db : DB) (u : RequestUser) (pk : Z)
  : Exception + UserCourseProgress.t :=
  match find (fun p => UserCourseProgress.id p =? pk) (get_queryset db u) with
  | Some p => inr p
  | None => inl Http404
  end.

(** [progress.save()]: the row with this primary key is overwritten. *)
Definition save (db : DB) (p : UserCourseProgress.t) : DB :=
  with_course_progress db
    (map (fun q => if UserCourseProgress.id q =? UserCourseProgress.id p then p else q)
         (course_progress db)).

Definition set_completed_at (v : option datetime) (p : UserCourseProgress.t) :=
  UserCourseProgress.mk (UserCourseProgress.id p) (UserCourseProgress.user p)
    (UserCourseProgress.course p) (UserCourseProgress.started_at p) v
    (UserCourseProgress.progress_percentage p) (UserCourseProgress.time_spent_hours p)
    (UserCourseProgress.notes p).

Definition set_progress_percentage (v : Z) (p : UserCourseProgress.t) :=
  UserCourseProgress.mk (UserCourseProgress.id p) (UserCourseProgress.user p)
    (UserCourseProgress.course p) (UserCourseProgress.started_at p)
    (UserCourseProgress.completed_at p) v (UserCourseProgress.time_spent_hours p)
    (UserCourseProgress.notes p).

Definition set_time_spent_hours (v : Z) (p : UserCourseProgress.t) :=
  UserCourseProgress.mk (UserCourseProgress.id p) (UserCourseProgress.user p)
    (UserCourseProgress.course p) (UserCourseProgress.started_at p)
    (UserCourseProgress.completed_at p) (UserCourseProgress.progress_percentage p) v
    (UserCourseProgress.notes p).

Definition set_notes (v : string) (p : UserCourseProgress.t) :=
  UserCourseProgress.mk (UserCourseProgress.id p) (UserCourseProgress.user p)
    (UserCourseProgress.course p) (UserCourseProgress.started_at p)
    (UserCourseProgress.completed_at p) (UserCourseProgress.progress_percentage p)
    (UserCourseProgress.time_spent_hours p) v.

(** [mark_completed], lines 280-299. *)
Definition mark_completed (db : DB) (u : RequestUser) (now : datetime) (pk : Z)
  : DB * Response UserCourseProgress.t :=
  if negb (IsAuthenticated u) then (db, Raise NotAuthenticated) else
  match get_object db u pk with
  | inl e => (db, Raise e)
  | inr progress =>
      if UserCourseProgress.is_completed progress then
        (db, Detail HTTP_400_BAD_REQUEST "Course is already completed.")
      else
        let progress := set_completed_at (Some now) progress in
        let progress := set_progress_percentage 100 progress in
        (save db progress, Data HTTP_200_OK progress)
  end.

(** Lines 312-324: the percentage block of [update_progress]. *)
Definition apply_progress_percentage (now : datetime) (v : option Z)
    (progress : UserCourseProgress.t)
  : Response UserCourseProgress.t + UserCourseProgress.t :=
  match v with
  | None => inr progress
  | Some v =>
      if (0 <=? v) && (v <=? 100) then
        let progress := set_progress_percentage v progress in
        if v =? 100 then inr (set_completed_at (Some now) progress)
        else inr progress
      else
        inl (Detail HTTP_400_BAD_REQUEST
               "Progress percentage must be between 0 and 100.")
  end.

(** Lines 326-333: the time block of [update_progress]. *)
Definition apply_time_spent_hours (v : option Z) (progress : UserCourseProgress.t)
  : Response UserCourseProgress.t + UserCourseProgress.t :=
  match v with
  | None => inr progress
  | Some v =>
      if 0 <=? v then inr (set_time_spent_hours v progress)
      else inl (Detail HTTP_400_BAD_REQUEST "Time spent must be non-negative.")
  end.

Definition apply_notes (v : option string) (progress : UserCourseProgress.t) :=
  match v with
  | None => progress
  | Some v => set_notes v progress
  end.

(** [update_progress], lines 301-340.  [Data] carries the record that the
    serializer renders; the rendering needs a time that fits the column's
    six digits (see [time_spent_hours_fits]). *)
Definition update_progress (db : DB) (u : RequestUser) (now : datetime) (pk : Z)
    (data : UpdateData) : DB * Response UserCourseProgress.t :=
  if negb (IsAuthenticated u) then (db, Raise NotAuthenticated) else
  match get_object db u pk with
  | inl e => (db, Raise e)
  | inr progress =>
      match apply_progress_percentage now (progress_percentage data) progress with
      | inl response => (db, response)
      | inr progress =>
          match apply_time_spent_hours (time_spent_hours data) progress with
          | inl response => (db, response)
          | inr progress =>
              let progress := apply_notes (notes data) progress in
              (save db progress, Data HTTP_200_OK progress)
          end
      end
  end.

End UserCourseProgressViewSet.

(** ** Learning-path progress (learning_paths/serializers.py, views.py) *)

(** A Python model instance: the values of the model's fields, and the
    other attributes that code has set on the object.  Only the fields are
    columns of the table. *)
Record Instance := {
  fields : UserLearningProgress.t;
  attrs : list (string * Z)
}.

Definition from_db (row : UserLearningProgress.t) : Instance :=
  {| fields := row; attrs := [] |}.

(** [obj.name = v] for a name that is no field of the model. *)
Definition setattr (name : string) (v : Z) (obj : Instance) : Instance :=
  {| fields := fields obj; attrs := (name, v) :: attrs obj |}.

Module UserLearningProgressSerializer.

(** The serialized fields (lines 136-142): the model's columns, the
    read-only [is_completed] property and the method field [progress]. *)
Record data := {
  instance : UserLearningProgress.t;
  progress : Z;
  is_completed : bool
}.

(** [get_progress], lines 144-145. *)
Definition get_progress (db : DB) (obj : Instance) : Z :=
  calculate_progress db (fields obj).

Definition to_representation (db : DB) (obj : Instance) : data :=
  {| instance := fields obj;
     progress := get_progress db obj;
     is_completed := UserLearningProgress.is_completed (fields obj) |}.

End UserLearningProgressSerializer.

Module UserLearningProgressViewSet.

(** Body of an [update_progress] request. *)
Record UpdateData := {
  progress_percentage : option Z;
  current_course_id : option Z;
  notes : option string
}.

(** [UserLearningProgress.objects.filter(user=self.request.user)] *)
Definition get_queryset (db : DB) (u : RequestUser) : list UserLearningProgress.t :=
  filter (fun p => is_user u (UserLearningProgress.user p)) (learning_progress db).

(** [filterset_fields = ['learning_path', 'progress_percentage']] (line 214) *)
Definition filterset_fields : list string :=
  ["learning_path"; "progress_percentage"]%string.

(** [filter_queryset], with [filter_backends = [DjangoFilterBackend,
    OrderingFilter]]. *)
Definition filter_queryset (queryset : list UserLearningProgress.t)
  : Exception + list UserLearningProgress.t :=
  DjangoFilterBackend UserLearningProgress.field_names filterset_fields queryset.

(** [GenericAPIView.get_object]: the queryset goes through the filter
    backends before the key is looked up. *)
Definition get_object (db : DB) (u : RequestUser) (pk : Z) : Exception + Instance :=
  match filter_queryset (get_queryset db u) with
  | inl e => inl e
  | inr queryset =>
      match find (fun p => UserLearningProgress.id p =? pk) queryset with
      | Some p => inr (from_db p)
      | None => inl Http404
      end
  end.

(** [progress.save()]: the model's columns of the row with this primary
    key are overwritten. *)
Definition save (db : DB) (obj : Instance) : DB :=
  with_learning_progress db
    (map (fun q =>
            if UserLearningProgress.id q =? UserLearningProgress.id (fields obj)
            then fields obj else q)
         (learning_progress db)).

Definition set_completed_at (v : option datetime) (obj : Instance) : Instance :=
  let p := fields obj in
  {| fields :=
       UserLearningProgress.mk (UserLearningProgress.id p) (UserLearningProgress.user p)
         (UserLearningProgress.learning_path p) (UserLearningProgress.started_at p) v
         (UserLearningProgress.current_course p) (UserLearningProgress.notes p);
     attrs := attrs obj |}.

Definition set_current_course (v : option Z) (obj : Instance) : Instance :=
  let p := fields obj in
  {| fields :=
       UserLearningProgress.mk (UserLearningProgress.id p) (UserLearningProgress.user p)
         (UserLearningProgress.learning_path p) (UserLearningProgress.started_at p)
         (UserLearningProgress.completed_at p) v (UserLearningProgress.notes p);
     attrs := attrs obj |}.

Definition set_notes (v : string) (obj : Instance) : Instance :=
  let p := fields obj in
  {| fields :=
       UserLearningProgress.mk (UserLearningProgress.id p) (UserLearningProgress.user p)
         (UserLearningProgress.learning_path p) (UserLearningProgress.started_at p)
         (UserLearningProgress.completed_at p) (UserLearningProgress.current_course p) v;
     attrs := attrs obj |}.

(** [mark_completed], lines 230-249. *)
Definition mark_completed (db : DB) (u : RequestUser) (now : datetime) (pk : Z)
  : DB * Response UserLearningProgressSerializer.data :=
  if negb (IsAuthenticated u) then (db, Raise NotAuthenticated) else
  match get_object db u pk with
  | inl e => (db, Raise e)
  | inr progress =>
      if UserLearningProgress.is_completed (fields progress) then
        (db, Detail HTTP_400_BAD_REQUEST "Learning path is already completed.")
      else
        let progress := set_completed_at (Some now) progress in
        let progress := setattr "progress_percentage" 100 progress in
        let db := save db progress in
        (db, Data HTTP_200_OK (UserLearningProgressSerializer.to_representation db progress))
  end.

(** Lines 262-274: the percentage block of [update_progress]. *)
Definition apply_progress_percentage (now : datetime) (v : option Z) (progress : Instance)
  : Response UserLearningProgressSerializer.data + Instance :=
  match v with
  | None => inr progress
  | Some v =>
      if (0 <=? v) && (v <=? 100) then
        let progress := setattr "progress_percentage" v progress in
        if v =? 100 then inr (set_completed_at (Some now) progress)
        else inr progress
      else
        inl (Detail HTTP_400_BAD_REQUEST
               "Progress percentage must be between 0 and 100.")
  end.

(** Lines 276-285: the current-course block of [update_progress]. *)
Definition apply_current_course (db : DB) (v : option Z) (progress : Instance)
  : Response UserLearningProgressSerializer.data + Instance :=
  match v with
  | None => inr progress
  | Some current_course_id =>
      match Course_objects_get db current_course_id with
      | Some course => inr (set_current_course (Some (Course.id course)) progress)
      | None => inl (Detail HTTP_404_NOT_FOUND "Course not found.")
      end
  end.

Definition apply_notes (v : option string) (progress : Instance) : Instance :=
  match v with
  | None => progress
  | Some v => set_notes v progress
  end.

(** [update_progress], lines 251-292. *)
Definition update_progress (db : DB) (u : RequestUser) (now : datetime) (pk : Z)
    (data : UpdateData) : DB * Response UserLearningProgressSerializer.data :=
  if negb (IsAuthenticated u) then (db, Raise NotAuthenticated) else
  match get_object db u pk with
  | inl e => (db, Raise e)
  | inr progress =>
      match apply_progress_percentage now (progress_percentage data) progress with
      | inl response => (db, response)
      | inr progress =>
          match apply_current_course db (current_course_id data) progress with
          | inl response => (db, response)
          | inr progress =>
              let progress := apply_notes (notes data) progress in
              let db := save db progress in
              (db, Data HTTP_200_OK
                     (UserLearningProgressSerializer.to_representation db progress))
          end
      end
  end.

End UserLearningProgressViewSet.

(** ** Learning paths and their courses *)

(** [LearningPathCourse.objects.create(...)]: [order] is a
    [PositiveIntegerField], whose column carries the check [order >= 0],
    and [unique_together = ['learning_path', 'course']] makes a second row
    for the same pair an error; the database refuses either with
    [IntegrityError]. *)
Definition LearningPathCourse_objects_create (db : DB) (pc : LearningPathCourse.t)
  : Exception + DB :=
  if negb (0 <=? LearningPathCourse.order pc) then inl IntegrityError
  else if existsb
       (fun q => (LearningPathCourse.learning_path q =? LearningPathCourse.learning_path pc)
                 && (LearningPathCourse.course q =? LearningPathCourse.course pc))
       (path_courses db)
  then inl IntegrityError
  else inr (with_path_courses db (path_courses db ++ [pc])).

Module LearningPathCreateUpdateSerializer.

(** The validated fields that the embedded code reads; [None] is a key
    that the request did not carry. *)
Record validated_data := {
  is_public : option bool;
  status : option Status;
  course_ids : option (list Z)
}.

(** [enumerate(course_ids, 1)] *)
Definition enumerate1 (l : list Z) : list (Z * Z) :=
  combine (map Z.of_nat (seq 1 (List.length l))) l.

(** The loop of lines 87-96 (and 112-121).  The store that the loop has
    reached is returned together with the exception that ended it, if
    any. *)
Fixpoint add_courses (db : DB) (learning_path : Z) (items : list (Z * Z))
  : DB * option Exception :=
  match items with
  | [] => (db, None)
  | (i, course_id) :: rest =>
      match Course_objects_get db course_id with
      | Some course =>
          match LearningPathCourse_objects_create db
                  (LearningPathCourse.mk learning_path (Course.id course) i true "") with
          | inr db => add_courses db learning_path rest
          | inl e => (db, Some e)
          end
      | None => add_courses db learning_path rest
      end
  end.

Definition default {A} (v : option A) (d : A) : A :=
  match v with Some x => x | None => d end.

(** [create], lines 78-98; [user] is [self.context['request'].user]. *)
Definition create (db : DB) (user : Z) (data : validated_data)
  : DB * (Exception + LearningPath.t) :=
  let course_ids := default (course_ids data) [] in
  let learning_path :=
    LearningPath.mk (next_id (map LearningPath.id (learning_paths db))) user
      (default (is_public data) true) (default (status data) draft) in
  let db := with_learning_paths db (learning_paths db ++ [learning_path]) in
  match add_courses db (LearningPath.id learning_path) (enumerate1 course_ids) with
  | (db, None) => (db, inr learning_path)
  | (db, Some e) => (db, inl e)
  end.

(** [update], lines 100-123. *)
Definition update (db : DB) (instance : LearningPath.t) (data : validated_data)
  : DB * (Exception + LearningPath.t) :=
  let learning_path :=
    LearningPath.mk (LearningPath.id instance) (LearningPath.creator instance)
      (default (is_public data) (LearningPath.is_public instance))
      (default (status data) (LearningPath.status instance)) in
  let db :=
    with_learning_paths db
      (map (fun q => if LearningPath.id q =? LearningPath.id learning_path
                     then learning_path else q)
           (learning_paths db)) in
  match course_ids data with
  | None => (db, inr learning_path)
  | Some course_ids =>
      let db :=
        with_path_courses db
          (filter (fun pc => negb (LearningPathCourse.learning_path pc
                                   =? LearningPath.id learning_path))
                  (path_courses db)) in
      match add_courses db (LearningPath.id learning_path) (enumerate1 course_ids) with
      | (db, None) => (db, inr learning_path)
      | (db, Some e) => (db, inl e)
      end
  end.

End LearningPathCreateUpdateSerializer.

Module LearningPathViewSet.

(** [start_learning], lines 71-92. *)
Definition start_learning (db : DB) (u : RequestUser) (now : datetime) (pk : Z)
  : DB * Response UserLearningProgressSerializer.data :=
  match u with
  | AnonymousUser => (db, Raise NotAuthenticated)
  | User uid =>
      match get_object (learning_paths db) POST u pk with
      | inl e => (db, Raise e)
      | inr learning_path =>
          match find (fun p => (UserLearningProgress.user p =? uid)
                               && (UserLearningProgress.learning_path p
                                   =? LearningPath.id learning_path))
                     (learning_progress db) with
          | Some _ =>
              (db, Detail HTTP_400_BAD_REQUEST
                     "You have already started this learning path.")
          | None =>
              match extract_model_params UserLearningProgress.field_names
                      [("progress_percentage"%string, 0)] with
              | inl e => (db, Raise e)
              | inr _ =>
                  let progress :=
                    UserLearningProgress.mk
                      (next_id (map UserLearningProgress.id (learning_progress db)))
                      uid (LearningPath.id learning_path) now None None "" in
                  let db := with_learning_progress db (learning_progress db ++ [progress]) in
                  (db, Data HTTP_201_CREATED
                         (UserLearningProgressSerializer.to_representation db
                            (from_db progress)))
              end
          end
      end
  end.

(** [progress], lines 94-112. *)
Definition progress (db : DB) (u : RequestUser) (pk : Z)
  : Response UserLearningProgressSerializer.data :=
  match u with
  | AnonymousUser => Raise NotAuthenticated
  | User uid =>
      match get_object (learning_paths db) GET u pk with
      | inl e => Raise e
      | inr learning_path =>
          match find (fun p => (UserLearningProgress.user p =? uid)
                               && (UserLearningProgress.learning_path p
                                   =? LearningPath.id learning_path))
                     (learning_progress db) with
          | Some progress =>
              Data HTTP_200_OK
                (UserLearningProgressSerializer.to_representation db (from_db progress))
          | None =>
              Detail HTTP_404_NOT_FOUND "You have not started this learning path yet."
          end
      end
  end.

(** Body of an [add_course] request. *)
Record AddCourseData := {
  course_id : option Z;
  order : option Z;
  is_required : option bool;
  notes : option string
}.

(** [LearningPath.total_courses]: [self.courses.count()] *)
Definition total_courses (db : DB) (learning_path : LearningPath.t) : Z :=
  count (filter (fun pc => LearningPathCourse.learning_path pc
                           =? LearningPath.id learning_path)
                (path_courses db)).

(** Truth value of [request.data.get('course_id')]: a missing key and 0
    are falsy. *)
Definition truthy (v : option Z) : bool :=
  match v with Some n => negb (n =? 0) | None => false end.

(** [add_course], lines 114-168. *)
Definition add_course (db : DB) (u : RequestUser) (pk : Z) (data : AddCourseData)
  : DB * Response LearningPathCourse.t :=
  match u with
  | AnonymousUser => (db, Raise NotAuthenticated)
  | User uid =>
      match get_object (learning_paths db) POST u pk with
      | inl e => (db, Raise e)
      | inr learning_path =>
          if negb (LearningPath.creator learning_path =? uid) then
            (db, Detail HTTP_403_FORBIDDEN "You can only modify your own learning paths.")
          else
            let order :=
              LearningPathCreateUpdateSerializer.default (order data)
                (total_courses db learning_path + 1) in
            let is_required :=
              LearningPathCreateUpdateSerializer.default (is_required data) true in
            let notes :=
              LearningPathCreateUpdateSerializer.default (notes data) ""%string in
            if negb (truthy (course_id data)) then
              (db, Detail HTTP_400_BAD_REQUEST "course_id is required.")
            else
              match Course_objects_get db
                      (LearningPathCreateUpdateSerializer.default (course_id data) 0) with
              | None => (db, Detail HTTP_404_NOT_FOUND "Course not found.")
              | Some course =>
                  if existsb
                       (fun q => (LearningPathCourse.learning_path q
                                  =? LearningPath.id learning_path)
                                 && (LearningPathCourse.course q =? Course.id course))
                       (path_courses db)
                  then
                    (db, Detail HTTP_400_BAD_REQUEST
                           "Course is already in this learning path.")
                  else
                    let path_course :=
                      LearningPathCourse.mk (LearningPath.id learning_path)
                        (Course.id course) order is_required notes in
                    match LearningPathCourse_objects_create db path_course with
                    | inr db => (db, Data HTTP_201_CREATED path_course)
                    | inl e => (db, Raise e)
                    end
              end
      end
  end.

(** Outcome of [Model.objects.get(...)] on the rows that pass the lookup. *)
Inductive GetResult (A : Type) :=
| Found (a : A)
| DoesNotExist
| MultipleObjectsReturned.

Arguments Found {A} a.
Arguments DoesNotExist {A}.
Arguments MultipleObjectsReturned {A}.

Definition objects_get {A} (lookup : A -> bool) (rows : list A) : GetResult A :=
  match filter lookup rows with
  | [] => DoesNotExist
  | [a] => Found a
  | _ :: _ :: _ => MultipleObjectsReturned
  end.

(** An exception of the ORM that [remove_course] does not catch. *)
Inductive Uncaught := Uncaught_MultipleObjectsReturned.

(** The lookup [learning_path=learning_path, course_id=course_id]. *)
Definition in_path (learning_path course_id : Z) (pc : LearningPathCourse.t) : bool :=
  (LearningPathCourse.learning_path pc =? learning_path)
  && (LearningPathCourse.course pc =? course_id).

(** [remove_course], lines 170-204; [course_id] is
    [request.data.get('course_id')].  The row that [get] found is the only
    one that passes the lookup, so deleting it removes the rows that pass
    the lookup. *)
Definition remove_course (db : DB) (u : RequestUser) (pk : Z) (course_id : option Z)
  : DB * (Uncaught + Response unit) :=
  match u with
  | AnonymousUser => (db, inr (Raise NotAuthenticated))
  | User uid =>
      match get_object (learning_paths db) DELETE u pk with
      | inl e => (db, inr (Raise e))
      | inr learning_path =>
          if negb (LearningPath.creator learning_path =? uid) then
            (db, inr (Detail HTTP_403_FORBIDDEN
                        "You can only modify your own learning paths."))
          else if negb (truthy course_id) then
            (db, inr (Detail HTTP_400_BAD_REQUEST "course_id is required."))
          else
            let lookup :=
              in_path (LearningPath.id learning_path)
                (LearningPathCreateUpdateSerializer.default course_id 0) in
            match objects_get lookup (path_courses db) with
            | Found path_course =>
                (with_path_courses db
                   (filter (fun pc => negb (lookup pc)) (path_courses db)),
                 inr (Data HTTP_204_NO_CONTENT tt))
            | DoesNotExist =>
                (db, inr (Detail HTTP_404_NOT_FOUND
                            "Course not found in this learning path."))
            | MultipleObjectsReturned => (db, inl Uncaught_MultipleObjectsReturned)
            end
      end
  end.

(** [my_paths], lines 55-69, for a request without filter, search or paging
    parameters. *)
Definition my_paths (db : DB) (u : RequestUser) : Response (list LearningPath.t) :=
  match u with
  | AnonymousUser => Raise NotAuthenticated
  | User uid =>
      Data HTTP_200_OK
        (filter (fun p => LearningPath.creator p =? uid) (learning_paths db))
  end.

End LearningPathViewSet.

(** ** The [progress] action of [CourseViewSet] (courses/views.py, lines 141-159) *)

Module CourseProgressAction.

(** The lookup [user=request.user, course=course]. *)
Definition of_user_and_course (uid course : Z) (p : UserCourseProgress.t) : bool :=
  (UserCourseProgress.user p =? uid) && (UserCourseProgress.course p =? course).

(** [progress]: [get_object] runs as for any detail route (the method is
    GET); [DoesNotExist] is caught and answered with 404, a second row for
    the same user and course is not. *)
Definition progress (db : DB) (u : RequestUser) (pk : Z)
  : LearningPathViewSet.Uncaught + Response UserCourseProgress.t :=
  match u with
  | AnonymousUser => inr (Raise NotAuthenticated)
  | User uid =>
      match get_object (courses db) GET u pk with
      | inl e => inr (Raise e)
      | inr course =>
          match LearningPathViewSet.objects_get
                  (of_user_and_course uid (Course.id course)) (course_progress db) with
          | LearningPathViewSet.Found progress => inr (Data HTTP_200_OK progress)
          | LearningPathViewSet.DoesNotExist =>
              inr (Detail HTTP_404_NOT_FOUND "You have not started this course yet.")
          | LearningPathViewSet.MultipleObjectsReturned =>
              inl LearningPathViewSet.Uncaught_MultipleObjectsReturned
          end
      end
  end.

End CourseProgressAction.

(** ** The [featured] action of [CourseViewSet] (courses/views.py, lines 89-100) *)

Module CourseFeatured.

(** [filter(rating__gte=4.0, total_ratings__gte=10)]; a NULL rating passes
    no comparison. *)
Definition is_featured (c : Course.t) : bool :=
  match Course.rating c with
  | Some h => 400 <=? h
  | None => false
  end
  && (10 <=? Course.total_ratings c).

Definition rating_key (c : Course.t) : Z :=
  match Course.rating c with Some h => h | None => 0 end.

(** [order_by('-rating', '-total_ratings')]: [a] may stand before [b]. *)
Definition before (a b : Course.t) : bool :=
  (rating_key b <? rating_key a)
  || ((rating_key a =? rating_key b) && (Course.total_ratings b <=? Course.total_ratings a)).

Fixpoint insert (x : Course.t) (l : list Course.t) : list Course.t :=
  match l with
  | [] => [x]
  | y :: l' => if before x y then x :: l else y :: insert x l'
  end.

(** The rows in the order of [before]; rows that [before] does not tell
    apart keep the order of the table (the database is free there). *)
Fixpoint order_by (l : list Course.t) : list Course.t :=
  match l with
  | [] => []
  | x :: l' => insert x (order_by l')
  end.

(** [featured]: the slice [[:20]] of the ordered, filtered queryset; the
    action neither filters further nor paginates. *)
Definition featured (db : DB) (u : RequestUser) : Response (list Course.t) :=
  if negb (IsAuthenticated u) then Raise NotAuthenticated
  else
    Data HTTP_200_OK
      (firstn 20 (order_by (filter is_featured (get_queryset (courses db) u)))).

End CourseFeatured.

(** ** The user dashboard (authentication/views.py, lines 143-219) *)

Module Dashboard.

(** The [statistics] entry of the answer; the two averages are kept in
    tenths. *)
Record statistics := {
  learning_paths_created : Z;
  courses_added : Z;
  learning_paths_started : Z;
  learning_paths_completed : Z;
  courses_started : Z;
  courses_completed : Z;
  avg_learning_path_progress : Z;
  avg_course_progress : Z
}.

(** [UserLearningProgress.objects.filter(user=user)] *)
Definition learning_progress_of (db : DB) (user : Z) : list UserLearningProgress.t :=
  filter (fun p => UserLearningProgress.user p =? user) (learning_progress db).

(** [UserCourseProgress.objects.filter(user=user)] *)
Definition course_progress_of (db : DB) (user : Z) : list UserCourseProgress.t :=
  filter (fun p => UserCourseProgress.user p =? user) (course_progress db).

(** [sum([...])] *)
Definition sum (l : list Z) : Z := fold_right Z.add 0 l.

(** Lines 170-178 and 192-193: the average starts as the int [0] and is
    [total_progress / started] when something was started; the answer
    carries [round(average, 1)]. *)
Definition average (total_progress started : Z) : Z :=
  if 0 <? started then Py.round1_tenths (Py.truediv total_progress started) else 0.

(** The statistics that [user_dashboard] computes for [request.user], a
    user with a profile. *)
Definition user_dashboard (db : DB) (user : Z) : statistics :=
  let learning_progress := learning_progress_of db user in
  let course_progress := course_progress_of db user in
  let total_learning_paths_started := count learning_progress in
  let total_courses_started := count course_progress in
  {| learning_paths_created :=
       count (filter (fun p => LearningPath.creator p =? user) (learning_paths db));
     courses_added := count (filter (fun c => Course.creator c =? user) (courses db));
     learning_paths_started := total_learning_paths_started;
     learning_paths_completed :=
       count (filter UserLearningProgress.is_completed learning_progress);
     courses_started := total_courses_started;
     courses_completed := count (filter UserCourseProgress.is_completed course_progress);
     avg_learning_path_progress :=
       average (sum (map (calculate_progress db) learning_progress))
               total_learning_paths_started;
     avg_course_progress :=
       average (sum (map UserCourseProgress.progress_percentage course_progress))
               total_courses_started |}.

End Dashboard.

(** ** Rating aggregator (courses/views.py, lines 208-254) *)

Module CourseReviewViewSet.

(** Validated body of a create request
    ([CourseReviewCreateUpdateSerializer]: [course_id], [rating]). *)
Record CreateData := {
  c_course_id : Z;
  c_rating : Z
}.

(** Validated body of an update request; a partial update may leave a key
    out ([None]). *)
Record UpdateData := {
  course_id : option Z;
  rating : option Z
}.

(** [aggregate(avg_rating=Avg('rating'))['avg_rating']]: SQL NULL on no
    row, else the mean of the integer column as a float. *)
Definition Avg (ratings : list Z) : option float :=
  match ratings with
  | [] => None
  | _ :: _ => Some (Py.truediv (fold_right Z.add 0 ratings) (count ratings))
  end.

(** [CourseReview.objects.filter(course=course)] *)
Definition course_reviews (db : DB) (course : Z) : list CourseReview.t :=
  filter (fun r => CourseReview.course r =? course) (reviews db).

(** [round(avg_rating, 2) if avg_rating else None] *)
Definition rating_of_avg (avg_rating : option float) : option Z :=
  match avg_rating with
  | Some a => if Py.bool_of_float a then Some (Py.round2_hundredths a) else None
  | None => None
  end.

(** The five statements under "Update course rating" that close each of
    [perform_create], [perform_update] and [perform_destroy]; [course] is
    the key of the course object they write to. *)
Definition update_course_rating (db : DB) (course : Z) : DB :=
  let avg_rating := Avg (map CourseReview.rating (course_reviews db course)) in
  let rating := rating_of_avg avg_rating in
  let total_ratings := count (course_reviews db course) in
  with_courses db
    (map (fun c =>
            if Course.id c =? course then
              Course.mk (Course.id c) (Course.creator c) (Course.is_public c)
                (Course.status c) rating total_ratings
            else c)
         (courses db)).

(** [unique_together = ['course', 'user']] *)
Definition violates_unique (db : DB) (review : CourseReview.t) : bool :=
  existsb
    (fun r => negb (CourseReview.id r =? CourseReview.id review)
              && (CourseReview.course r =? CourseReview.course review)
              && (CourseReview.user r =? CourseReview.user review))
    (reviews db).

(** [perform_create], lines 208-222, with the serializer's [create]
    (courses/serializers.py, lines 136-149). *)
Definition perform_create (db : DB) (user : Z) (data : CreateData)
  : DB * option Exception :=
  match Course_objects_get db (c_course_id data) with
  | None => (db, Some ValidationError)
  | Some course =>
      let review :=
        CourseReview.mk (next_id (map CourseReview.id (reviews db)))
          (Course.id course) user (c_rating data) in
      if violates_unique db review then (db, Some IntegrityError)
      else
        let db := with_reviews db (reviews db ++ [review]) in
        (update_course_rating db (CourseReview.course review), None)
  end.

(** [perform_update], lines 224-238.  [serializer.save()] is
    [ModelSerializer.update]: every validated key is set on the instance,
    [course_id] included, and the instance is saved. *)
Definition perform_update (db : DB) (instance : CourseReview.t) (data : UpdateData)
  : DB * option Exception :=
  let review :=
    CourseReview.mk (CourseReview.id instance)
      (match course_id data with Some c => c | None => CourseReview.course instance end)
      (CourseReview.user instance)
      (match rating data with Some r => r | None => CourseReview.rating instance end) in
  match Course_objects_get db (CourseReview.course review) with
  | None => (db, Some IntegrityError)
  | Some _ =>
      if violates_unique db review then (db, Some IntegrityError)
      else
        let db :=
          with_reviews db
            (map (fun r => if CourseReview.id r =? CourseReview.id review
                           then review else r)
                 (reviews db)) in
        (update_course_rating db (CourseReview.course review), None)
  end.

(** [perform_destroy], lines 240-254. *)
Definition perform_destroy (db : DB) (instance : CourseReview.t) : DB :=
  let course := CourseReview.course instance in
  let db :=
    with_reviews db
      (filter (fun r => negb (CourseReview.id r =? CourseReview.id instance))
              (reviews db)) in
  update_course_rating db course.

(** [Q(course__is_public=True, course__status='published')], through the
    review's foreign key. *)
Definition course_public_published (db : DB) (r : CourseReview.t) : bool :=
  existsb (fun c => (Course.id c =? CourseReview.course r) && public_published c)
          (courses db).

(** [get_queryset], lines 189-198; [is_staff] is [request.user.is_staff]. *)
Definition get_queryset (db : DB) (u : RequestUser) (is_staff : bool)
  : list CourseReview.t :=
  if is_staff then reviews db
  else
    filter (fun r => is_user u (CourseReview.user r) || course_public_published db r)
           (reviews db).

(** [get_object]: [permission_classes] holds [IsAuthenticated] only, so no
    object permission is checked; [filterset_fields = ['course', 'rating']]
    names fields of the model. *)
Definition get_object (db : DB) (u : RequestUser) (is_staff : bool) (pk : Z)
  : Exception + CourseReview.t :=
  match find (fun r => CourseReview.id r =? pk) (get_queryset db u is_staff) with
  | Some r => inr r
  | None => inl Http404
  end.

(** The [destroy] action ([DestroyModelMixin.destroy]). *)
Definition destroy (db : DB) (u : RequestUser) (is_staff : bool) (pk : Z)
  : DB * Response unit :=
  if negb (IsAuthenticated u) then (db, Raise NotAuthenticated) else
  match get_object db u is_staff pk with
  | inl e => (db, Raise e)
  | inr instance => (perform_destroy db instance, Data HTTP_204_NO_CONTENT tt)
  end.

End CourseReviewViewSet.

(** ** Reference definitions used by the statements *)

Definition Course_exists (db : DB) (pk : Z) : bool :=
  match Course_objects_get db pk with Some _ => true | None => false end.

(** The rows a course list is expected to leave on a path: one per
    submitted id that names a course, with the 1-based position of the id
    in the submitted list as its order. *)
Definition expected_path_courses (db : DB) (learning_path : Z) (items : list (Z * Z))
  : list LearningPathCourse.t :=
  flat_map
    (fun ic =>
       match Course_objects_get db (snd ic) with
       | Some course =>
           [LearningPathCourse.mk learning_path (Course.id course) (fst ic) true ""]
       | None => []
       end)
    items.

(** Foreign key of [LearningPathCourse.learning_path]. *)
Definition path_courses_reference_paths (db : DB) : Prop :=
  forall pc, In pc (path_courses db) ->
             In (LearningPathCourse.learning_path pc) (map LearningPath.id (learning_paths db)).

(** The aggregate columns of the course with key [course] agree with the
    reviews that the store holds for it. *)
Definition aggregates_consistent (db : DB) (course : Z) : Prop :=
  forall c, In c (courses db) -> Course.id c = course ->
            Course.rating c
            = CourseReviewViewSet.rating_of_avg
                (CourseReviewViewSet.Avg
                   (map CourseReview.rating (CourseReviewViewSet.course_reviews db course)))
            /\ Course.total_ratings c
               = count (CourseReviewViewSet.course_reviews db course).

(** The float expression of [calculate_progress] against the exact
    quotient, for [c] completed of [n] required courses: the result lies in
    [0,100], is the floor of [100*c/n] or one below it, and is the floor
    whenever [n <= 49]. *)
Definition percentage_ok (n c : Z) : bool :=
  let p := percentage c n in
  let f := (100 * c) / n in
  (0 <=? p) && (p <=? 100) && (f - 1 <=? p) && (p <=? f) && ((49 <? n) || (p =? f)).

(** [percentage_ok] for every [1 <= n <= bound] and [0 <= c <= n]. *)
Definition percentage_ok_upto (bound : nat) : bool :=
  forallb
    (fun n => forallb (fun c => percentage_ok (Z.of_nat n) (Z.of_nat c)) (seq 0 (S n)))
    (seq 1 bound).

(** [unique_together = ['user', 'course']] of [UserCourseProgress]. *)
Definition course_progress_unique (db : DB) : Prop :=
  NoDup (map (fun p => (UserCourseProgress.user p, UserCourseProgress.course p))
             (course_progress db)).

(** Primary key of [CourseReview]. *)
Definition review_ids_unique (db : DB) : Prop :=
  NoDup (map CourseReview.id (reviews db)).

(** [unique_together = ['learning_path', 'course']] of
    [LearningPathCourse]. *)
Definition path_courses_unique (db : DB) : Prop :=
  NoDup (map (fun pc => (LearningPathCourse.learning_path pc, LearningPathCourse.course pc))
             (path_courses db)).

(** Primary key of [UserCourseProgress]. *)
Definition course_progress_ids_unique (db : DB) : Prop :=
  NoDup (map UserCourseProgress.id (course_progress db)).

(** The validators of [UserCourseProgress.progress_percentage] (0..100) and
    a time spent that is not negative. *)
Definition progress_row_valid (p : UserCourseProgress.t) : Prop :=
  0 <= UserCourseProgress.progress_percentage p <= 100
  /\ 0 <= UserCourseProgress.time_spent_hours p.

Definition course_progress_valid (db : DB) : Prop :=
  Forall progress_row_valid (course_progress db).

(** What a progress view may do to a stored row [q] on behalf of the
    requester [u] and the key [pk]: identity, owner, course and start time
    stay; a row of another user or with another key stays as it is; a
    completed row stays completed. *)
Definition row_kept (u : RequestUser) (pk : Z) (q q' : UserCourseProgress.t) : Prop :=
  UserCourseProgress.id q' = UserCourseProgress.id q
  /\ UserCourseProgress.user q' = UserCourseProgress.user q
  /\ UserCourseProgress.course q' = UserCourseProgress.course q
  /\ UserCourseProgress.started_at q' = UserCourseProgress.started_at q
  /\ (is_user u (UserCourseProgress.user q) = false -> q' = q)
  /\ (UserCourseProgress.id q <> pk -> q' = q)
  /\ (UserCourseProgress.is_completed q = true -> UserCourseProgress.is_completed q' = true).

(** The validators of [CourseReview.rating] (1..5), which the review
    serializers run on every create and update. *)
Definition reviews_valid (db : DB) : Prop :=
  Forall (fun r => 1 <= CourseReview.rating r <= 5) (reviews db).

(** The float expressions of the rating aggregator against the exact mean,
    for [n] ratings that add up to [s]: a rating is stored, it lies between
    1.00 and 5.00, and it is within half a hundredth of [s / n]. *)
Definition rating_ok (n s : Z) : bool :=
  match CourseReviewViewSet.rating_of_avg (Some (Py.truediv s n)) with
  | Some h => (100 <=? h) && (h <=? 500) && (2 * Z.abs (h * n - 100 * s) <=? n)
  | None => false
  end.

(** [rating_ok] for every [1 <= n <= bound] and [n <= s <= 5 * n]. *)
Definition rating_ok_upto (bound : nat) : bool :=
  forallb
    (fun n => forallb (fun s => rating_ok (Z.of_nat n) (Z.of_nat s)) (seq n (S (4 * n))))
    (seq 1 bound).

(** ** Python strings (courses/models.py and learning_paths/models.py, [tag_list]) *)

Module PyStr.

(** A [str] is a sequence of Unicode code points. *)
Definition str := list Z.

(** The code points that [str.strip()] removes (those for which
    [str.isspace()] holds). *)
Definition isspace (c : Z) : bool :=
  ((9 <=? c) && (c <=? 13)) || ((28 <=? c) && (c <=? 32))
  || (c =? 133) || (c =? 160) || (c =? 5760)
  || ((8192 <=? c) && (c <=? 8202))
  || (c =? 8232) || (c =? 8233) || (c =? 8239) || (c =? 8287) || (c =? 12288).

Fixpoint lstrip (s : str) : str :=
  match s with
  | c :: s' => if isspace c then lstrip s' else s
  | [] => []
  end.

Definition rstrip (s : str) : str := rev (lstrip (rev s)).

(** [s.strip()] *)
Definition strip (s : str) : str := rstrip (lstrip s).

(** [s.split(sep)] for a separator of one code point: never the empty
    list, [''] for the empty string. *)
Fixpoint split (sep : Z) (s : str) : list str :=
  match s with
  | [] => [[]]
  | c :: s' =>
      if c =? sep then [] :: split sep s'
      else
        match split sep s' with
        | h :: t => (c :: h) :: t
        | [] => [[c]]
        end
  end.

(** [sep.join(l)] *)
Fixpoint join (sep : str) (l : list str) : str :=
  match l with
  | [] => []
  | [s] => s
  | s :: l' => s ++ sep ++ join sep l'
  end.

(** Truth value of a [str]. *)
Definition bool_of_str (s : str) : bool :=
  match s with [] => false | _ :: _ => true end.

Definition comma : Z := 44.

End PyStr.

(** [tag_list], lines 183-186 of courses/models.py and 91-94 of
    learning_paths/models.py; [tags] is [self.tags]. *)
Definition tag_list (tags : PyStr.str) : list PyStr.str :=
  map PyStr.strip
    (filter (fun tag => PyStr.bool_of_str (PyStr.strip tag)) (PyStr.split PyStr.comma tags)).

(** A tag as [tag_list] returns it. *)
Definition clean_tag (t : PyStr.str) : Prop :=
  t <> [] /\ ~ In PyStr.comma t /\ PyStr.strip t = t.

(** The float expression of [calculate_progress] when one more of [n]
    required courses is completed, from [c] to [c + 1]: the result does not
    go down, and it goes up when [n <= 99]. *)
Definition step_ok (n c : Z) : bool :=
  (percentage c n <=? percentage (c + 1) n)
  && ((99 <? n) || (percentage c n <? percentage (c + 1) n)).

(** [step_ok] for every [1 <= n <= bound] and [0 <= c < n]. *)
Definition step_ok_upto (bound : nat) : bool :=
  forallb
    (fun n => forallb (fun c => step_ok (Z.of_nat n) (Z.of_nat c)) (seq 0 n))
    (seq 1 bound).

(** The float expressions of the dashboard averages against the exact
    mean, for [n] percentages that add up to [total]: the result lies
    between 0.0 and 100.0 and is within half a tenth of [total / n]. *)
Definition average_ok (n total : Z) : bool :=
  let a := Dashboard.average total n in
  (0 <=? a) && (a <=? 1000) && (2 * Z.abs (a * n - 10 * total) <=? n).

(** [average_ok] for every [1 <= n <= bound] and [0 <= total <= 100 * n]. *)
Definition average_ok_upto (bound : nat) : bool :=
  forallb
    (fun n => forallb (fun t => average_ok (Z.of_nat n) (Z.of_nat t)) (seq 0 (S (100 * n))))
    (seq 1 bound).

(** [time_spent_hours] is declared with [max_digits=6, decimal_places=2]:
    the stored time of the record and the time of the request, if it
    carries one, are at most 9999.99 hours, the largest value the column's
    six digits hold. *)
Definition time_spent_hours_fits (p : UserCourseProgress.t)
    (data : UserCourseProgressViewSet.UpdateData) : Prop :=
  UserCourseProgress.time_spent_hours p <= 999999
  /\ match UserCourseProgressViewSet.time_spent_hours data with
     | Some t => t <= 999999
     | None => True
     end.

(** ** Concrete stores used by the examples *)

Module Scenario.

Definition Zrange (n : nat) : list Z := map Z.of_nat (seq 1 n).

Definition a_course (creator pk : Z) : Course.t :=
  Course.mk pk creator true published None 0.

Definition a_path (creator pk : Z) : LearningPath.t :=
  LearningPath.mk pk creator true published.

(** A learner's record for learning path 1, not completed. *)
Definition learner : Z := 7.
Definition author : Z := 1.

Definition started : UserLearningProgress.t :=
  UserLearningProgress.mk 1 learner 1 0 None None "".

(** Path 1 has [n] required courses (keys 1..n); the learner has completed
    the first [c] of them. *)
Definition path_with (n c : nat) : DB :=
  mkDB (map (a_course author) (Zrange n))
       []
       [a_path author 1]
       (map (fun k => LearningPathCourse.mk 1 k k true "") (Zrange n))
       (map (fun k => UserCourseProgress.mk k learner k 0 (Some 1) 100 0 "") (Zrange c))
       [started].

(** Path 1 has one optional course, which the learner has completed. *)
Definition optional_only : DB :=
  mkDB [a_course author 1]
       []
       [a_path author 1]
       [LearningPathCourse.mk 1 1 1 false ""]
       []
       [started].

Definition completed_optional : list UserCourseProgress.t :=
  [UserCourseProgress.mk 1 learner 1 0 (Some 1) 100 0 ""].

(** Course 1 is the one required course of path 1; the learner has started
    both, with 40 percent of the course done. *)
Definition half_way : UserCourseProgress.t :=
  UserCourseProgress.mk 1 learner 1 0 None 40 0 "".

(** Course 1 and path 1 (with course 1 required), both public, published
    and created by the author; nobody has started anything. *)
Definition fresh : DB :=
  mkDB [a_course author 1]
       []
       [a_path author 1]
       [LearningPathCourse.mk 1 1 1 true ""]
       []
       [].

(** Two courses of the author and no review yet. *)
Definition unreviewed : DB :=
  mkDB [a_course author 1; a_course author 2] [] [] [] [] [].

(** The same, after the learner's five-star review of course 1. *)
Definition reviewed : DB :=
  mkDB [Course.mk 1 author true published (Some 500) 1; a_course author 2]
       [CourseReview.mk 1 1 learner 5]
       [] [] [] [].

Definition in_progress : DB :=
  mkDB [a_course author 1]
       []
       [a_path author 1]
       [LearningPathCourse.mk 1 1 1 true ""]
       [half_way]
       [started].

End Scenario.

(** * Properties *)

(** ** Progress calculator *)

Lemma exists_false_nil {A} (l : list A) : exists_ l = false <-> l = [].
Proof. destruct l; simpl; split; congruence. Qed.

Lemma required_courses_with_course_progress db rows self :
  required_courses (with_course_progress db rows) self = required_courses db self.
Proof. reflexivity. Qed.

(** With at least one required course the result is the float expression of
    line 190, applied to the two counts. *)
Lemma calculate_progress_required db self :
  required_courses db self <> [] ->
  calculate_progress db self
  = percentage (completed_courses db self) (count (required_courses db self)).
Proof.
  intros Hreq. unfold calculate_progress.
  destruct (required_courses db self) eqn:E; [congruence | reflexivity].
Qed.

(** C4: on a learning path without required courses, [calculate_progress]
    is 100 when the record's [completed_at] is set and 0 otherwise, whatever
    rows the table of course progress holds. *)
Theorem calculate_progress_no_required_courses :
  forall (db : DB) (rows : list UserCourseProgress.t) (self : UserLearningProgress.t),
    required_courses db self = [] ->
    calculate_progress (with_course_progress db rows) self
    = match UserLearningProgress.completed_at self with
      | Some _ => 100
      | None => 0
      end.
Proof.
  intros db rows self Hreq.
  unfold calculate_progress.
  rewrite required_courses_with_course_progress, Hreq. simpl.
  unfold UserLearningProgress.is_completed.
  destruct (UserLearningProgress.completed_at self); reflexivity.
Qed.

Lemma calculate_progress_no_required_courses_witness :
  required_courses Scenario.optional_only Scenario.started = []
  /\ calculate_progress
       (with_course_progress Scenario.optional_only Scenario.completed_optional)
       Scenario.started = 0.
Proof.
  split.
  - reflexivity.
  - apply (calculate_progress_no_required_courses
             Scenario.optional_only Scenario.completed_optional Scenario.started).
    reflexivity.
Defined.

(** C1: a path with 50 required courses of which the user has completed 29.
    The exact quotient 100*29/50 is 58; line 190 computes
    [int((29 / 50) * 100)] in binary64, where the product is
    57.99999999999999, and returns 57. *)
Theorem calculate_progress_29_of_50 :
  count (required_courses (Scenario.path_with 50 29) Scenario.started) = 50
  /\ completed_courses (Scenario.path_with 50 29) Scenario.started = 29
  /\ calculate_progress (Scenario.path_with 50 29) Scenario.started = 57
  /\ (100 * 29) / 50 = 58.
Proof. vm_compute. repeat split; reflexivity. Qed.

(** *** Where the float expression and the exact floor agree *)

Lemma percentage_ok_200 : percentage_ok_upto 200 = true.
Proof. vm_compute. reflexivity. Qed.

Lemma percentage_ok_upto_spec (bound n c : nat) :
  percentage_ok_upto bound = true ->
  (1 <= n <= bound)%nat -> (c <= n)%nat ->
  percentage_ok (Z.of_nat n) (Z.of_nat c) = true.
Proof.
  unfold percentage_ok_upto. intros Hall Hn Hc.
  rewrite forallb_forall in Hall.
  assert (Hin : In n (seq 1 bound)) by (apply in_seq; lia).
  pose proof (Hall n Hin) as Hrow. rewrite forallb_forall in Hrow.
  apply Hrow. apply in_seq. lia.
Qed.

Lemma percentage_ok_in_range (n c : Z) :
  1 <= n <= 200 -> 0 <= c <= n -> percentage_ok n c = true.
Proof.
  intros Hn Hc.
  rewrite <- (Z2Nat.id n), <- (Z2Nat.id c) by lia.
  apply (percentage_ok_upto_spec 200); [exact percentage_ok_200 | lia | lia].
Qed.

(** Up to 200 required courses the float expression stays in [0,100] and
    is the exact floor or one below it; up to 49 it is the exact floor. *)
Lemma percentage_bounds (n c : Z) :
  1 <= n <= 200 -> 0 <= c <= n ->
  0 <= percentage c n <= 100
  /\ (100 * c) / n - 1 <= percentage c n <= (100 * c) / n
  /\ (n <= 49 -> percentage c n = (100 * c) / n).
Proof.
  intros Hn Hc. pose proof (percentage_ok_in_range n c Hn Hc) as Hok.
  unfold percentage_ok in Hok.
  repeat (apply andb_true_iff in Hok; destruct Hok as [Hok ?]).
  repeat match goal with
         | H : (_ <=? _) = true |- _ => apply Z.leb_le in H
         end.
  split; [lia|]. split; [lia|].
  intros Hsmall.
  match goal with H : (_ || _) = true |- _ => apply orb_true_iff in H; destruct H as [H|H] end.
  - apply Z.ltb_lt in H. lia.
  - apply Z.eqb_eq in H. exact H.
Qed.

Lemma NoDup_map_filter {A B} (f : A -> B) (keep : A -> bool) (l : list A) :
  NoDup (map f l) -> NoDup (map f (filter keep l)).
Proof.
  induction l as [|a l IH]; simpl; intros Hnd; [constructor|].
  apply NoDup_cons_iff in Hnd. destruct Hnd as [Hnotin Hnd].
  destruct (keep a); simpl; [|auto].
  constructor; [|auto].
  intros Hin. apply Hnotin.
  apply in_map_iff in Hin. destruct Hin as [x [Hx Hin]].
  apply filter_In in Hin. apply in_map_iff. exists x. tauto.
Qed.

(** Under the uniqueness of (user, course) the number of completed required
    courses is at most the number of required entries. *)
Lemma completed_le_required db self :
  course_progress_unique db ->
  0 <= completed_courses db self <= count (required_courses db self).
Proof.
  intros Huniq. unfold completed_courses, count.
  set (keep := fun p =>
                 (UserCourseProgress.user p =? UserLearningProgress.user self)
                 && existsb
                      (fun pc => LearningPathCourse.course pc =? UserCourseProgress.course p)
                      (required_courses db self)
                 && UserCourseProgress.is_completed p).
  set (rows := filter keep (course_progress db)).
  split; [lia|].
  apply inj_le.
  rewrite <- (length_map UserCourseProgress.course rows).
  rewrite <- (length_map LearningPathCourse.course (required_courses db self)).
  apply NoDup_incl_length.
  - apply (NoDup_map_inv (pair (UserLearningProgress.user self))).
    rewrite map_map.
    erewrite map_ext_in.
    + apply (NoDup_map_filter
               (fun p => (UserCourseProgress.user p, UserCourseProgress.course p))
               keep (course_progress db) Huniq).
    + intros p Hin. apply filter_In in Hin. destruct Hin as [_ Hkeep].
      unfold keep in Hkeep.
      apply andb_true_iff in Hkeep. destruct Hkeep as [Hkeep _].
      apply andb_true_iff in Hkeep. destruct Hkeep as [Huser _].
      apply Z.eqb_eq in Huser. rewrite Huser. reflexivity.
  - intros c Hin. apply in_map_iff in Hin. destruct Hin as [p [<- Hin]].
    apply filter_In in Hin. destruct Hin as [_ Hkeep]. unfold keep in Hkeep.
    apply andb_true_iff in Hkeep. destruct Hkeep as [Hkeep _].
    apply andb_true_iff in Hkeep. destruct Hkeep as [_ Hex].
    apply existsb_exists in Hex. destruct Hex as [pc [Hpc Heq]].
    apply Z.eqb_eq in Heq. apply in_map_iff. exists pc. split; assumption.
Qed.

(** X1: for a path with between 1 and 200 required courses, in a store that
    respects the uniqueness of (user, course): the result lies in [0,100],
    it is the floor of 100*C/N or one below it, and it is the floor when
    the path has at most 49 required courses. *)
Lemma calculate_progress_within_bounds db self :
  course_progress_unique db ->
  required_courses db self <> [] ->
  count (required_courses db self) <= 200 ->
  0 <= calculate_progress db self <= 100
  /\ (100 * completed_courses db self) / count (required_courses db self) - 1
     <= calculate_progress db self
     <= (100 * completed_courses db self) / count (required_courses db self)
  /\ (count (required_courses db self) <= 49 ->
      calculate_progress db self
      = (100 * completed_courses db self) / count (required_courses db self)).
Proof.
  intros Huniq Hreq Hsize.
  rewrite (calculate_progress_required db self Hreq).
  apply percentage_bounds.
  - split; [|assumption].
    unfold count. destruct (required_courses db self); [congruence|].
    simpl List.length. lia.
  - apply completed_le_required. assumption.
Qed.

Lemma calculate_progress_within_bounds_witness :
  calculate_progress (Scenario.path_with 3 1) Scenario.started
  = (100 * completed_courses (Scenario.path_with 3 1) Scenario.started)
    / count (required_courses (Scenario.path_with 3 1) Scenario.started).
Proof.
  assert (Huniq : course_progress_unique (Scenario.path_with 3 1)).
  { unfold course_progress_unique. simpl. repeat constructor. intros []. }
  assert (Hreq : required_courses (Scenario.path_with 3 1) Scenario.started <> [])
    by discriminate.
  assert (Hsize : count (required_courses (Scenario.path_with 3 1) Scenario.started) <= 200)
    by (vm_compute; discriminate).
  destruct (calculate_progress_within_bounds _ _ Huniq Hreq Hsize) as [_ [_ Hexact]].
  apply Hexact. vm_compute. discriminate.
Defined.

(** The scenario of the specification: three required courses, one, two
    and three of them completed. *)
Lemma calculate_progress_of_three :
  calculate_progress (Scenario.path_with 3 0) Scenario.started = 0
  /\ calculate_progress (Scenario.path_with 3 1) Scenario.started = 33
  /\ calculate_progress (Scenario.path_with 3 2) Scenario.started = 66
  /\ calculate_progress (Scenario.path_with 3 3) Scenario.started = 100.
Proof. vm_compute. repeat split; reflexivity. Qed.

(** ** Visibility filter *)

Lemma public_published_iff {A} `{Owned A} (x : A) :
  public_published x = true <-> is_public_of x = true /\ status_of x = published.
Proof.
  unfold public_published. rewrite andb_true_iff.
  destruct (status_of x); simpl; intuition congruence.
Qed.

Lemma In_get_queryset_anonymous {A} `{Owned A} (objects : list A) :
  forall x, In x (get_queryset objects AnonymousUser)
            <-> In x objects /\ is_public_of x = true /\ status_of x = published.
Proof.
  intros x. simpl. rewrite filter_In, public_published_iff. reflexivity.
Qed.

Lemma In_get_queryset_user {A} `{Owned A} (objects : list A) :
  forall uid x, In x (get_queryset objects (User uid))
                <-> In x objects
                    /\ ((is_public_of x = true /\ status_of x = published)
                        \/ creator_of x = uid).
Proof.
  intros uid x. simpl.
  rewrite filter_In, orb_true_iff, public_published_iff, Z.eqb_eq. reflexivity.
Qed.

(** C3: an anonymous list or read request for courses or learning paths
    is not served.  [get_queryset] has a branch for the requester who is
    not authenticated, which selects exactly the public published entities
    (the claim), and [IsOwnerOrReadOnly] lets any request read; but both
    viewsets list [IsAuthenticated] first in [permission_classes], so the
    request is refused before [get_queryset] runs and the anonymous
    requester receives no entity.  For an authenticated requester the
    queryset holds the public published entities and those the requester
    created, and a read is served from it.  [A] is [Course.t] or
    [LearningPath.t]. *)
Theorem anonymous_request_is_refused :
  (forall (A : Type) (O : Owned A) (objects : list A),
      list_action objects AnonymousUser = Raise NotAuthenticated
      /\ (forall pk, retrieve objects AnonymousUser pk = Raise NotAuthenticated)
      /\ (forall x, In x (get_queryset objects AnonymousUser)
                    <-> In x objects /\ is_public_of x = true /\ status_of x = published)
      /\ (forall uid x, In x (get_queryset objects (User uid))
                        <-> In x objects
                            /\ ((is_public_of x = true /\ status_of x = published)
                                \/ creator_of x = uid))
      /\ (forall uid pk,
            retrieve objects (User uid) pk
            = match find (fun x => pk_of x =? pk) (get_queryset objects (User uid)) with
              | Some obj => Data HTTP_200_OK obj
              | None => Raise Http404
              end))
  /\ get_queryset (courses Scenario.fresh) AnonymousUser = [Scenario.a_course Scenario.author 1]
  /\ list_action (courses Scenario.fresh) AnonymousUser = Raise NotAuthenticated
  /\ retrieve (courses Scenario.fresh) AnonymousUser 1 = Raise NotAuthenticated
  /\ get_queryset (learning_paths Scenario.fresh) AnonymousUser
     = [Scenario.a_path Scenario.author 1]
  /\ list_action (learning_paths Scenario.fresh) AnonymousUser = Raise NotAuthenticated
  /\ retrieve (learning_paths Scenario.fresh) AnonymousUser 1 = Raise NotAuthenticated.
Proof.
  split; [|repeat split].
  intros A O objects.
  split; [reflexivity|].
  split; [reflexivity|].
  split; [exact (In_get_queryset_anonymous objects)|].
  split; [exact (In_get_queryset_user objects)|].
  intros uid pk. unfold retrieve, get_object. simpl.
  destruct (find _ _); reflexivity.
Qed.

(** ** Progress updates *)

Lemma filter_none {A} (l : list A) : filter (fun _ => false) l = [].
Proof. induction l; simpl; auto. Qed.

Lemma course_get_object_authenticated db u pk p :
  UserCourseProgressViewSet.get_object db u pk = inr p -> IsAuthenticated u = true.
Proof.
  destruct u; [|reflexivity].
  unfold UserCourseProgressViewSet.get_object, UserCourseProgressViewSet.get_queryset.
  simpl. rewrite filter_none. discriminate.
Qed.

(** The field check of the filter backend: [progress_percentage] is a
    column of the course record and none of the path record, so the
    backend lets the course queryset through and raises on the path
    queryset, whatever the requester and the rows. *)
Lemma course_filterset_fields_pass {A} (queryset : list A) :
  DjangoFilterBackend UserCourseProgress.field_names
    UserCourseProgressViewSet.filterset_fields queryset
  = inr queryset.
Proof. reflexivity. Qed.

Lemma learning_get_object_type_error db u pk :
  UserLearningProgressViewSet.get_object db u pk = inl TypeError.
Proof. reflexivity. Qed.

Lemma learning_mark_completed_type_error db uid now pk :
  UserLearningProgressViewSet.mark_completed db (User uid) now pk = (db, Raise TypeError).
Proof. reflexivity. Qed.

Lemma learning_update_progress_type_error db uid now pk data :
  UserLearningProgressViewSet.update_progress db (User uid) now pk data
  = (db, Raise TypeError).
Proof. reflexivity. Qed.

Lemma out_of_range v : v < 0 \/ 100 < v -> (0 <=? v) && (v <=? 100) = false.
Proof.
  intros Hv. apply andb_false_iff.
  destruct Hv; [left; apply Z.leb_gt | right; apply Z.leb_gt]; lia.
Qed.

(** C6: an [update_progress] call that carries a percentage below 0 or
    above 100.  On a learning-path record the range check is never
    reached: the filter backend of [UserLearningProgressViewSet] raises
    [TypeError] while the record is looked up, for every authenticated
    request and whatever the body, so the call ends in a server error and
    not in a validation error (the store is left as it was).  On a course
    record of the requester the call is answered with the 400 range error
    and the store is left as it was; nothing is clamped. *)
Theorem update_progress_out_of_range :
  (forall (db : DB) (uid : Z) (now : datetime) (pk : Z) data,
      UserLearningProgressViewSet.update_progress db (User uid) now pk data
      = (db, Raise TypeError))
  /\ (In Scenario.started
         (UserLearningProgressViewSet.get_queryset Scenario.in_progress
            (User Scenario.learner))
      /\ UserLearningProgress.id Scenario.started = 1
      /\ UserLearningProgressViewSet.update_progress Scenario.in_progress
           (User Scenario.learner) 9 1
           {| UserLearningProgressViewSet.progress_percentage := Some 150;
              UserLearningProgressViewSet.current_course_id := None;
              UserLearningProgressViewSet.notes := None |}
         = (Scenario.in_progress, Raise TypeError))
  /\ (forall (db : DB) (u : RequestUser) (now : datetime) (pk v : Z) data p,
        v < 0 \/ 100 < v ->
        UserCourseProgressViewSet.progress_percentage data = Some v ->
        UserCourseProgressViewSet.get_object db u pk = inr p ->
        UserCourseProgressViewSet.update_progress db u now pk data
        = (db, Detail HTTP_400_BAD_REQUEST
                 "Progress percentage must be between 0 and 100.")).
Proof.
  split; [exact learning_update_progress_type_error|].
  split; [repeat split; simpl; auto|].
  intros db u now pk v data p Hv Hdata Hget.
  unfold UserCourseProgressViewSet.update_progress.
  rewrite (course_get_object_authenticated _ _ _ _ Hget), Hget, Hdata. simpl.
  rewrite (out_of_range v Hv). reflexivity.
Qed.

Lemma update_progress_out_of_range_witness :
  UserCourseProgressViewSet.update_progress Scenario.in_progress (User Scenario.learner) 9 1
    {| UserCourseProgressViewSet.progress_percentage := Some 150;
       UserCourseProgressViewSet.time_spent_hours := None;
       UserCourseProgressViewSet.notes := None |}
  = (Scenario.in_progress,
     Detail HTTP_400_BAD_REQUEST "Progress percentage must be between 0 and 100.").
Proof.
  destruct update_progress_out_of_range as [_ [_ Hcourse]].
  apply (Hcourse Scenario.in_progress (User Scenario.learner) 9 1 150) with
    (p := Scenario.half_way); [right; reflexivity | reflexivity | reflexivity].
Defined.

(** *** Reading a record back after [save] *)

Lemma find_replaced {A} (key : A -> Z) (keep : A -> bool) (x : A) (rows : list A) :
  keep x = true ->
  (exists q, In q rows /\ key q = key x) ->
  find (fun p => key p =? key x)
       (filter keep (map (fun q => if key q =? key x then x else q) rows))
  = Some x.
Proof.
  intros Hkeep. induction rows as [|a rows IH]; intros [q [Hin Hq]].
  - destruct Hin.
  - simpl. destruct (key a =? key x) eqn:Ea.
    + rewrite Hkeep. simpl. rewrite Z.eqb_refl. reflexivity.
    + assert (Htail : exists q0, In q0 rows /\ key q0 = key x).
      { destruct Hin as [Heq | Hin].
        - subst q. rewrite Hq, Z.eqb_refl in Ea. discriminate.
        - exists q. split; assumption. }
      destruct (keep a); simpl; [rewrite Ea|]; apply IH; assumption.
Qed.

Lemma course_get_object_inv db u pk p :
  UserCourseProgressViewSet.get_object db u pk = inr p ->
  In p (course_progress db)
  /\ is_user u (UserCourseProgress.user p) = true
  /\ UserCourseProgress.id p = pk.
Proof.
  unfold UserCourseProgressViewSet.get_object, UserCourseProgressViewSet.get_queryset.
  destruct (find _ _) eqn:Hfind; [|discriminate].
  intros Heq. injection Heq as ->.
  apply find_some in Hfind. destruct Hfind as [Hin Hid].
  apply filter_In in Hin. destruct Hin as [Hin Huser].
  apply Z.eqb_eq in Hid. auto.
Qed.

Lemma course_get_object_save db u pk p p' :
  UserCourseProgressViewSet.get_object db u pk = inr p ->
  UserCourseProgress.id p' = UserCourseProgress.id p ->
  UserCourseProgress.user p' = UserCourseProgress.user p ->
  UserCourseProgressViewSet.get_object (UserCourseProgressViewSet.save db p') u pk = inr p'.
Proof.
  intros Hget Hid Huser.
  destruct (course_get_object_inv _ _ _ _ Hget) as [Hin [Hu Hpk]].
  unfold UserCourseProgressViewSet.get_object, UserCourseProgressViewSet.get_queryset,
    UserCourseProgressViewSet.save. simpl.
  assert (Hpk' : pk = UserCourseProgress.id p') by congruence.
  rewrite Hpk'.
  rewrite (find_replaced UserCourseProgress.id
             (fun q => is_user u (UserCourseProgress.user q)) p' (course_progress db)).
  - reflexivity.
  - rewrite Huser. assumption.
  - exists p. split; [assumption | congruence].
Qed.

(** *** Completion as a side effect of [update_progress] *)

Lemma in_range_below_100 v : 0 <= v < 100 -> (0 <=? v) && (v <=? 100) = true /\ (v =? 100) = false.
Proof.
  intros Hv. split.
  - apply andb_true_iff. split; apply Z.leb_le; lia.
  - apply Z.eqb_neq. lia.
Qed.

Lemma course_update_to_100 db u now pk p data :
  UserCourseProgressViewSet.get_object db u pk = inr p ->
  UserCourseProgressViewSet.progress_percentage data = Some 100 ->
  match UserCourseProgressViewSet.time_spent_hours data with
  | Some t => 0 <= t
  | None => True
  end ->
  exists p',
    UserCourseProgressViewSet.update_progress db u now pk data
    = (UserCourseProgressViewSet.save db p', Data HTTP_200_OK p')
    /\ UserCourseProgress.completed_at p' = Some now
    /\ UserCourseProgress.progress_percentage p' = 100
    /\ UserCourseProgressViewSet.get_object (UserCourseProgressViewSet.save db p') u pk
       = inr p'.
Proof.
  intros Hget Hpp Htime.
  unfold UserCourseProgressViewSet.update_progress.
  rewrite (course_get_object_authenticated _ _ _ _ Hget), Hget, Hpp.
  cbn [negb UserCourseProgressViewSet.apply_progress_percentage Z.leb Z.eqb
       Z.compare Pos.compare Pos.compare_cont andb Pos.eqb].
  unfold UserCourseProgressViewSet.apply_time_spent_hours.
  destruct (UserCourseProgressViewSet.time_spent_hours data) as [t|].
  - apply Z.leb_le in Htime. rewrite Htime.
    eexists. split; [reflexivity|].
    split; [destruct (UserCourseProgressViewSet.notes data); reflexivity|].
    split; [destruct (UserCourseProgressViewSet.notes data); reflexivity|].
    apply (course_get_object_save _ _ _ _ _ Hget);
      destruct (UserCourseProgressViewSet.notes data); reflexivity.
  - eexists. split; [reflexivity|].
    split; [destruct (UserCourseProgressViewSet.notes data); reflexivity|].
    split; [destruct (UserCourseProgressViewSet.notes data); reflexivity|].
    apply (course_get_object_save _ _ _ _ _ Hget);
      destruct (UserCourseProgressViewSet.notes data); reflexivity.
Qed.

Lemma course_update_below_100 db u now pk p data v :
  UserCourseProgressViewSet.get_object db u pk = inr p ->
  UserCourseProgress.completed_at p = None ->
  UserCourseProgressViewSet.progress_percentage data = Some v ->
  0 <= v < 100 ->
  exists p',
    UserCourseProgressViewSet.get_object
      (fst (UserCourseProgressViewSet.update_progress db u now pk data)) u pk = inr p'
    /\ UserCourseProgress.completed_at p' = None.
Proof.
  intros Hget Hnull Hpp Hv.
  destruct (in_range_below_100 v Hv) as [Hrange Hneq].
  unfold UserCourseProgressViewSet.update_progress.
  rewrite (course_get_object_authenticated _ _ _ _ Hget), Hget, Hpp.
  cbn [negb]. unfold UserCourseProgressViewSet.apply_progress_percentage.
  rewrite Hrange, Hneq.
  unfold UserCourseProgressViewSet.apply_time_spent_hours.
  destruct (UserCourseProgressViewSet.time_spent_hours data) as [t|];
    [destruct (0 <=? t)|]; cbn [fst].
  - eexists. split.
    + apply (course_get_object_save _ _ _ _ _ Hget);
        destruct (UserCourseProgressViewSet.notes data); reflexivity.
    + destruct (UserCourseProgressViewSet.notes data); exact Hnull.
  - exists p. split; assumption.
  - eexists. split.
    + apply (course_get_object_save _ _ _ _ _ Hget);
        destruct (UserCourseProgressViewSet.notes data); reflexivity.
    + destruct (UserCourseProgressViewSet.notes data); exact Hnull.
Qed.

Lemma course_update_time_rejected db u now pk p data t :
  UserCourseProgressViewSet.get_object db u pk = inr p ->
  match UserCourseProgressViewSet.progress_percentage data with
  | Some v => 0 <= v <= 100
  | None => True
  end ->
  UserCourseProgressViewSet.time_spent_hours data = Some t ->
  t < 0 ->
  UserCourseProgressViewSet.update_progress db u now pk data
  = (db, Detail HTTP_400_BAD_REQUEST "Time spent must be non-negative.").
Proof.
  intros Hget Hpp Htime Hneg.
  unfold UserCourseProgressViewSet.update_progress.
  rewrite (course_get_object_authenticated _ _ _ _ Hget), Hget, Htime.
  cbn [negb]. unfold UserCourseProgressViewSet.apply_progress_percentage.
  assert (Hleb : (0 <=? t) = false) by (apply Z.leb_gt; exact Hneg).
  destruct (UserCourseProgressViewSet.progress_percentage data) as [v|].
  - assert (Hrange : (0 <=? v) && (v <=? 100) = true)
      by (apply andb_true_iff; split; apply Z.leb_le; lia).
    rewrite Hrange.
    destruct (v =? 100); unfold UserCourseProgressViewSet.apply_time_spent_hours;
      rewrite Hleb; reflexivity.
  - unfold UserCourseProgressViewSet.apply_time_spent_hours. rewrite Hleb. reflexivity.
Qed.

(** C10: [update_progress] with percentage 100.  On a learning-path
    record the call never completes anything: the filter backend of
    [UserLearningProgressViewSet] raises [TypeError] while the record is
    looked up, for every authenticated request, and nothing is stored.  On
    a course record of the requester whose [completed_at] is null and whose
    time spent fits the column, a call with percentage 100 and a time that
    is absent or fits the column stores [completed_at = now]; a call with a
    percentage in [0,100) leaves the stored [completed_at] null; and a call
    whose percentage passes but whose time is negative is answered 400 and
    stores nothing. *)
Theorem update_progress_completion :
  (forall (db : DB) (uid : Z) (now : datetime) (pk : Z) data,
      UserLearningProgressViewSet.update_progress db (User uid) now pk data
      = (db, Raise TypeError))
  /\ (In Scenario.started
         (UserLearningProgressViewSet.get_queryset Scenario.in_progress
            (User Scenario.learner))
      /\ UserLearningProgress.id Scenario.started = 1
      /\ UserLearningProgress.completed_at Scenario.started = None
      /\ UserLearningProgressViewSet.update_progress Scenario.in_progress
           (User Scenario.learner) 9 1
           {| UserLearningProgressViewSet.progress_percentage := Some 100;
              UserLearningProgressViewSet.current_course_id := None;
              UserLearningProgressViewSet.notes := None |}
         = (Scenario.in_progress, Raise TypeError))
  /\ (forall (db : DB) (u : RequestUser) (now : datetime) (pk : Z) p data,
        UserCourseProgressViewSet.get_object db u pk = inr p ->
        UserCourseProgress.completed_at p = None ->
        time_spent_hours_fits p data ->
        (UserCourseProgressViewSet.progress_percentage data = Some 100 ->
         match UserCourseProgressViewSet.time_spent_hours data with
         | Some t => 0 <= t
         | None => True
         end ->
         exists p',
           UserCourseProgressViewSet.update_progress db u now pk data
           = (UserCourseProgressViewSet.save db p', Data HTTP_200_OK p')
           /\ UserCourseProgress.completed_at p' = Some now
           /\ UserCourseProgress.progress_percentage p' = 100
           /\ UserCourseProgressViewSet.get_object
                (UserCourseProgressViewSet.save db p') u pk = inr p')
        /\ (forall v,
              UserCourseProgressViewSet.progress_percentage data = Some v ->
              0 <= v < 100 ->
              exists p',
                UserCourseProgressViewSet.get_object
                  (fst (UserCourseProgressViewSet.update_progress db u now pk data)) u pk
                = inr p'
                /\ UserCourseProgress.completed_at p' = None)
        /\ (forall t,
              match UserCourseProgressViewSet.progress_percentage data with
              | Some v => 0 <= v <= 100
              | None => True
              end ->
              UserCourseProgressViewSet.time_spent_hours data = Some t ->
              t < 0 ->
              UserCourseProgressViewSet.update_progress db u now pk data
              = (db, Detail HTTP_400_BAD_REQUEST "Time spent must be non-negative."))).
Proof.
  split; [exact learning_update_progress_type_error|].
  split; [repeat split; simpl; auto|].
  intros db u now pk p data Hget Hnull _. split; [|split].
  - intros Hpp Htime. exact (course_update_to_100 db u now pk p data Hget Hpp Htime).
  - intros v Hpp Hv. exact (course_update_below_100 db u now pk p data v Hget Hnull Hpp Hv).
  - intros t Hpp Htime Hneg.
    exact (course_update_time_rejected db u now pk p data t Hget Hpp Htime Hneg).
Qed.

Lemma update_progress_completion_witness :
  exists p',
    UserCourseProgressViewSet.update_progress Scenario.in_progress
      (User Scenario.learner) 9 1
      {| UserCourseProgressViewSet.progress_percentage := Some 100;
         UserCourseProgressViewSet.time_spent_hours := Some 250;
         UserCourseProgressViewSet.notes := None |}
    = (UserCourseProgressViewSet.save Scenario.in_progress p', Data HTTP_200_OK p')
    /\ UserCourseProgress.completed_at p' = Some 9
    /\ UserCourseProgress.progress_percentage p' = 100
    /\ UserCourseProgressViewSet.get_object
         (UserCourseProgressViewSet.save Scenario.in_progress p')
         (User Scenario.learner) 1 = inr p'.
Proof.
  destruct update_progress_completion as [_ [_ Hcourse]].
  assert (Hfits : time_spent_hours_fits Scenario.half_way
                    {| UserCourseProgressViewSet.progress_percentage := Some 100;
                       UserCourseProgressViewSet.time_spent_hours := Some 250;
                       UserCourseProgressViewSet.notes := None |}).
  { unfold time_spent_hours_fits. simpl. lia. }
  destruct (Hcourse Scenario.in_progress (User Scenario.learner) 9 1 Scenario.half_way
              {| UserCourseProgressViewSet.progress_percentage := Some 100;
                 UserCourseProgressViewSet.time_spent_hours := Some 250;
                 UserCourseProgressViewSet.notes := None |}
              eq_refl eq_refl Hfits) as [H100 _].
  apply H100; [reflexivity | simpl; lia].
Defined.

(** ** Marking a record completed *)


(** X5: a second [mark_completed] on a course record.  On a record of the
    requester that is already completed the call is answered with 400 and
    changes nothing; and after a call that completed an open record, the
    next call on the same record, at any later time, is answered with 400
    and changes nothing. *)
Lemma mark_completed_twice db u now now' pk p :
  UserCourseProgressViewSet.get_object db u pk = inr p ->
  (UserCourseProgress.completed_at p <> None ->
   UserCourseProgressViewSet.mark_completed db u now pk
   = (db, Detail HTTP_400_BAD_REQUEST "Course is already completed."))
  /\ (UserCourseProgress.completed_at p = None ->
      UserCourseProgressViewSet.mark_completed
        (fst (UserCourseProgressViewSet.mark_completed db u now pk)) u now' pk
      = (fst (UserCourseProgressViewSet.mark_completed db u now pk),
         Detail HTTP_400_BAD_REQUEST "Course is already completed.")).
Proof.
  intros Hget. split.
  - intros Hdone.
    unfold UserCourseProgressViewSet.mark_completed.
    rewrite (course_get_object_authenticated _ _ _ _ Hget), Hget.
    unfold UserCourseProgress.is_completed.
    destruct (UserCourseProgress.completed_at p); [reflexivity | congruence].
  - intros Hnull.
    set (p' := UserCourseProgressViewSet.set_progress_percentage 100
                 (UserCourseProgressViewSet.set_completed_at (Some now) p)).
    assert (Hfirst : UserCourseProgressViewSet.mark_completed db u now pk
                     = (UserCourseProgressViewSet.save db p', Data HTTP_200_OK p')).
    { unfold UserCourseProgressViewSet.mark_completed.
      rewrite (course_get_object_authenticated _ _ _ _ Hget), Hget.
      unfold UserCourseProgress.is_completed. rewrite Hnull. reflexivity. }
    rewrite Hfirst. cbn [fst].
    unfold UserCourseProgressViewSet.mark_completed at 1.
    rewrite (course_get_object_authenticated _ _ _ _ Hget).
    rewrite (course_get_object_save db u pk p p' Hget eq_refl eq_refl).
    reflexivity.
Qed.


Lemma mark_completed_twice_witness :
  UserCourseProgressViewSet.mark_completed
    (fst (UserCourseProgressViewSet.mark_completed Scenario.in_progress
            (User Scenario.learner) 9 1))
    (User Scenario.learner) 12 1
  = (fst (UserCourseProgressViewSet.mark_completed Scenario.in_progress
            (User Scenario.learner) 9 1),
     Detail HTTP_400_BAD_REQUEST "Course is already completed.").
Proof.
  apply (mark_completed_twice Scenario.in_progress (User Scenario.learner) 9 12 1
           Scenario.half_way eq_refl).
  reflexivity.
Defined.

(** C5: [mark_completed] on a learning-path record.  The filter backend of
    [UserLearningProgressViewSet] is configured with the name
    [progress_percentage], which is no field of [UserLearningProgress], and
    raises [TypeError] while the record is looked up: every authenticated
    call ends there, whatever the key, and the store is left as it was.  On
    the store where the learner has an open record for path 1 the record
    stays open; the course view on the same store stores [completed_at] and
    100. *)
Theorem learning_mark_completed_raises :
  (forall (db : DB) (uid : Z) (now : datetime) (pk : Z),
      UserLearningProgressViewSet.mark_completed db (User uid) now pk
      = (db, Raise TypeError))
  /\ (In Scenario.started
         (UserLearningProgressViewSet.get_queryset Scenario.in_progress
            (User Scenario.learner))
      /\ UserLearningProgress.id Scenario.started = 1
      /\ UserLearningProgress.completed_at Scenario.started = None
      /\ UserLearningProgressViewSet.mark_completed Scenario.in_progress
           (User Scenario.learner) 9 1
         = (Scenario.in_progress, Raise TypeError))
  /\ UserCourseProgressViewSet.mark_completed Scenario.in_progress
       (User Scenario.learner) 9 1
     = (with_course_progress Scenario.in_progress
          [UserCourseProgress.mk 1 Scenario.learner 1 0 (Some 9) 100 0 ""],
        Data HTTP_200_OK (UserCourseProgress.mk 1 Scenario.learner 1 0 (Some 9) 100 0 "")).
Proof.
  split; [exact learning_mark_completed_type_error|].
  split; [repeat split; simpl; auto|].
  reflexivity.
Qed.

(** ** Starting a course or a learning path *)

Lemma extract_model_params_learning :
  extract_model_params UserLearningProgress.field_names
    [("progress_percentage"%string, 0)] = inl FieldError.
Proof. reflexivity. Qed.

(** X6: no call of [start_learning] changes the store or answers with
    serializer data: where no record exists yet, [get_or_create] is handed
    the default [progress_percentage], which is no field of the model. *)
Lemma start_learning_creates_nothing db u now pk :
  fst (LearningPathViewSet.start_learning db u now pk) = db
  /\ forall st d, snd (LearningPathViewSet.start_learning db u now pk) <> Data st d.
Proof.
  unfold LearningPathViewSet.start_learning.
  destruct u as [|uid]; [split; [reflexivity | discriminate]|].
  destruct (get_object (learning_paths db) POST (User uid) pk) as [e|lp];
    [split; [reflexivity | discriminate]|].
  destruct (find _ (learning_progress db)); [split; [reflexivity | discriminate]|].
  rewrite extract_model_params_learning. split; [reflexivity | discriminate].
Qed.

Lemma find_app_none {A} (f : A -> bool) (l : list A) (x : A) :
  find f l = None -> f x = true -> find f (l ++ [x]) = Some x.
Proof.
  induction l as [|a l IH]; simpl; intros Hnone Hx.
  - rewrite Hx. reflexivity.
  - destruct (f a); [discriminate | auto].
Qed.

Lemma get_object_with_course_progress db rows m u pk :
  get_object (courses (with_course_progress db rows)) m u pk
  = get_object (courses db) m u pk.
Proof. reflexivity. Qed.

(** X3: [start_course] by a user who may POST to the course (its creator): the
    first start appends the user's record, with percentage 0 and no
    completion time; a start while a record exists is answered with 400 and
    changes nothing; so the start that follows a first start is refused and
    leaves the one record as it is. *)
Theorem start_course_once :
  forall (db : DB) (uid : Z) (now now' : datetime) (pk : Z) (course : Course.t),
    get_object (courses db) POST (User uid) pk = inr course ->
    (find (fun p => (UserCourseProgress.user p =? uid)
                    && (UserCourseProgress.course p =? Course.id course))
          (course_progress db) = None ->
     let progress :=
       UserCourseProgress.mk (next_id (map UserCourseProgress.id (course_progress db)))
         uid (Course.id course) now None 0 0 "" in
     let db' := with_course_progress db (course_progress db ++ [progress]) in
     CourseViewSet.start_course db (User uid) now pk = (db', Data HTTP_201_CREATED progress)
     /\ CourseViewSet.start_course db' (User uid) now' pk
        = (db', Detail HTTP_400_BAD_REQUEST "You have already started this course."))
    /\ (forall p,
          find (fun p => (UserCourseProgress.user p =? uid)
                         && (UserCourseProgress.course p =? Course.id course))
               (course_progress db) = Some p ->
          CourseViewSet.start_course db (User uid) now pk
          = (db, Detail HTTP_400_BAD_REQUEST "You have already started this course.")).
Proof.
  intros db uid now now' pk course Hget. split.
  - intros Hnone progress db'. split.
    + unfold CourseViewSet.start_course. rewrite Hget, Hnone. reflexivity.
    + unfold CourseViewSet.start_course.
      unfold db' at 1. rewrite get_object_with_course_progress, Hget.
      unfold db' at 1. cbn [course_progress with_course_progress].
      rewrite (find_app_none _ _ progress Hnone); [reflexivity|].
      simpl. rewrite !Z.eqb_refl. reflexivity.
  - intros p Hsome. unfold CourseViewSet.start_course. rewrite Hget, Hsome. reflexivity.
Qed.

Lemma start_course_once_witness :
  CourseViewSet.start_course Scenario.fresh (User Scenario.author) 9 1
  = (with_course_progress Scenario.fresh
       [UserCourseProgress.mk 1 Scenario.author 1 9 None 0 0 ""],
     Data HTTP_201_CREATED (UserCourseProgress.mk 1 Scenario.author 1 9 None 0 0 ""))
  /\ CourseViewSet.start_course
       (with_course_progress Scenario.fresh
          [UserCourseProgress.mk 1 Scenario.author 1 9 None 0 0 ""])
       (User Scenario.author) 12 1
     = (with_course_progress Scenario.fresh
          [UserCourseProgress.mk 1 Scenario.author 1 9 None 0 0 ""],
        Detail HTTP_400_BAD_REQUEST "You have already started this course.").
Proof.
  destruct (start_course_once Scenario.fresh Scenario.author 9 12 1
              (Scenario.a_course Scenario.author 1) eq_refl) as [Hfirst _].
  exact (Hfirst eq_refl).
Defined.

(** A repeated [start_learning] is answered with 400 and changes nothing. *)
Lemma start_learning_repeated db uid now pk learning_path p :
  get_object (learning_paths db) POST (User uid) pk = inr learning_path ->
  find (fun p => (UserLearningProgress.user p =? uid)
                 && (UserLearningProgress.learning_path p =? LearningPath.id learning_path))
       (learning_progress db) = Some p ->
  LearningPathViewSet.start_learning db (User uid) now pk
  = (db, Detail HTTP_400_BAD_REQUEST "You have already started this learning path.").
Proof.
  intros Hget Hsome. unfold LearningPathViewSet.start_learning.
  rewrite Hget, Hsome. reflexivity.
Qed.

(** C7: the first start.  The author starts the own path 1, which nobody
    has started: the request ends in [FieldError] and no record is created.
    The learner, who did not create course 1, starts it: the object
    permission refuses the POST.  Only the author's start of the own course
    creates a record. *)
Theorem first_start :
  LearningPathViewSet.start_learning Scenario.fresh (User Scenario.author) 9 1
  = (Scenario.fresh, Raise FieldError)
  /\ CourseViewSet.start_course Scenario.fresh (User Scenario.learner) 9 1
     = (Scenario.fresh, Raise PermissionDenied)
  /\ LearningPathViewSet.start_learning Scenario.fresh (User Scenario.learner) 9 1
     = (Scenario.fresh, Raise PermissionDenied)
  /\ CourseViewSet.start_course Scenario.fresh (User Scenario.author) 9 1
     = (with_course_progress Scenario.fresh
          [UserCourseProgress.mk 1 Scenario.author 1 9 None 0 0 ""],
        Data HTTP_201_CREATED (UserCourseProgress.mk 1 Scenario.author 1 9 None 0 0 "")).
Proof. vm_compute. repeat split; reflexivity. Qed.

(** ** Path progress is derived, not stored *)








(** ** Rating aggregator *)

(** The statements that close each [perform_*] leave the course they write
    to in agreement with its reviews. *)
Lemma update_course_rating_consistent db course :
  aggregates_consistent (CourseReviewViewSet.update_course_rating db course) course.
Proof.
  intros c Hin Hid.
  unfold CourseReviewViewSet.update_course_rating in Hin. simpl in Hin.
  apply in_map_iff in Hin. destruct Hin as [c0 [Heq Hin0]].
  destruct (Course.id c0 =? course) eqn:E.
  - subst c. split; reflexivity.
  - subst c. apply Z.eqb_neq in E. contradiction.
Qed.

(** Writing the aggregates of course [k] keeps every course consistent,
    provided the reviews changed for course [k] only since the store [db0]
    in which every course was consistent. *)
Lemma update_course_rating_preserves db0 db1 k :
  courses db1 = courses db0 ->
  (forall c, c <> k ->
             CourseReviewViewSet.course_reviews db1 c
             = CourseReviewViewSet.course_reviews db0 c) ->
  (forall c, aggregates_consistent db0 c) ->
  forall c, aggregates_consistent (CourseReviewViewSet.update_course_rating db1 k) c.
Proof.
  intros Hcourses Hreviews Hcons c.
  destruct (Z.eq_dec c k) as [-> | Hne]; [apply update_course_rating_consistent|].
  intros row Hin Hid.
  unfold CourseReviewViewSet.update_course_rating in Hin. simpl in Hin.
  apply in_map_iff in Hin. destruct Hin as [c0 [Heq Hin0]].
  destruct (Course.id c0 =? k) eqn:E.
  - apply Z.eqb_eq in E. subst row. simpl in Hid. congruence.
  - subst row. rewrite Hcourses in Hin0.
    change (CourseReviewViewSet.course_reviews
              (CourseReviewViewSet.update_course_rating db1 k) c)
      with (CourseReviewViewSet.course_reviews db1 c).
    rewrite (Hreviews c Hne). apply (Hcons c c0 Hin0 Hid).
Qed.

Lemma filter_filter_implied {A} (f g : A -> bool) (l : list A) :
  (forall a, In a l -> f a = true -> g a = true) ->
  filter f (filter g l) = filter f l.
Proof.
  induction l as [|a l IH]; intros Himp; [reflexivity|].
  simpl. destruct (g a) eqn:Eg; simpl.
  - rewrite IH; [reflexivity|]. intros x Hx. apply Himp. right. assumption.
  - destruct (f a) eqn:Ef.
    + rewrite (Himp a (or_introl eq_refl) Ef) in Eg. discriminate.
    + apply IH. intros x Hx. apply Himp. right. assumption.
Qed.

Lemma filter_map_replace {A} (f keep : A -> bool) (x : A) (l : list A) :
  f x = false ->
  (forall a, In a l -> keep a = true -> f a = false) ->
  filter f (map (fun a => if keep a then x else a) l) = filter f l.
Proof.
  intros Hx. induction l as [|a l IH]; intros Hold; [reflexivity|].
  simpl. destruct (keep a) eqn:Ek.
  - rewrite Hx, (Hold a (or_introl eq_refl) Ek).
    apply IH. intros y Hy. apply Hold. right. assumption.
  - rewrite IH; [reflexivity|]. intros y Hy. apply Hold. right. assumption.
Qed.

Lemma review_of_id db instance r :
  review_ids_unique db ->
  In instance (reviews db) -> In r (reviews db) ->
  CourseReview.id r = CourseReview.id instance -> r = instance.
Proof.
  unfold review_ids_unique. induction (reviews db) as [|a l IH]; intros Hnd Hi Hr Hid.
  - destruct Hi.
  - simpl in Hnd. apply NoDup_cons_iff in Hnd. destruct Hnd as [Hnotin Hnd].
    destruct Hi as [-> | Hi]; destruct Hr as [-> | Hr].
    + reflexivity.
    + exfalso. apply Hnotin. rewrite <- Hid. apply in_map. assumption.
    + exfalso. apply Hnotin. rewrite Hid. apply in_map. assumption.
    + apply IH; assumption.
Qed.

(** The aggregator invariant is kept by a create. *)
Lemma perform_create_consistent db user data db' :
  CourseReviewViewSet.perform_create db user data = (db', None) ->
  (forall c, aggregates_consistent db c) ->
  forall c, aggregates_consistent db' c.
Proof.
  unfold CourseReviewViewSet.perform_create.
  destruct (Course_objects_get db (CourseReviewViewSet.c_course_id data)) as [course|];
    [|discriminate].
  destruct (CourseReviewViewSet.violates_unique db _); [discriminate|].
  intros Heq Hcons. injection Heq as <-.
  apply (update_course_rating_preserves db); [reflexivity | | assumption].
  intros c Hne. unfold CourseReviewViewSet.course_reviews. simpl.
  rewrite filter_app. simpl.
  destruct (Course.id course =? c) eqn:E.
  - apply Z.eqb_eq in E. congruence.
  - apply app_nil_r.
Qed.

(** The aggregator invariant is kept by a delete. *)
Lemma perform_destroy_consistent db instance :
  review_ids_unique db ->
  In instance (reviews db) ->
  (forall c, aggregates_consistent db c) ->
  forall c, aggregates_consistent (CourseReviewViewSet.perform_destroy db instance) c.
Proof.
  intros Huniq Hin Hcons. unfold CourseReviewViewSet.perform_destroy.
  apply (update_course_rating_preserves db); [reflexivity | | assumption].
  intros c Hne. unfold CourseReviewViewSet.course_reviews. simpl.
  apply filter_filter_implied.
  intros r Hr Hc. apply negb_true_iff. apply Z.eqb_neq. intros Hid.
  rewrite (review_of_id db instance r Huniq Hin Hr Hid) in Hc.
  apply Z.eqb_eq in Hc. congruence.
Qed.

(** The aggregator invariant is kept by an update that leaves the review
    on its course. *)
Lemma perform_update_same_course_consistent db instance data db' :
  review_ids_unique db ->
  In instance (reviews db) ->
  (CourseReviewViewSet.course_id data = None
   \/ CourseReviewViewSet.course_id data = Some (CourseReview.course instance)) ->
  CourseReviewViewSet.perform_update db instance data = (db', None) ->
  (forall c, aggregates_consistent db c) ->
  forall c, aggregates_consistent db' c.
Proof.
  intros Huniq Hin Hsame. unfold CourseReviewViewSet.perform_update.
  assert (Hcourse :
            match CourseReviewViewSet.course_id data with
            | Some c => c
            | None => CourseReview.course instance
            end = CourseReview.course instance)
    by (destruct Hsame as [-> | ->]; reflexivity).
  cbn [CourseReview.course CourseReview.id]. rewrite Hcourse.
  destruct (Course_objects_get db (CourseReview.course instance)); [|discriminate].
  destruct (CourseReviewViewSet.violates_unique db _); [discriminate|].
  intros Heq Hcons. injection Heq as <-.
  apply (update_course_rating_preserves db); [reflexivity | | assumption].
  intros c Hne. unfold CourseReviewViewSet.course_reviews. simpl.
  apply (filter_map_replace
           (fun r => CourseReview.course r =? c)
           (fun r => CourseReview.id r =? CourseReview.id instance)).
  - simpl. apply Z.eqb_neq. congruence.
  - intros r Hr Hid. apply Z.eqb_eq in Hid.
    rewrite (review_of_id db instance r Huniq Hin Hr Hid).
    apply Z.eqb_neq. congruence.
Qed.

(** X2: the aggregator as the three mutations keep it: a create, a delete and
    an update that leaves the review on its course keep every course's
    [rating] and [total_ratings] in agreement with its reviews. *)
Theorem aggregator_invariant :
  (forall db user data db',
      CourseReviewViewSet.perform_create db user data = (db', None) ->
      (forall c, aggregates_consistent db c) ->
      forall c, aggregates_consistent db' c)
  /\ (forall db instance,
        review_ids_unique db ->
        In instance (reviews db) ->
        (forall c, aggregates_consistent db c) ->
        forall c, aggregates_consistent (CourseReviewViewSet.perform_destroy db instance) c)
  /\ (forall db instance data db',
        review_ids_unique db ->
        In instance (reviews db) ->
        (CourseReviewViewSet.course_id data = None
         \/ CourseReviewViewSet.course_id data = Some (CourseReview.course instance)) ->
        CourseReviewViewSet.perform_update db instance data = (db', None) ->
        (forall c, aggregates_consistent db c) ->
        forall c, aggregates_consistent db' c).
Proof.
  split; [exact perform_create_consistent|].
  split; [exact perform_destroy_consistent | exact perform_update_same_course_consistent].
Qed.

Lemma unreviewed_consistent : forall c, aggregates_consistent Scenario.unreviewed c.
Proof.
  intros c row Hin Hid. simpl in Hin.
  destruct Hin as [<- | [<- | []]]; split; reflexivity.
Qed.

Lemma aggregator_invariant_witness :
  Course.rating (Course.mk 1 Scenario.author true published (Some 500) 1)
  = CourseReviewViewSet.rating_of_avg
      (CourseReviewViewSet.Avg
         (map CourseReview.rating
              (CourseReviewViewSet.course_reviews Scenario.reviewed 1)))
  /\ Course.total_ratings (Course.mk 1 Scenario.author true published (Some 500) 1)
     = count (CourseReviewViewSet.course_reviews Scenario.reviewed 1).
Proof.
  destruct aggregator_invariant as [Hcreate _].
  apply (Hcreate Scenario.unreviewed Scenario.learner
           {| CourseReviewViewSet.c_course_id := 1; CourseReviewViewSet.c_rating := 5 |}
           Scenario.reviewed eq_refl unreviewed_consistent 1).
  - simpl. left. reflexivity.
  - reflexivity.
Defined.

(** The scenario of the specification: reviews 3, 4 and 5 give 4.00 over 3
    ratings; deleting the five-star review gives 3.50 over 2. *)
Lemma rating_of_three_reviews :
  let db3 :=
    mkDB [Scenario.a_course 1 1]
         [CourseReview.mk 1 1 11 3; CourseReview.mk 2 1 12 4]
         [] [] [] [] in
  let db' :=
    fst (CourseReviewViewSet.perform_create db3 13
           {| CourseReviewViewSet.c_course_id := 1; CourseReviewViewSet.c_rating := 5 |}) in
  courses db' = [Course.mk 1 1 true published (Some 400) 3]
  /\ courses (CourseReviewViewSet.perform_destroy db' (CourseReview.mk 3 1 13 5))
     = [Course.mk 1 1 true published (Some 350) 2].
Proof. vm_compute. split; reflexivity. Qed.

(** C2: a review that an update moves to another course.  The learner's
    five-star review of course 1 is created (both aggregates of course 1
    are then right) and updated with [course_id = 2].  Course 2 is
    recomputed; course 1 is not: it has no review left, and its row still
    says rating 5.00 over 1 rating. *)
Theorem moved_review_leaves_stale_aggregates :
  CourseReviewViewSet.perform_create Scenario.unreviewed Scenario.learner
    {| CourseReviewViewSet.c_course_id := 1; CourseReviewViewSet.c_rating := 5 |}
  = (Scenario.reviewed, None)
  /\ (let result :=
        CourseReviewViewSet.perform_update Scenario.reviewed
          (CourseReview.mk 1 1 Scenario.learner 5)
          {| CourseReviewViewSet.course_id := Some 2;
             CourseReviewViewSet.rating := Some 5 |} in
      snd result = None
      /\ reviews (fst result) = [CourseReview.mk 1 2 Scenario.learner 5]
      /\ CourseReviewViewSet.course_reviews (fst result) 1 = []
      /\ courses (fst result)
         = [Course.mk 1 Scenario.author true published (Some 500) 1;
            Course.mk 2 Scenario.author true published (Some 500) 1]).
Proof. vm_compute. repeat split; reflexivity. Qed.

(** ** Course lists of a learning path *)

Lemma Course_objects_get_id db pk course :
  Course_objects_get db pk = Some course -> Course.id course = pk.
Proof.
  unfold Course_objects_get. intros Hfind.
  apply find_some in Hfind. destruct Hfind as [_ Hid].
  apply Z.eqb_eq. assumption.
Qed.

Lemma next_id_fresh (ids : list Z) (x : Z) : In x ids -> x < next_id ids.
Proof.
  unfold next_id. induction ids as [|a ids IH]; intros Hin.
  - destruct Hin.
  - cbn [fold_right]. destruct Hin as [-> | Hin]; [lia | specialize (IH Hin); lia].
Qed.

Lemma map_snd_combine {A B} (l1 : list A) (l2 : list B) :
  List.length l1 = List.length l2 -> map snd (combine l1 l2) = l2.
Proof.
  revert l2. induction l1 as [|a l1 IH]; intros [|b l2] Hlen; simpl in *;
    try reflexivity; try discriminate.
  f_equal. apply IH. congruence.
Qed.

Lemma map_snd_enumerate1 (ids : list Z) :
  map snd (LearningPathCreateUpdateSerializer.enumerate1 ids) = ids.
Proof.
  unfold LearningPathCreateUpdateSerializer.enumerate1.
  apply map_snd_combine. rewrite length_map, length_seq. reflexivity.
Qed.

Lemma with_path_courses_app_nil db :
  with_path_courses db (path_courses db ++ []) = db.
Proof. destruct db. unfold with_path_courses. simpl. rewrite app_nil_r. reflexivity. Qed.

(** An id that names no course is passed over: the loop goes on with the
    rest of the list from the same store. *)
Lemma add_courses_skip db learning_path i course_id rest :
  Course_objects_get db course_id = None ->
  LearningPathCreateUpdateSerializer.add_courses db learning_path ((i, course_id) :: rest)
  = LearningPathCreateUpdateSerializer.add_courses db learning_path rest.
Proof. intros Hnone. simpl. rewrite Hnone. reflexivity. Qed.

(** The orders that [enumerate(course_ids, 1)] hands out are positive. *)
Lemma enumerate1_orders (ids : list Z) :
  Forall (fun ic => 0 <= fst ic) (LearningPathCreateUpdateSerializer.enumerate1 ids).
Proof.
  unfold LearningPathCreateUpdateSerializer.enumerate1.
  apply Forall_forall. intros [i c] Hin. apply in_combine_l in Hin.
  apply in_map_iff in Hin. destruct Hin as [k [<- _]]. simpl. lia.
Qed.

Lemma add_courses_expected (items : list (Z * Z)) :
  forall (db : DB) (learning_path : Z),
    Forall (fun ic => 0 <= fst ic) items ->
    (forall pc, In pc (path_courses db) ->
                LearningPathCourse.learning_path pc = learning_path ->
                ~ In (LearningPathCourse.course pc) (map snd items)) ->
    NoDup (filter (Course_exists db) (map snd items)) ->
    LearningPathCreateUpdateSerializer.add_courses db learning_path items
    = (with_path_courses db
         (path_courses db ++ expected_path_courses db learning_path items),
       None).
Proof.
  induction items as [|[i c] rest IH]; intros db lp Horders Hfree Hdistinct.
  - simpl. rewrite with_path_courses_app_nil. reflexivity.
  - apply Forall_cons_iff in Horders. destruct Horders as [Hi Horders].
    simpl in Hi. apply Z.leb_le in Hi.
    simpl in Hdistinct. unfold Course_exists in Hdistinct at 1.
    simpl. destruct (Course_objects_get db c) as [course|] eqn:Hget.
    + pose proof (Course_objects_get_id _ _ _ Hget) as Hid.
      apply NoDup_cons_iff in Hdistinct. destruct Hdistinct as [Hnotin Hdistinct].
      unfold LearningPathCourse_objects_create. cbn [LearningPathCourse.learning_path
        LearningPathCourse.course LearningPathCourse.order].
      rewrite Hi. cbn [negb].
      destruct (existsb _ (path_courses db)) eqn:Hclash.
      * exfalso. apply existsb_exists in Hclash. destruct Hclash as [q [Hq Hsame]].
        apply andb_true_iff in Hsame. destruct Hsame as [Hlp Hc].
        apply Z.eqb_eq in Hlp. apply Z.eqb_eq in Hc.
        apply (Hfree q Hq Hlp). simpl. left. congruence.
      * rewrite IH.
        -- simpl. unfold with_path_courses. simpl. rewrite <- app_assoc. reflexivity.
        -- exact Horders.
        -- intros pc Hin Hlp Hrest. simpl in Hin. apply in_app_or in Hin.
           destruct Hin as [Hin | [<- | []]].
           ++ apply (Hfree pc Hin Hlp). simpl. right. assumption.
           ++ simpl in Hrest. apply Hnotin. apply filter_In. split.
              ** rewrite Hid in Hrest. assumption.
              ** unfold Course_exists. rewrite Hget. reflexivity.
        -- exact Hdistinct.
    + rewrite IH.
      * reflexivity.
      * exact Horders.
      * intros pc Hin Hlp Hrest. apply (Hfree pc Hin Hlp). simpl. right. assumption.
      * exact Hdistinct.
Qed.

Lemma create_with_course_ids db user data ids :
  LearningPathCreateUpdateSerializer.course_ids data = Some ids ->
  path_courses_reference_paths db ->
  NoDup (filter (Course_exists db) ids) ->
  let learning_path :=
    LearningPath.mk (next_id (map LearningPath.id (learning_paths db))) user
      (LearningPathCreateUpdateSerializer.default
         (LearningPathCreateUpdateSerializer.is_public data) true)
      (LearningPathCreateUpdateSerializer.default
         (LearningPathCreateUpdateSerializer.status data) draft) in
  LearningPathCreateUpdateSerializer.create db user data
  = (with_path_courses
       (with_learning_paths db (learning_paths db ++ [learning_path]))
       (path_courses db
        ++ expected_path_courses db (LearningPath.id learning_path)
             (LearningPathCreateUpdateSerializer.enumerate1 ids)),
     inr learning_path).
Proof.
  intros Hids Hfk Hdistinct lp.
  unfold LearningPathCreateUpdateSerializer.create. rewrite Hids.
  cbn [LearningPathCreateUpdateSerializer.default]. fold lp.
  rewrite add_courses_expected.
  - reflexivity.
  - apply enumerate1_orders.
  - intros pc Hin Hlp _. simpl in Hin. apply Hfk in Hin.
    apply next_id_fresh in Hin. rewrite Hlp in Hin. simpl in Hin. lia.
  - rewrite map_snd_enumerate1. exact Hdistinct.
Qed.

Lemma update_with_course_ids db instance data ids :
  LearningPathCreateUpdateSerializer.course_ids data = Some ids ->
  NoDup (filter (Course_exists db) ids) ->
  let learning_path :=
    LearningPath.mk (LearningPath.id instance) (LearningPath.creator instance)
      (LearningPathCreateUpdateSerializer.default
         (LearningPathCreateUpdateSerializer.is_public data) (LearningPath.is_public instance))
      (LearningPathCreateUpdateSerializer.default
         (LearningPathCreateUpdateSerializer.status data) (LearningPath.status instance)) in
  LearningPathCreateUpdateSerializer.update db instance data
  = (with_path_courses
       (with_learning_paths db
          (map (fun q => if LearningPath.id q =? LearningPath.id instance
                         then learning_path else q)
               (learning_paths db)))
       (filter (fun pc => negb (LearningPathCourse.learning_path pc
                                =? LearningPath.id instance))
               (path_courses db)
        ++ expected_path_courses db (LearningPath.id instance)
             (LearningPathCreateUpdateSerializer.enumerate1 ids)),
     inr learning_path).
Proof.
  intros Hids Hdistinct lp.
  unfold LearningPathCreateUpdateSerializer.update. rewrite Hids. fold lp.
  cbn [LearningPath.id lp].
  rewrite add_courses_expected.
  - reflexivity.
  - apply enumerate1_orders.
  - intros pc Hin Hlp _. simpl in Hin. apply filter_In in Hin.
    destruct Hin as [_ Hne]. apply negb_true_iff in Hne. apply Z.eqb_neq in Hne.
    contradiction.
  - rewrite map_snd_enumerate1. exact Hdistinct.
Qed.

Lemma get_object_POST_owner {A} `{Owned A} (objects : list A) uid pk obj :
  get_object objects POST (User uid) pk = inr obj -> creator_of obj = uid.
Proof.
  unfold get_object.
  destruct (find _ _) as [x|]; [|discriminate].
  destruct (IsOwnerOrReadOnly POST (User uid) x) eqn:Hperm; [|discriminate].
  intros Heq. injection Heq as <-.
  unfold IsOwnerOrReadOnly in Hperm. simpl in Hperm.
  apply Z.eqb_eq in Hperm. congruence.
Qed.

Lemma find_by_key {A} (key : A -> Z) (keep : A -> bool) (l : list A) (x : A) :
  NoDup (map key l) -> In x l ->
  find (fun p => key p =? key x) (filter keep l) = if keep x then Some x else None.
Proof.
  induction l as [|a l IH]; intros Hnd Hin; [destruct Hin|].
  simpl in Hnd. apply NoDup_cons_iff in Hnd. destruct Hnd as [Hnotin Hnd].
  destruct Hin as [-> | Hin].
  - simpl. destruct (keep x) eqn:Hkeep.
    + simpl. rewrite Z.eqb_refl. reflexivity.
    + destruct (find _ (filter keep l)) as [y|] eqn:Hfind; [|reflexivity].
      apply find_some in Hfind. destruct Hfind as [Hy Hkey].
      apply filter_In in Hy. apply Z.eqb_eq in Hkey.
      exfalso. apply Hnotin. rewrite <- Hkey. apply in_map. tauto.
  - simpl. destruct (keep a).
    + simpl. destruct (key a =? key x) eqn:E; [|auto].
      apply Z.eqb_eq in E. exfalso. apply Hnotin. rewrite E. apply in_map. assumption.
    + auto.
Qed.

Lemma add_course_without_course_id db uid pk learning_path data :
  get_object (learning_paths db) POST (User uid) pk = inr learning_path ->
  LearningPathViewSet.truthy (LearningPathViewSet.course_id data) = false ->
  LearningPathViewSet.add_course db (User uid) pk data
  = (db, Detail HTTP_400_BAD_REQUEST "course_id is required.").
Proof.
  intros Hget Hfalsy.
  unfold LearningPathViewSet.add_course. rewrite Hget.
  pose proof (get_object_POST_owner _ _ _ _ Hget) as Howner. simpl in Howner.
  rewrite Howner, Z.eqb_refl, Hfalsy. reflexivity.
Qed.

(** A requester who did not create the path does not get past
    [get_object]: the path is out of the queryset (404) unless it is public
    and published, and then the POST is refused by [IsOwnerOrReadOnly]
    (403). *)
Lemma add_course_by_another_user db uid pk learning_path data :
  NoDup (map LearningPath.id (learning_paths db)) ->
  In learning_path (learning_paths db) ->
  LearningPath.id learning_path = pk ->
  LearningPath.creator learning_path <> uid ->
  LearningPathViewSet.add_course db (User uid) pk data
  = (db, Raise (if public_published learning_path then PermissionDenied else Http404)).
Proof.
  intros Hnd Hin Hpk Hother.
  assert (Hne : (LearningPath.creator learning_path =? uid) = false)
    by (apply Z.eqb_neq; exact Hother).
  unfold LearningPathViewSet.add_course, get_object, get_queryset.
  cbn [pk_of creator_of LearningPath_Owned]. rewrite <- Hpk.
  rewrite (find_by_key LearningPath.id _ _ learning_path Hnd Hin).
  rewrite Hne, orb_false_r.
  destruct (public_published learning_path); [|reflexivity].
  unfold IsOwnerOrReadOnly. cbn [SAFE_METHODS is_user creator_of LearningPath_Owned].
  rewrite Z.eqb_sym, Hne. reflexivity.
Qed.

Lemma add_course_unknown_course db uid pk learning_path data :
  get_object (learning_paths db) POST (User uid) pk = inr learning_path ->
  LearningPathViewSet.truthy (LearningPathViewSet.course_id data) = true ->
  Course_objects_get db
    (LearningPathCreateUpdateSerializer.default (LearningPathViewSet.course_id data) 0)
  = None ->
  LearningPathViewSet.add_course db (User uid) pk data
  = (db, Detail HTTP_404_NOT_FOUND "Course not found.").
Proof.
  intros Hget Htruthy Hnone.
  unfold LearningPathViewSet.add_course. rewrite Hget.
  pose proof (get_object_POST_owner _ _ _ _ Hget) as Howner. simpl in Howner.
  rewrite Howner, Z.eqb_refl, Htruthy, Hnone. reflexivity.
Qed.

(** C9, as the code has it.  In [create] and [update] an id of the
    submitted list that names no course is passed over; when the ids that
    do name a course are pairwise distinct the call succeeds and the path
    ends with exactly one row per such id, ordered by the id's position in
    the submitted list.  [add_course], called by the creator of the path
    with a non-zero id that names no course, answers 404 and leaves the
    store as it was; called by the creator with a zero or missing id it
    answers 400; called by a user who did not create the path it is refused
    by [get_object], with [PermissionDenied] (403) when the path is public
    and published and with [Http404] otherwise; the store is left as it was
    in each case. *)
Theorem course_ids_skipped_add_course_404 :
  (forall db learning_path i course_id rest,
      Course_objects_get db course_id = None ->
      LearningPathCreateUpdateSerializer.add_courses db learning_path
        ((i, course_id) :: rest)
      = LearningPathCreateUpdateSerializer.add_courses db learning_path rest)
  /\ (forall db user data ids,
        LearningPathCreateUpdateSerializer.course_ids data = Some ids ->
        path_courses_reference_paths db ->
        NoDup (filter (Course_exists db) ids) ->
        let learning_path :=
          LearningPath.mk (next_id (map LearningPath.id (learning_paths db))) user
            (LearningPathCreateUpdateSerializer.default
               (LearningPathCreateUpdateSerializer.is_public data) true)
            (LearningPathCreateUpdateSerializer.default
               (LearningPathCreateUpdateSerializer.status data) draft) in
        LearningPathCreateUpdateSerializer.create db user data
        = (with_path_courses
             (with_learning_paths db (learning_paths db ++ [learning_path]))
             (path_courses db
              ++ expected_path_courses db (LearningPath.id learning_path)
                   (LearningPathCreateUpdateSerializer.enumerate1 ids)),
           inr learning_path))
  /\ (forall db instance data ids,
        LearningPathCreateUpdateSerializer.course_ids data = Some ids ->
        NoDup (filter (Course_exists db) ids) ->
        let learning_path :=
          LearningPath.mk (LearningPath.id instance) (LearningPath.creator instance)
            (LearningPathCreateUpdateSerializer.default
               (LearningPathCreateUpdateSerializer.is_public data)
               (LearningPath.is_public instance))
            (LearningPathCreateUpdateSerializer.default
               (LearningPathCreateUpdateSerializer.status data)
               (LearningPath.status instance)) in
        LearningPathCreateUpdateSerializer.update db instance data
        = (with_path_courses
             (with_learning_paths db
                (map (fun q => if LearningPath.id q =? LearningPath.id instance
                               then learning_path else q)
                     (learning_paths db)))
             (filter (fun pc => negb (LearningPathCourse.learning_path pc
                                      =? LearningPath.id instance))
                     (path_courses db)
              ++ expected_path_courses db (LearningPath.id instance)
                   (LearningPathCreateUpdateSerializer.enumerate1 ids)),
           inr learning_path))
  /\ (forall db uid pk learning_path data,
        get_object (learning_paths db) POST (User uid) pk = inr learning_path ->
        LearningPathViewSet.truthy (LearningPathViewSet.course_id data) = true ->
        Course_objects_get db
          (LearningPathCreateUpdateSerializer.default (LearningPathViewSet.course_id data) 0)
        = None ->
        LearningPathViewSet.add_course db (User uid) pk data
        = (db, Detail HTTP_404_NOT_FOUND "Course not found."))
  /\ (forall db uid pk learning_path data,
        get_object (learning_paths db) POST (User uid) pk = inr learning_path ->
        LearningPathViewSet.truthy (LearningPathViewSet.course_id data) = false ->
        LearningPathViewSet.add_course db (User uid) pk data
        = (db, Detail HTTP_400_BAD_REQUEST "course_id is required."))
  /\ (forall db uid pk learning_path data,
        NoDup (map LearningPath.id (learning_paths db)) ->
        In learning_path (learning_paths db) ->
        LearningPath.id learning_path = pk ->
        LearningPath.creator learning_path <> uid ->
        LearningPathViewSet.add_course db (User uid) pk data
        = (db, Raise (if public_published learning_path
                      then PermissionDenied else Http404))).
Proof.
  split; [exact add_courses_skip|].
  split; [exact create_with_course_ids|].
  split; [exact update_with_course_ids|].
  split; [exact add_course_unknown_course|].
  split; [exact add_course_without_course_id | exact add_course_by_another_user].
Qed.

(** The author creates a path with the ids 99 (no such course) and 1: the
    path gets the key 2 and the one row for course 1, with order 2. *)
Lemma course_ids_skipped_add_course_404_witness :
  LearningPathCreateUpdateSerializer.create Scenario.fresh Scenario.author
    {| LearningPathCreateUpdateSerializer.is_public := None;
       LearningPathCreateUpdateSerializer.status := None;
       LearningPathCreateUpdateSerializer.course_ids := Some [99; 1] |}
  = (mkDB [Scenario.a_course Scenario.author 1]
          []
          [Scenario.a_path Scenario.author 1; LearningPath.mk 2 Scenario.author true draft]
          [LearningPathCourse.mk 1 1 1 true ""; LearningPathCourse.mk 2 1 2 true ""]
          [] [],
     inr (LearningPath.mk 2 Scenario.author true draft))
  /\ LearningPathViewSet.add_course Scenario.fresh (User Scenario.author) 1
       {| LearningPathViewSet.course_id := Some 99;
          LearningPathViewSet.order := None;
          LearningPathViewSet.is_required := None;
          LearningPathViewSet.notes := None |}
     = (Scenario.fresh, Detail HTTP_404_NOT_FOUND "Course not found.").
Proof.
  destruct course_ids_skipped_add_course_404 as [_ [Hcreate [_ [Hadd _]]]].
  split.
  - assert (Hfk : path_courses_reference_paths Scenario.fresh).
    { intros pc [<- | []]. simpl. left. reflexivity. }
    assert (Hdistinct : NoDup (filter (Course_exists Scenario.fresh) [99; 1])).
    { simpl. repeat constructor. intros []. }
    apply (eq_trans
             (Hcreate Scenario.fresh Scenario.author
                {| LearningPathCreateUpdateSerializer.is_public := None;
                   LearningPathCreateUpdateSerializer.status := None;
                   LearningPathCreateUpdateSerializer.course_ids := Some [99; 1] |}
                [99; 1] eq_refl Hfk Hdistinct)).
    reflexivity.
  - apply (Hadd Scenario.fresh Scenario.author 1 (Scenario.a_path Scenario.author 1));
      reflexivity.
Defined.

(** Three calls that the specification covers and the code answers otherwise: a
    course list that repeats an existing id ends in [IntegrityError] after
    the first row; [add_course] with an unknown id is refused with
    [PermissionDenied] when the caller did not create the path, and with
    400 when the id is 0. *)
Lemma course_ids_and_add_course_other_answers :
  snd (LearningPathCreateUpdateSerializer.create Scenario.fresh Scenario.author
         {| LearningPathCreateUpdateSerializer.is_public := None;
            LearningPathCreateUpdateSerializer.status := None;
            LearningPathCreateUpdateSerializer.course_ids := Some [1; 1; 99] |})
  = inl IntegrityError
  /\ LearningPathViewSet.add_course Scenario.fresh (User Scenario.learner) 1
       {| LearningPathViewSet.course_id := Some 99;
          LearningPathViewSet.order := None;
          LearningPathViewSet.is_required := None;
          LearningPathViewSet.notes := None |}
     = (Scenario.fresh, Raise PermissionDenied)
  /\ LearningPathViewSet.add_course Scenario.fresh (User Scenario.author) 1
       {| LearningPathViewSet.course_id := Some 0;
          LearningPathViewSet.order := None;
          LearningPathViewSet.is_required := None;
          LearningPathViewSet.notes := None |}
     = (Scenario.fresh, Detail HTTP_400_BAD_REQUEST "course_id is required.").
Proof. vm_compute. repeat split; reflexivity. Qed.

(** ** Object lookup and permission classes *)

Lemma get_object_inv {A} `{Owned A} (objects : list A) (m : Method) (u : RequestUser)
    (pk : Z) (obj : A) :
  get_object objects m u pk = inr obj ->
  In obj objects
  /\ pk_of obj = pk
  /\ (u = User (creator_of obj)
      \/ (SAFE_METHODS m = true
          /\ is_public_of obj = true /\ status_of obj = published))
  /\ (SAFE_METHODS m = false -> u = User (creator_of obj)).
Proof.
  unfold get_object.
  destruct (find _ _) as [x|] eqn:Hfind; [|discriminate].
  destruct (IsOwnerOrReadOnly m u x) eqn:Hperm; [|discriminate].
  intros Heq. injection Heq as ->.
  apply find_some in Hfind. destruct Hfind as [Hin Hpk]. apply Z.eqb_eq in Hpk.
  unfold IsOwnerOrReadOnly in Hperm.
  destruct u as [|uid].
  - apply In_get_queryset_anonymous in Hin. destruct Hin as [Hin Hpub].
    split; [assumption|]. split; [assumption|].
    destruct (SAFE_METHODS m); [|discriminate].
    split; [right; auto | discriminate].
  - apply In_get_queryset_user in Hin. destruct Hin as [Hin Hvis].
    split; [assumption|]. split; [assumption|].
    destruct (SAFE_METHODS m).
    + split; [|discriminate].
      destruct Hvis as [Hpub | Hown]; [right; auto | left; congruence].
    + simpl in Hperm. apply Z.eqb_eq in Hperm.
      split; [left; congruence | intros _; congruence].
Qed.

(** X7: what [get_object] hands out.  The object is a row of the table
    with the requested key, and either the requester created it, or the
    method is a safe one and the object is public and published.  For an
    unsafe method (POST, PUT, PATCH, DELETE) the requester is the
    creator. *)
Theorem get_object_guards :
  forall (A : Type) (O : Owned A) (objects : list A) (m : Method) (u : RequestUser)
         (pk : Z) (obj : A),
    get_object objects m u pk = inr obj ->
    In obj objects
    /\ pk_of obj = pk
    /\ (u = User (creator_of obj)
        \/ (SAFE_METHODS m = true
            /\ is_public_of obj = true /\ status_of obj = published))
    /\ (SAFE_METHODS m = false -> u = User (creator_of obj)).
Proof.
  intros A O objects m u pk obj. apply get_object_inv.
Qed.

Lemma get_object_guards_witness :
  In (Scenario.a_course Scenario.author 1) (courses Scenario.fresh)
  /\ pk_of (Scenario.a_course Scenario.author 1) = 1
  /\ (User Scenario.learner = User (creator_of (Scenario.a_course Scenario.author 1))
      \/ (SAFE_METHODS GET = true
          /\ is_public_of (Scenario.a_course Scenario.author 1) = true
          /\ status_of (Scenario.a_course Scenario.author 1) = published))
  /\ (SAFE_METHODS GET = false
      -> User Scenario.learner = User (creator_of (Scenario.a_course Scenario.author 1))).
Proof.
  apply (get_object_guards Course.t Course_Owned (courses Scenario.fresh) GET
           (User Scenario.learner) 1 (Scenario.a_course Scenario.author 1)).
  reflexivity.
Defined.

(** X8: the three permission classes of learning_paths/permissions.py are
    ordered.  Whatever [IsOwner] allows [IsOwnerOrReadOnlyForPublic] allows,
    and whatever that allows [IsOwnerOrReadOnly] allows; for an unsafe method
    all three allow exactly the creator; [IsOwner] never allows an anonymous
    requester; and the only difference between the two read-only classes is
    a safe request for a private object of somebody else. *)
Theorem permission_classes_ordered :
  forall (A : Type) (O : Owned A) (m : Method) (u : RequestUser) (obj : A),
    (IsOwner m u obj = true -> IsOwnerOrReadOnlyForPublic m u obj = true)
    /\ (IsOwnerOrReadOnlyForPublic m u obj = true -> IsOwnerOrReadOnly m u obj = true)
    /\ (SAFE_METHODS m = false ->
        IsOwnerOrReadOnly m u obj = is_user u (creator_of obj)
        /\ IsOwnerOrReadOnlyForPublic m u obj = is_user u (creator_of obj))
    /\ IsOwner m AnonymousUser obj = false
    /\ (IsOwnerOrReadOnly m u obj = true ->
        IsOwnerOrReadOnlyForPublic m u obj = false ->
        SAFE_METHODS m = true /\ is_public_of obj = false
        /\ is_user u (creator_of obj) = false).
Proof.
  intros A O m u obj.
  unfold IsOwner, IsOwnerOrReadOnlyForPublic, IsOwnerOrReadOnly.
  destruct (SAFE_METHODS m), (is_public_of obj), (is_user u (creator_of obj));
    repeat split; intros; try reflexivity; try assumption; try discriminate.
Qed.

Lemma permission_classes_ordered_witness :
  IsOwnerOrReadOnlyForPublic PUT (User Scenario.author)
    (Scenario.a_course Scenario.author 1) = true.
Proof.
  destruct (permission_classes_ordered Course.t Course_Owned PUT (User Scenario.author)
              (Scenario.a_course Scenario.author 1)) as [Hfirst _].
  apply Hfirst. reflexivity.
Defined.

(** ** Removing and adding the courses of a path *)

Lemma filter_existsb_false {A} (f : A -> bool) (l : list A) :
  existsb f l = false -> filter f l = [].
Proof.
  induction l as [|a l IH]; simpl; [reflexivity|].
  destruct (f a); simpl; [discriminate | exact IH].
Qed.

Lemma filter_negb_none {A} (f : A -> bool) (l : list A) :
  filter f l = [] -> filter (fun x => negb (f x)) l = l.
Proof.
  induction l as [|a l IH]; simpl; [reflexivity|].
  destruct (f a); simpl; [discriminate|]. intros Hnil. rewrite IH; auto.
Qed.

Lemma filter_filter_negb {A} (f : A -> bool) (l : list A) :
  filter f (filter (fun x => negb (f x)) l) = [].
Proof.
  induction l as [|a l IH]; simpl; [reflexivity|].
  destruct (f a) eqn:E; simpl; [exact IH | rewrite E; exact IH].
Qed.

Lemma with_path_courses_same db rows :
  with_path_courses (with_path_courses db rows) (path_courses db) = db.
Proof. destruct db. reflexivity. Qed.

(** X9: a removal that succeeds takes exactly the path's row for that
    course out of the table, leaves every other table alone, and makes the
    same removal fail afterwards with 404 and no change. *)
Theorem remove_course_removes :
  forall (db db' : DB) (uid pk course_id : Z),
    LearningPathViewSet.remove_course db (User uid) pk (Some course_id)
    = (db', inr (Data HTTP_204_NO_CONTENT tt)) ->
    db' = with_path_courses db
            (filter (fun pc => negb (LearningPathViewSet.in_path pk course_id pc))
                    (path_courses db))
    /\ (exists path_course,
          filter (LearningPathViewSet.in_path pk course_id) (path_courses db)
          = [path_course])
    /\ filter (LearningPathViewSet.in_path pk course_id) (path_courses db') = []
    /\ LearningPathViewSet.remove_course db' (User uid) pk (Some course_id)
       = (db', inr (Detail HTTP_404_NOT_FOUND "Course not found in this learning path.")).
Proof.
  intros db db' uid pk cid.
  unfold LearningPathViewSet.remove_course.
  destruct (get_object (learning_paths db) DELETE (User uid) pk) as [e|lp] eqn:Hget;
    [discriminate|].
  destruct (get_object_inv _ _ _ _ _ Hget) as [_ [Hpk _]].
  simpl in Hpk. rewrite Hpk.
  destruct (negb (LearningPath.creator lp =? uid)) eqn:Hown; [discriminate|].
  destruct (negb (LearningPathViewSet.truthy (Some cid))) eqn:Htruthy; [discriminate|].
  cbn [LearningPathCreateUpdateSerializer.default].
  unfold LearningPathViewSet.objects_get.
  destruct (filter (LearningPathViewSet.in_path pk cid) (path_courses db))
    as [|pc [|pc' rest]] eqn:Hmatch; try discriminate.
  intros Heq. injection Heq as <-.
  split; [reflexivity|]. split; [exists pc; reflexivity|].
  split; [apply filter_filter_negb|].
  change (learning_paths (with_path_courses db
            (filter (fun pc0 => negb (LearningPathViewSet.in_path pk cid pc0))
                    (path_courses db))))
    with (learning_paths db).
  rewrite Hget, Hpk, Hown.
  cbn [LearningPathCreateUpdateSerializer.default path_courses with_path_courses].
  rewrite filter_filter_negb. reflexivity.
Qed.

Lemma remove_course_removes_witness :
  LearningPathViewSet.remove_course
    (with_path_courses Scenario.fresh [])
    (User Scenario.author) 1 (Some 1)
  = (with_path_courses Scenario.fresh [],
     inr (Detail HTTP_404_NOT_FOUND "Course not found in this learning path.")).
Proof.
  apply (remove_course_removes Scenario.fresh (with_path_courses Scenario.fresh [])
           Scenario.author 1 1).
  reflexivity.
Defined.

Lemma add_course_created db uid pk data db1 row :
  LearningPathViewSet.add_course db (User uid) pk data = (db1, Data HTTP_201_CREATED row) ->
  exists learning_path course,
    get_object (learning_paths db) POST (User uid) pk = inr learning_path
    /\ LearningPath.id learning_path = pk
    /\ LearningPath.creator learning_path = uid
    /\ LearningPathViewSet.truthy (LearningPathViewSet.course_id data) = true
    /\ Course_objects_get db
         (LearningPathCreateUpdateSerializer.default (LearningPathViewSet.course_id data) 0)
       = Some course
    /\ existsb (LearningPathViewSet.in_path pk (Course.id course)) (path_courses db) = false
    /\ row = LearningPathCourse.mk pk (Course.id course)
               (LearningPathCreateUpdateSerializer.default (LearningPathViewSet.order data)
                  (LearningPathViewSet.total_courses db learning_path + 1))
               (LearningPathCreateUpdateSerializer.default
                  (LearningPathViewSet.is_required data) true)
               (LearningPathCreateUpdateSerializer.default
                  (LearningPathViewSet.notes data) ""%string)
    /\ db1 = with_path_courses db (path_courses db ++ [row]).
Proof.
  unfold LearningPathViewSet.add_course.
  destruct (get_object (learning_paths db) POST (User uid) pk) as [e|lp] eqn:Hget;
    [discriminate|].
  destruct (get_object_inv _ _ _ _ _ Hget) as [_ [Hpk [_ Hown]]].
  simpl in Hpk. specialize (Hown eq_refl). injection Hown as Hown. simpl in Hown.
  rewrite <- Hown, Z.eqb_refl. cbn [negb].
  destruct (LearningPathViewSet.truthy (LearningPathViewSet.course_id data)) eqn:Htruthy;
    [|discriminate].
  cbn [negb].
  destruct (Course_objects_get db _) as [course|] eqn:Hcourse; [|discriminate].
  rewrite Hpk.
  change (fun q => (LearningPathCourse.learning_path q =? pk)
                   && (LearningPathCourse.course q =? Course.id course))
    with (LearningPathViewSet.in_path pk (Course.id course)).
  destruct (existsb (LearningPathViewSet.in_path pk (Course.id course)) (path_courses db))
    eqn:Hclash; [discriminate|].
  unfold LearningPathCourse_objects_create.
  cbn [LearningPathCourse.learning_path LearningPathCourse.course LearningPathCourse.order].
  destruct (negb (0 <=? _)); [discriminate|].
  change (fun q => (LearningPathCourse.learning_path q =? pk)
                   && (LearningPathCourse.course q =? Course.id course))
    with (LearningPathViewSet.in_path pk (Course.id course)).
  rewrite Hclash.
  intros Heq. injection Heq as <- <-.
  exists lp, course. repeat split; auto.
Qed.

(** X10: adding a course and removing it again.  After an [add_course]
    that answered 201, [remove_course] by the same user for the same path
    and the added course answers 204 and gives back the store as it was
    before the addition. *)
Theorem add_course_then_remove_course :
  forall (db db1 : DB) (uid pk : Z) (data : LearningPathViewSet.AddCourseData)
         (row : LearningPathCourse.t),
    LearningPathViewSet.add_course db (User uid) pk data
    = (db1, Data HTTP_201_CREATED row) ->
    LearningPathViewSet.remove_course db1 (User uid) pk
      (Some (LearningPathCourse.course row))
    = (db, inr (Data HTTP_204_NO_CONTENT tt)).
Proof.
  intros db db1 uid pk data row Hadd.
  destruct (add_course_created _ _ _ _ _ _ Hadd)
    as [lp [course [Hget [Hpk [Hown [Htruthy [Hcourse [Hfree [Hrow Hdb1]]]]]]]]].
  assert (Hnonzero : Course.id course <> 0).
  { rewrite (Course_objects_get_id _ _ _ Hcourse).
    unfold LearningPathViewSet.truthy in Htruthy.
    destruct (LearningPathViewSet.course_id data) as [c|]; [|discriminate].
    simpl. apply negb_true_iff in Htruthy. apply Z.eqb_neq. exact Htruthy. }
  assert (Hc : LearningPathCourse.course row = Course.id course) by (subst row; reflexivity).
  rewrite Hc.
  unfold LearningPathViewSet.remove_course.
  assert (Hget' : get_object (learning_paths db1) DELETE (User uid) pk = inr lp).
  { subst db1. cbn [learning_paths with_path_courses].
    unfold get_object in *.
    destruct (find _ _) as [x|]; [|discriminate].
    destruct (IsOwnerOrReadOnly POST (User uid) x) eqn:Hperm; [|discriminate].
    injection Hget as ->. exact (f_equal (fun b : bool => if b then inr lp else inl PermissionDenied) Hperm). }
  rewrite Hget', Hown, Z.eqb_refl, Hpk. cbn [negb].
  unfold LearningPathViewSet.truthy.
  apply Z.eqb_neq in Hnonzero. rewrite Hnonzero. cbn [negb].
  cbn [LearningPathCreateUpdateSerializer.default].
  unfold LearningPathViewSet.objects_get.
  assert (Hhit : LearningPathViewSet.in_path pk (Course.id course) row = true).
  { subst row. unfold LearningPathViewSet.in_path. simpl. rewrite !Z.eqb_refl. reflexivity. }
  pose proof (filter_existsb_false _ _ Hfree) as Hnone.
  subst db1. cbn [path_courses with_path_courses].
  rewrite !filter_app, Hnone. simpl. rewrite Hhit. simpl.
  rewrite (filter_negb_none _ _ Hnone), app_nil_r.
  rewrite with_path_courses_same. reflexivity.
Qed.

Lemma add_course_then_remove_course_witness :
  LearningPathViewSet.remove_course
    (with_path_courses (with_path_courses Scenario.fresh [])
       [LearningPathCourse.mk 1 1 1 true ""])
    (User Scenario.author) 1 (Some 1)
  = (with_path_courses Scenario.fresh [], inr (Data HTTP_204_NO_CONTENT tt)).
Proof.
  apply (add_course_then_remove_course
           (with_path_courses Scenario.fresh [])
           _ Scenario.author 1
           {| LearningPathViewSet.course_id := Some 1;
              LearningPathViewSet.order := None;
              LearningPathViewSet.is_required := None;
              LearningPathViewSet.notes := None |}
           (LearningPathCourse.mk 1 1 1 true "")).
  reflexivity.
Defined.

(** *** The pair (path, course) stays unique *)

Lemma NoDup_snoc {A} (l : list A) (x : A) :
  NoDup l -> ~ In x l -> NoDup (l ++ [x]).
Proof.
  induction l as [|a l IH]; simpl; intros Hnd Hnotin.
  - constructor; [intros [] | constructor].
  - apply NoDup_cons_iff in Hnd. destruct Hnd as [Ha Hnd].
    constructor.
    + intros Hin. apply in_app_or in Hin. destruct Hin as [Hin | [<- | []]]; tauto.
    + apply IH; tauto.
Qed.

Lemma objects_create_unique db pc db' :
  path_courses_unique db ->
  LearningPathCourse_objects_create db pc = inr db' ->
  path_courses_unique db'.
Proof.
  unfold path_courses_unique, LearningPathCourse_objects_create.
  intros Huniq. destruct (negb (0 <=? _)); [discriminate|].
  destruct (existsb _ (path_courses db)) eqn:Hclash; [discriminate|].
  intros Heq. injection Heq as <-. simpl.
  rewrite map_app. simpl. apply NoDup_snoc; [assumption|].
  intros Hin. apply in_map_iff in Hin. destruct Hin as [q [Hkey Hq]].
  injection Hkey as Hlp Hc.
  assert (Htrue : existsb
            (fun q => (LearningPathCourse.learning_path q =? LearningPathCourse.learning_path pc)
                      && (LearningPathCourse.course q =? LearningPathCourse.course pc))
            (path_courses db) = true).
  { apply existsb_exists. exists q. split; [assumption|].
    rewrite Hlp, Hc, !Z.eqb_refl. reflexivity. }
  congruence.
Qed.

Lemma add_courses_unique (items : list (Z * Z)) :
  forall db learning_path,
    path_courses_unique db ->
    path_courses_unique
      (fst (LearningPathCreateUpdateSerializer.add_courses db learning_path items)).
Proof.
  induction items as [|[i c] rest IH]; intros db lp Huniq; simpl; [assumption|].
  destruct (Course_objects_get db c) as [course|]; [|apply IH; assumption].
  destruct (LearningPathCourse_objects_create db _) as [e|db1] eqn:Hcreate.
  - simpl. assumption.
  - apply IH. exact (objects_create_unique _ _ _ Huniq Hcreate).
Qed.

(** X11: [unique_together = ['learning_path', 'course']].  A store in
    which no path holds a course twice stays so under [add_course],
    [remove_course] and the serializer's [create] and [update], whatever the
    request and whatever the outcome (also when the call ends in an error
    half way through a course list). *)
Theorem path_courses_unique_kept :
  forall db : DB,
    path_courses_unique db ->
    (forall u pk data,
        path_courses_unique (fst (LearningPathViewSet.add_course db u pk data)))
    /\ (forall u pk course_id,
          path_courses_unique (fst (LearningPathViewSet.remove_course db u pk course_id)))
    /\ (forall user data,
          path_courses_unique (fst (LearningPathCreateUpdateSerializer.create db user data)))
    /\ (forall instance data,
          path_courses_unique
            (fst (LearningPathCreateUpdateSerializer.update db instance data))).
Proof.
  intros db Huniq. split; [|split; [|split]].
  - intros u pk data. unfold LearningPathViewSet.add_course.
    destruct u as [|uid]; [assumption|].
    destruct (get_object _ _ _ _) as [e|lp]; [assumption|].
    destruct (negb (LearningPath.creator lp =? uid)); [assumption|].
    destruct (negb (LearningPathViewSet.truthy _)); [assumption|].
    destruct (Course_objects_get db _) as [course|]; [|assumption].
    destruct (existsb _ (path_courses db)); [assumption|].
    destruct (LearningPathCourse_objects_create db _) as [e|db1] eqn:Hcreate;
      [assumption|].
    exact (objects_create_unique _ _ _ Huniq Hcreate).
  - intros u pk cid. unfold LearningPathViewSet.remove_course.
    destruct u as [|uid]; [assumption|].
    destruct (get_object _ _ _ _) as [e|lp]; [assumption|].
    destruct (negb (LearningPath.creator lp =? uid)); [assumption|].
    destruct (negb (LearningPathViewSet.truthy _)); [assumption|].
    destruct (LearningPathViewSet.objects_get _ _); try assumption.
    unfold path_courses_unique. simpl.
    apply NoDup_map_filter. exact Huniq.
  - intros user data. unfold LearningPathCreateUpdateSerializer.create.
    match goal with
    | |- context [LearningPathCreateUpdateSerializer.add_courses ?d ?l ?it] =>
        pose proof (add_courses_unique it d l) as Hloop;
        destruct (LearningPathCreateUpdateSerializer.add_courses d l it) as [db1 [e|]]
    end; simpl in *; apply Hloop; exact Huniq.
  - intros instance data. unfold LearningPathCreateUpdateSerializer.update.
    destruct (LearningPathCreateUpdateSerializer.course_ids data) as [ids|];
      [|exact Huniq].
    match goal with
    | |- context [LearningPathCreateUpdateSerializer.add_courses ?d ?l ?it] =>
        pose proof (add_courses_unique it d l) as Hloop;
        destruct (LearningPathCreateUpdateSerializer.add_courses d l it) as [db1 [e|]]
    end; simpl in *; apply Hloop; unfold path_courses_unique; simpl;
      apply NoDup_map_filter; exact Huniq.
Qed.

Lemma path_courses_unique_kept_witness :
  path_courses_unique
    (fst (LearningPathCreateUpdateSerializer.create Scenario.fresh Scenario.author
            {| LearningPathCreateUpdateSerializer.is_public := None;
               LearningPathCreateUpdateSerializer.status := None;
               LearningPathCreateUpdateSerializer.course_ids := Some [1; 1; 99] |})).
Proof.
  assert (Huniq : path_courses_unique Scenario.fresh).
  { unfold path_courses_unique. simpl. repeat constructor. intros []. }
  destruct (path_courses_unique_kept Scenario.fresh Huniq) as [_ [_ [Hcreate _]]].
  apply Hcreate.
Defined.

(** ** What the course-progress views keep *)

Lemma Forall_map_replace {A} (P : A -> Prop) (hit : A -> bool) (x : A) (l : list A) :
  Forall P l -> P x -> Forall P (map (fun q => if hit q then x else q) l).
Proof.
  intros Hall Hx. induction Hall as [|a l Ha Hl IH]; simpl; constructor; auto.
  destruct (hit a); assumption.
Qed.

Lemma Forall2_map_self {A} (R : A -> A -> Prop) (f : A -> A) (l : list A) :
  (forall q, In q l -> R q (f q)) -> Forall2 R l (map f l).
Proof.
  induction l as [|a l IH]; intros HR; simpl; constructor.
  - apply HR. left. reflexivity.
  - apply IH. intros q Hq. apply HR. right. assumption.
Qed.

Lemma same_key_same_row {A} (key : A -> Z) (l : list A) (x y : A) :
  NoDup (map key l) -> In x l -> In y l -> key x = key y -> x = y.
Proof.
  induction l as [|a l IH]; intros Hnd Hx Hy Hkey; [destruct Hx|].
  simpl in Hnd. apply NoDup_cons_iff in Hnd. destruct Hnd as [Hnotin Hnd].
  destruct Hx as [-> | Hx]; destruct Hy as [-> | Hy].
  - reflexivity.
  - exfalso. apply Hnotin. rewrite Hkey. apply in_map. assumption.
  - exfalso. apply Hnotin. rewrite <- Hkey. apply in_map. assumption.
  - apply IH; assumption.
Qed.

(** The two writing views either leave the store alone or save one row
    derived from the row that [get_object] found. *)
Lemma course_view_saves db u now pk :
  (forall db' r,
      UserCourseProgressViewSet.mark_completed db u now pk = (db', r) ->
      db' = db
      \/ exists p p',
           UserCourseProgressViewSet.get_object db u pk = inr p
           /\ db' = UserCourseProgressViewSet.save db p'
           /\ p' = UserCourseProgressViewSet.set_progress_percentage 100
                     (UserCourseProgressViewSet.set_completed_at (Some now) p))
  /\ (forall data db' r,
        UserCourseProgressViewSet.update_progress db u now pk data = (db', r) ->
        db' = db
        \/ exists p p1 p2,
             UserCourseProgressViewSet.get_object db u pk = inr p
             /\ UserCourseProgressViewSet.apply_progress_percentage now
                  (UserCourseProgressViewSet.progress_percentage data) p = inr p1
             /\ UserCourseProgressViewSet.apply_time_spent_hours
                  (UserCourseProgressViewSet.time_spent_hours data) p1 = inr p2
             /\ db' = UserCourseProgressViewSet.save db
                        (UserCourseProgressViewSet.apply_notes
                           (UserCourseProgressViewSet.notes data) p2)).
Proof.
  split.
  - intros db' r. unfold UserCourseProgressViewSet.mark_completed.
    destruct (negb (IsAuthenticated u)); [intros H; injection H as <- _; auto|].
    destruct (UserCourseProgressViewSet.get_object db u pk) as [e|p];
      [intros H; injection H as <- _; auto|].
    destruct (UserCourseProgress.is_completed p); intros H; injection H as <- _; [auto|].
    right. exists p. eexists. repeat split.
  - intros data db' r. unfold UserCourseProgressViewSet.update_progress.
    destruct (negb (IsAuthenticated u)); [intros H; injection H as <- _; auto|].
    destruct (UserCourseProgressViewSet.get_object db u pk) as [e|p];
      [intros H; injection H as <- _; auto|].
    destruct (UserCourseProgressViewSet.apply_progress_percentage _ _ p) as [r1|p1] eqn:E1;
      [intros H; injection H as <- _; auto|].
    destruct (UserCourseProgressViewSet.apply_time_spent_hours _ p1) as [r2|p2] eqn:E2;
      intros H; injection H as <- _; [auto|].
    right. exists p, p1, p2. repeat split; assumption.
Qed.

Lemma apply_progress_percentage_inv now v p p1 :
  UserCourseProgressViewSet.apply_progress_percentage now v p = inr p1 ->
  UserCourseProgress.id p1 = UserCourseProgress.id p
  /\ UserCourseProgress.user p1 = UserCourseProgress.user p
  /\ UserCourseProgress.course p1 = UserCourseProgress.course p
  /\ UserCourseProgress.started_at p1 = UserCourseProgress.started_at p
  /\ UserCourseProgress.time_spent_hours p1 = UserCourseProgress.time_spent_hours p
  /\ (UserCourseProgress.is_completed p = true -> UserCourseProgress.is_completed p1 = true)
  /\ (0 <= UserCourseProgress.progress_percentage p <= 100 ->
      0 <= UserCourseProgress.progress_percentage p1 <= 100).
Proof.
  unfold UserCourseProgressViewSet.apply_progress_percentage.
  destruct v as [v|]; [|intros H; injection H as <-; repeat split; auto; intros; lia].
  destruct ((0 <=? v) && (v <=? 100)) eqn:Hrange; [|discriminate].
  apply andb_true_iff in Hrange. destruct Hrange as [Hlo Hhi].
  apply Z.leb_le in Hlo. apply Z.leb_le in Hhi.
  destruct (v =? 100); intros H; injection H as <-;
    unfold UserCourseProgress.is_completed; simpl;
    repeat split; auto; intros; lia.
Qed.

Lemma apply_time_spent_hours_inv v p1 p2 :
  UserCourseProgressViewSet.apply_time_spent_hours v p1 = inr p2 ->
  UserCourseProgress.id p2 = UserCourseProgress.id p1
  /\ UserCourseProgress.user p2 = UserCourseProgress.user p1
  /\ UserCourseProgress.course p2 = UserCourseProgress.course p1
  /\ UserCourseProgress.started_at p2 = UserCourseProgress.started_at p1
  /\ UserCourseProgress.completed_at p2 = UserCourseProgress.completed_at p1
  /\ UserCourseProgress.progress_percentage p2 = UserCourseProgress.progress_percentage p1
  /\ (0 <= UserCourseProgress.time_spent_hours p1 ->
      0 <= UserCourseProgress.time_spent_hours p2).
Proof.
  unfold UserCourseProgressViewSet.apply_time_spent_hours.
  destruct v as [v|]; [|intros H; injection H as <-; repeat split; auto].
  destruct (0 <=? v) eqn:Hv; [|discriminate].
  apply Z.leb_le in Hv.
  intros H; injection H as <-; simpl; repeat split; auto.
Qed.

(** X12: the stored percentages stay within 0..100 and the stored times
    stay non-negative under [start_course], [mark_completed] and
    [update_progress], for every request. *)
Theorem course_progress_valid_kept :
  forall db : DB,
    course_progress_valid db ->
    (forall u now pk, course_progress_valid (fst (CourseViewSet.start_course db u now pk)))
    /\ (forall u now pk,
          course_progress_valid (fst (UserCourseProgressViewSet.mark_completed db u now pk)))
    /\ (forall u now pk data,
          course_progress_valid
            (fst (UserCourseProgressViewSet.update_progress db u now pk data))).
Proof.
  intros db Hvalid. split; [|split].
  - intros u now pk. unfold CourseViewSet.start_course.
    destruct u as [|uid]; [assumption|].
    destruct (get_object _ _ _ _) as [e|course]; [assumption|].
    destruct (find _ (course_progress db)); [assumption|].
    simpl. unfold course_progress_valid. simpl.
    apply Forall_app. split; [assumption|].
    constructor; [|constructor]. unfold progress_row_valid. simpl. lia.
  - intros u now pk.
    destruct (UserCourseProgressViewSet.mark_completed db u now pk) as [db' r] eqn:Hop.
    destruct (proj1 (course_view_saves db u now pk) _ _ Hop)
      as [-> | [p [p' [Hget [-> ->]]]]]; [assumption|].
    destruct (course_get_object_inv _ _ _ _ Hget) as [Hin _].
    unfold course_progress_valid in *. simpl.
    apply Forall_map_replace; [assumption|].
    rewrite Forall_forall in Hvalid. specialize (Hvalid p Hin).
    unfold progress_row_valid in *. simpl. lia.
  - intros u now pk data.
    destruct (UserCourseProgressViewSet.update_progress db u now pk data)
      as [db' r] eqn:Hop.
    destruct (proj2 (course_view_saves db u now pk) _ _ _ Hop)
      as [-> | [p [p1 [p2 [Hget [H1 [H2 ->]]]]]]]; [assumption|].
    destruct (course_get_object_inv _ _ _ _ Hget) as [Hin _].
    unfold course_progress_valid in *. simpl.
    apply Forall_map_replace; [assumption|].
    rewrite Forall_forall in Hvalid. specialize (Hvalid p Hin).
    destruct (apply_progress_percentage_inv _ _ _ _ H1) as [_ [_ [_ [_ [Ht1 [_ Hpp1]]]]]].
    destruct (apply_time_spent_hours_inv _ _ _ H2) as [_ [_ [_ [_ [_ [Hpp2 Ht2]]]]]].
    unfold progress_row_valid in *.
    destruct (UserCourseProgressViewSet.notes data); simpl; rewrite Hpp2;
      (split; [apply Hpp1; tauto | apply Ht2; rewrite Ht1; tauto]).
Qed.

Lemma course_progress_valid_kept_witness :
  course_progress_valid
    (fst (UserCourseProgressViewSet.update_progress Scenario.in_progress
            (User Scenario.learner) 9 1
            {| UserCourseProgressViewSet.progress_percentage := Some 75;
               UserCourseProgressViewSet.time_spent_hours := Some 250;
               UserCourseProgressViewSet.notes := None |})).
Proof.
  assert (Hvalid : course_progress_valid Scenario.in_progress).
  { repeat constructor; simpl; lia. }
  destruct (course_progress_valid_kept Scenario.in_progress Hvalid) as [_ [_ Hupdate]].
  apply Hupdate.
Defined.

Lemma row_kept_refl u pk q : row_kept u pk q q.
Proof. unfold row_kept. repeat split; auto. Qed.

Lemma with_course_progress_same db :
  db = with_course_progress db (course_progress db).
Proof. destruct db. reflexivity. Qed.

Lemma save_rows_kept db u pk p p' :
  course_progress_ids_unique db ->
  UserCourseProgressViewSet.get_object db u pk = inr p ->
  UserCourseProgress.id p' = UserCourseProgress.id p ->
  UserCourseProgress.user p' = UserCourseProgress.user p ->
  UserCourseProgress.course p' = UserCourseProgress.course p ->
  UserCourseProgress.started_at p' = UserCourseProgress.started_at p ->
  (UserCourseProgress.is_completed p = true -> UserCourseProgress.is_completed p' = true) ->
  Forall2 (row_kept u pk) (course_progress db)
    (course_progress (UserCourseProgressViewSet.save db p')).
Proof.
  intros Huniq Hget Hid Huser Hcourse Hstart Hdone.
  destruct (course_get_object_inv _ _ _ _ Hget) as [Hin [Hu Hpk]].
  unfold UserCourseProgressViewSet.save. simpl.
  apply Forall2_map_self. intros q Hq.
  destruct (UserCourseProgress.id q =? UserCourseProgress.id p') eqn:E;
    [|apply row_kept_refl].
  apply Z.eqb_eq in E.
  assert (q = p).
  { apply (same_key_same_row UserCourseProgress.id (course_progress db)); auto.
    congruence. }
  subst q. unfold row_kept. repeat split; auto.
  - intros Hfalse. congruence.
  - intros Hne. congruence.
Qed.

(** X13: the progress views touch the requester's record only.  In a
    store with unique keys, [mark_completed] and [update_progress] keep the
    table row by row: every row keeps its key, user, course and start time;
    a row of another user, or with another key than the requested one, is
    unchanged; a completed row stays completed; no row is added or removed
    and no other table changes.  [start_course] changes no existing row and
    adds at most one row, which belongs to the requester. *)
Theorem course_rows_kept :
  forall (db : DB) (u : RequestUser) (now : datetime) (pk : Z),
    course_progress_ids_unique db ->
    (forall db' r,
        UserCourseProgressViewSet.mark_completed db u now pk = (db', r) ->
        Forall2 (row_kept u pk) (course_progress db) (course_progress db')
        /\ db' = with_course_progress db (course_progress db'))
    /\ (forall data db' r,
          UserCourseProgressViewSet.update_progress db u now pk data = (db', r) ->
          Forall2 (row_kept u pk) (course_progress db) (course_progress db')
          /\ db' = with_course_progress db (course_progress db'))
    /\ (forall db' r,
          CourseViewSet.start_course db u now pk = (db', r) ->
          exists added,
            course_progress db' = course_progress db ++ added
            /\ (List.length added <= 1)%nat
            /\ Forall (fun p => is_user u (UserCourseProgress.user p) = true) added
            /\ db' = with_course_progress db (course_progress db')).
Proof.
  intros db u now pk Huniq.
  assert (Hsame : Forall2 (row_kept u pk) (course_progress db) (course_progress db)).
  { rewrite <- (map_id (course_progress db)) at 2.
    apply Forall2_map_self. intros q _. apply row_kept_refl. }
  split; [|split].
  - intros db' r Hop.
    destruct (proj1 (course_view_saves db u now pk) _ _ Hop)
      as [-> | [p [p' [Hget [-> ->]]]]].
    + split; [assumption | apply with_course_progress_same].
    + split; [|reflexivity].
      apply (save_rows_kept db u pk p); auto.
  - intros data db' r Hop.
    destruct (proj2 (course_view_saves db u now pk) _ _ _ Hop)
      as [-> | [p [p1 [p2 [Hget [H1 [H2 ->]]]]]]].
    + split; [assumption | apply with_course_progress_same].
    + split; [|reflexivity].
      destruct (apply_progress_percentage_inv _ _ _ _ H1)
        as [Hid1 [Hu1 [Hc1 [Hs1 [_ [Hdone1 _]]]]]].
      destruct (apply_time_spent_hours_inv _ _ _ H2)
        as [Hid2 [Hu2 [Hc2 [Hs2 [Hdone2 _]]]]].
      apply (save_rows_kept db u pk p); auto;
        destruct (UserCourseProgressViewSet.notes data); simpl; try congruence;
        intros Hdone; unfold UserCourseProgress.is_completed in *; simpl;
        rewrite Hdone2; apply Hdone1; assumption.
  - intros db' r. unfold CourseViewSet.start_course.
    destruct u as [|uid];
      [intros H; injection H as <- _; exists []; rewrite app_nil_r;
       repeat split; auto; apply with_course_progress_same|].
    destruct (get_object _ _ _ _) as [e|course];
      [intros H; injection H as <- _; exists []; rewrite app_nil_r;
       repeat split; auto; apply with_course_progress_same|].
    destruct (find _ (course_progress db));
      [intros H; injection H as <- _; exists []; rewrite app_nil_r;
       repeat split; auto; apply with_course_progress_same|].
    simpl. intros H; injection H as <- _. eexists. split; [reflexivity|].
    split; [simpl; lia|]. split; [|reflexivity].
    constructor; [|constructor]. simpl. apply Z.eqb_refl.
Qed.

Lemma course_rows_kept_witness :
  Forall2 (row_kept (User Scenario.learner) 1)
    (course_progress Scenario.in_progress)
    [UserCourseProgress.mk 1 Scenario.learner 1 0 (Some 9) 100 0 ""]
  /\ with_course_progress Scenario.in_progress
       [UserCourseProgress.mk 1 Scenario.learner 1 0 (Some 9) 100 0 ""]
     = with_course_progress Scenario.in_progress
         (course_progress
            (with_course_progress Scenario.in_progress
               [UserCourseProgress.mk 1 Scenario.learner 1 0 (Some 9) 100 0 ""])).
Proof.
  assert (Huniq : course_progress_ids_unique Scenario.in_progress).
  { unfold course_progress_ids_unique. simpl. repeat constructor. intros []. }
  destruct (course_rows_kept Scenario.in_progress (User Scenario.learner) 9 1 Huniq)
    as [Hmark _].
  apply (Hmark (with_course_progress Scenario.in_progress
                  [UserCourseProgress.mk 1 Scenario.learner 1 0 (Some 9) 100 0 ""])
               (Data HTTP_200_OK (UserCourseProgress.mk 1 Scenario.learner 1 0 (Some 9) 100 0 ""))).
  reflexivity.
Defined.

(** ** The stored rating against the exact mean *)

Lemma rating_ok_100 : rating_ok_upto 100 = true.
Proof. vm_compute. reflexivity. Qed.

Lemma rating_ok_upto_spec (bound n s : nat) :
  rating_ok_upto bound = true ->
  (1 <= n <= bound)%nat -> (n <= s <= 5 * n)%nat ->
  rating_ok (Z.of_nat n) (Z.of_nat s) = true.
Proof.
  unfold rating_ok_upto. intros Hall Hn Hs.
  rewrite forallb_forall in Hall.
  assert (Hin : In n (seq 1 bound)) by (apply in_seq; lia).
  pose proof (Hall n Hin) as Hrow. rewrite forallb_forall in Hrow.
  apply Hrow. apply in_seq. lia.
Qed.

Lemma rating_ok_in_range (n s : Z) :
  1 <= n <= 100 -> n <= s <= 5 * n -> rating_ok n s = true.
Proof.
  intros Hn Hs.
  rewrite <- (Z2Nat.id n), <- (Z2Nat.id s) by lia.
  apply (rating_ok_upto_spec 100); [exact rating_ok_100 | lia | lia].
Qed.

Lemma sum_of_valid_ratings (rs : list Z) :
  Forall (fun r => 1 <= r <= 5) rs ->
  count rs <= fold_right Z.add 0 rs <= 5 * count rs.
Proof.
  unfold count. induction 1 as [|r rs Hr _ IH]; simpl fold_right; simpl List.length; lia.
Qed.

Lemma course_reviews_valid db course :
  reviews_valid db ->
  Forall (fun r => 1 <= r <= 5)
    (map CourseReview.rating (CourseReviewViewSet.course_reviews db course)).
Proof.
  unfold reviews_valid, CourseReviewViewSet.course_reviews.
  rewrite !Forall_forall. intros Hall r Hin.
  apply in_map_iff in Hin. destruct Hin as [x [<- Hx]].
  apply filter_In in Hx. apply Hall. tauto.
Qed.

(** X14: what the aggregator stores.  When every review carries a rating
    from 1 to 5 and the course has at most 100 reviews, the course row that
    the aggregator writes holds the number of reviews and, with no review,
    no rating; with reviews, a rating from 1.00 to 5.00 that is within half
    a hundredth of the exact mean of the ratings. *)
Theorem course_rating_rounded_mean :
  forall (db : DB) (course : Z) (c : Course.t),
    reviews_valid db ->
    count (CourseReviewViewSet.course_reviews db course) <= 100 ->
    In c (courses (CourseReviewViewSet.update_course_rating db course)) ->
    Course.id c = course ->
    let ratings := map CourseReview.rating (CourseReviewViewSet.course_reviews db course) in
    Course.total_ratings c = count ratings
    /\ match Course.rating c with
       | None => ratings = []
       | Some h =>
           ratings <> []
           /\ 100 <= h <= 500
           /\ 2 * Z.abs (h * count ratings - 100 * fold_right Z.add 0 ratings)
              <= count ratings
       end.
Proof.
  intros db course c Hvalid Hsize Hin Hid ratings.
  destruct (update_course_rating_consistent db course c Hin Hid) as [Hrating Htotal].
  change (CourseReviewViewSet.course_reviews
            (CourseReviewViewSet.update_course_rating db course) course)
    with (CourseReviewViewSet.course_reviews db course) in Hrating, Htotal.
  fold ratings in Hrating.
  assert (Hcount : count ratings = count (CourseReviewViewSet.course_reviews db course)).
  { unfold ratings, count. rewrite length_map. reflexivity. }
  split; [congruence|].
  rewrite Hrating.
  pose proof (sum_of_valid_ratings ratings (course_reviews_valid db course Hvalid)) as Hsum.
  destruct ratings as [|r rs] eqn:E; [reflexivity|].
  assert (Hn : 1 <= count (r :: rs) <= 100).
  { split; [unfold count; simpl List.length; lia | lia]. }
  pose proof (rating_ok_in_range _ _ Hn Hsum) as Hok.
  unfold rating_ok in Hok. unfold CourseReviewViewSet.Avg.
  destruct (CourseReviewViewSet.rating_of_avg _) as [h|]; [|discriminate].
  repeat (apply andb_true_iff in Hok; destruct Hok as [Hok ?]).
  repeat match goal with
         | H : (_ <=? _) = true |- _ => apply Z.leb_le in H
         end.
  split; [discriminate|]. split; [lia | assumption].
Qed.

Lemma course_rating_rounded_mean_witness :
  let ratings := map CourseReview.rating (CourseReviewViewSet.course_reviews Scenario.reviewed 1) in
  Course.total_ratings (Course.mk 1 Scenario.author true published (Some 500) 1)
  = count ratings
  /\ (ratings <> []
      /\ 100 <= 500 <= 500
      /\ 2 * Z.abs (500 * count ratings - 100 * fold_right Z.add 0 ratings)
         <= count ratings).
Proof.
  apply (course_rating_rounded_mean Scenario.reviewed 1
           (Course.mk 1 Scenario.author true published (Some 500) 1)).
  - unfold reviews_valid. simpl. constructor; [simpl; lia | constructor].
  - vm_compute. discriminate.
  - simpl. left. reflexivity.
  - reflexivity.
Defined.

(** ** Tags *)

Lemma lstrip_In c s : In c (PyStr.lstrip s) -> In c s.
Proof.
  induction s as [|a s IH]; simpl; [tauto|].
  destruct (PyStr.isspace a); simpl; tauto.
Qed.

Lemma strip_In c s : In c (PyStr.strip s) -> In c s.
Proof.
  unfold PyStr.strip, PyStr.rstrip. intros H.
  apply in_rev in H. apply lstrip_In in H. apply in_rev in H.
  apply lstrip_In. exact H.
Qed.

Lemma lstrip_head s :
  match PyStr.lstrip s with
  | [] => True
  | c :: _ => PyStr.isspace c = false
  end.
Proof.
  induction s as [|a s IH]; simpl; [exact I|].
  destruct (PyStr.isspace a) eqn:E; [exact IH | exact E].
Qed.

Lemma lstrip_fixed c s : PyStr.isspace c = false -> PyStr.lstrip (c :: s) = c :: s.
Proof. intros H. simpl. rewrite H. reflexivity. Qed.

Lemma lstrip_snoc s c :
  PyStr.isspace c = false -> PyStr.lstrip (s ++ [c]) = PyStr.lstrip s ++ [c].
Proof.
  intros Hc. induction s as [|a s IH]; simpl.
  - rewrite Hc. reflexivity.
  - destruct (PyStr.isspace a); [exact IH | reflexivity].
Qed.

Lemma lstrip_spaces ws s :
  forallb PyStr.isspace ws = true -> PyStr.lstrip (ws ++ s) = PyStr.lstrip s.
Proof.
  induction ws as [|a ws IH]; simpl; [reflexivity|].
  intros H. apply andb_true_iff in H. destruct H as [Ha Hws].
  rewrite Ha. auto.
Qed.

Lemma lstrip_idem s : PyStr.lstrip (PyStr.lstrip s) = PyStr.lstrip s.
Proof.
  pose proof (lstrip_head s) as H.
  destruct (PyStr.lstrip s) as [|c u]; [reflexivity|].
  apply lstrip_fixed. exact H.
Qed.

Lemma rstrip_cons c u :
  PyStr.isspace c = false -> PyStr.rstrip (c :: u) = c :: PyStr.rstrip u.
Proof.
  intros Hc. unfold PyStr.rstrip. simpl rev.
  rewrite (lstrip_snoc _ _ Hc), rev_app_distr. reflexivity.
Qed.

Lemma rstrip_idem s : PyStr.rstrip (PyStr.rstrip s) = PyStr.rstrip s.
Proof. unfold PyStr.rstrip. rewrite rev_involutive, lstrip_idem. reflexivity. Qed.

Lemma strip_idem s : PyStr.strip (PyStr.strip s) = PyStr.strip s.
Proof.
  unfold PyStr.strip.
  pose proof (lstrip_head s) as Hhead.
  destruct (PyStr.lstrip s) as [|c u]; [reflexivity|].
  rewrite (rstrip_cons _ _ Hhead), (lstrip_fixed _ _ Hhead), (rstrip_cons _ _ Hhead).
  rewrite rstrip_idem. reflexivity.
Qed.

Lemma strip_spaces ws s :
  forallb PyStr.isspace ws = true -> PyStr.strip (ws ++ s) = PyStr.strip s.
Proof. intros H. unfold PyStr.strip. rewrite (lstrip_spaces _ _ H). reflexivity. Qed.

Lemma split_not_nil sep s : PyStr.split sep s <> [].
Proof.
  destruct s as [|c s]; simpl; [discriminate|].
  destruct (c =? sep); [discriminate|].
  destruct (PyStr.split sep s); discriminate.
Qed.

Lemma split_no_sep sep s x : In x (PyStr.split sep s) -> ~ In sep x.
Proof.
  revert x. induction s as [|c s IH]; simpl; intros x Hx.
  - destruct Hx as [<- | []]. simpl. tauto.
  - destruct (c =? sep) eqn:E.
    + destruct Hx as [<- | Hx]; [simpl; tauto | auto].
    + apply Z.eqb_neq in E.
      destruct (PyStr.split sep s) as [|h t] eqn:Hs.
      * destruct Hx as [<- | []]. simpl. intros [H | []]. congruence.
      * destruct Hx as [<- | Hx].
        -- simpl. intros [H | H]; [congruence|]. apply (IH h); [left; reflexivity | exact H].
        -- apply IH. right. exact Hx.
Qed.

Lemma split_app sep t s :
  ~ In sep t -> PyStr.split sep (t ++ sep :: s) = t :: PyStr.split sep s.
Proof.
  induction t as [|c t IH]; simpl; intros Hno.
  - rewrite Z.eqb_refl. reflexivity.
  - destruct (c =? sep) eqn:E; [apply Z.eqb_eq in E; tauto|].
    rewrite IH by tauto. reflexivity.
Qed.

Lemma split_one sep t : ~ In sep t -> PyStr.split sep t = [t].
Proof.
  induction t as [|c t IH]; simpl; intros Hno; [reflexivity|].
  destruct (c =? sep) eqn:E; [apply Z.eqb_eq in E; tauto|].
  rewrite IH by tauto. reflexivity.
Qed.

Lemma tag_list_In_inv (tags x : PyStr.str) :
  In x (tag_list tags) ->
  exists y, In y (PyStr.split PyStr.comma tags) /\ x = PyStr.strip y /\ x <> [].
Proof.
  unfold tag_list. intros H. apply in_map_iff in H. destruct H as [y [<- Hy]].
  apply filter_In in Hy. destruct Hy as [Hy Hne]. exists y.
  split; [exact Hy|]. split; [reflexivity|].
  destruct (PyStr.strip y); [discriminate Hne | discriminate].
Qed.

Lemma split_In_chars sep s x c : In x (PyStr.split sep s) -> In c x -> In c s.
Proof.
  revert x. induction s as [|a s IH]; simpl; intros x Hx Hc.
  - destruct Hx as [<- | []]. exact Hc.
  - destruct (a =? sep).
    + destruct Hx as [<- | Hx]; [destruct Hc | right; eauto].
    + destruct (PyStr.split sep s) as [|h t].
      * destruct Hx as [<- | []]. destruct Hc as [<- | []]. left. reflexivity.
      * destruct Hx as [<- | Hx].
        -- destruct Hc as [<- | Hc]; [left; reflexivity | right].
           apply (IH h); [left; reflexivity | exact Hc].
        -- right. apply (IH x); [right; exact Hx | exact Hc].
Qed.

(** X15: what [tag_list] returns, for any stored [tags]: every tag is not
    empty, holds no comma and has no white space at either end (stripping
    it again changes nothing); every code point of a tag occurs in [tags];
    and a [tags] made of commas and white space only, the empty string
    included, has no tags. *)
Theorem tag_list_clean :
  forall tags : PyStr.str,
    Forall clean_tag (tag_list tags)
    /\ (forall t c, In t (tag_list tags) -> In c t -> In c tags)
    /\ (forallb (fun c => (c =? PyStr.comma) || PyStr.isspace c) tags = true ->
        tag_list tags = []).
Proof.
  intros tags. split; [|split].
  - apply Forall_forall. intros x Hx.
    destruct (tag_list_In_inv tags x Hx) as [y [Hy [-> Hne]]].
    split; [exact Hne|]. split; [|apply strip_idem].
    intros Hc. apply strip_In in Hc. exact (split_no_sep _ _ _ Hy Hc).
  - intros t c Ht Hc.
    destruct (tag_list_In_inv tags t Ht) as [y [Hy [-> _]]].
    apply strip_In in Hc. exact (split_In_chars _ _ _ _ Hy Hc).
  - intros Hall.
    destruct (tag_list tags) as [|t ts] eqn:E; [reflexivity|].
    assert (Ht : In t (tag_list tags)) by (rewrite E; left; reflexivity).
    destruct (tag_list_In_inv tags t Ht) as [y [Hy [Heq Hne]]].
    pose proof (lstrip_head y) as Hhead.
    assert (Hin : forall c, In c (PyStr.lstrip y) -> PyStr.isspace c = true).
    { intros c Hc. apply lstrip_In in Hc.
      pose proof (split_In_chars _ _ _ _ Hy Hc) as Hc'.
      rewrite forallb_forall in Hall. pose proof (Hall c Hc') as H.
      apply orb_true_iff in H. destruct H as [H | H]; [|exact H].
      apply Z.eqb_eq in H. subst c. exfalso. exact (split_no_sep _ _ _ Hy Hc). }
    destruct (PyStr.lstrip y) as [|c u] eqn:El.
    + exfalso. apply Hne. rewrite Heq. unfold PyStr.strip. rewrite El. reflexivity.
    + rewrite (Hin c (or_introl eq_refl)) in Hhead. discriminate.
Qed.

Lemma strip_clean ws t :
  forallb PyStr.isspace ws = true -> clean_tag t -> PyStr.strip (ws ++ t) = t.
Proof. intros Hws [_ [_ Hs]]. rewrite (strip_spaces _ _ Hws). exact Hs. Qed.

Lemma tag_list_cons ws t s :
  forallb PyStr.isspace ws = true -> clean_tag t ->
  tag_list ((ws ++ t) ++ PyStr.comma :: s) = t :: tag_list s.
Proof.
  intros Hws Ht. unfold tag_list.
  rewrite split_app.
  - pose proof (strip_clean _ _ Hws Ht) as Hs. destruct Ht as [Hne _].
    cbn [filter]. rewrite Hs.
    destruct t as [|z t]; [congruence|].
    cbn [PyStr.bool_of_str map]. rewrite Hs. reflexivity.
  - intros Hin. apply in_app_or in Hin. destruct Hin as [Hin | Hin].
    + rewrite forallb_forall in Hws. pose proof (Hws _ Hin) as H. discriminate H.
    + destruct Ht as [_ [Hno _]]. exact (Hno Hin).
Qed.

Lemma tag_list_one ws t :
  forallb PyStr.isspace ws = true -> clean_tag t -> tag_list (ws ++ t) = [t].
Proof.
  intros Hws Ht. unfold tag_list.
  rewrite split_one.
  - pose proof (strip_clean _ _ Hws Ht) as Hs. destruct Ht as [Hne _].
    cbn [filter]. rewrite Hs.
    destruct t as [|z t]; [congruence|].
    cbn [PyStr.bool_of_str map]. rewrite Hs. reflexivity.
  - intros Hin. apply in_app_or in Hin. destruct Hin as [Hin | Hin].
    + rewrite forallb_forall in Hws. pose proof (Hws _ Hin) as H. discriminate H.
    + destruct Ht as [_ [Hno _]]. exact (Hno Hin).
Qed.

Lemma tag_list_join_from pre ws ts :
  forallb PyStr.isspace pre = true ->
  forallb PyStr.isspace ws = true -> Forall clean_tag ts -> ts <> [] ->
  tag_list (pre ++ PyStr.join (PyStr.comma :: ws) ts) = ts.
Proof.
  intros Hpre Hws Hall. revert pre Hpre.
  induction Hall as [|t ts Ht Hts IH]; [congruence|].
  intros pre Hpre _. destruct ts as [|t' ts'].
  - simpl PyStr.join. apply tag_list_one; assumption.
  - change (PyStr.join (PyStr.comma :: ws) (t :: t' :: ts'))
      with (t ++ PyStr.comma :: (ws ++ PyStr.join (PyStr.comma :: ws) (t' :: ts'))).
    rewrite app_assoc.
    rewrite (tag_list_cons _ _ _ Hpre Ht). f_equal. apply IH; [exact Hws | discriminate].
Qed.

(** X16: [tag_list] reads back what a comma-separated field was written
    from: for tags that are not empty, hold no comma and have no white
    space at either end, joined with a comma followed by any white space
    (none, or one blank as in ["a, b"]), [tag_list] returns the tags, in
    order. *)
Theorem tag_list_join :
  forall (ws : PyStr.str) (ts : list PyStr.str),
    forallb PyStr.isspace ws = true ->
    Forall clean_tag ts ->
    tag_list (PyStr.join (PyStr.comma :: ws) ts) = ts.
Proof.
  intros ws ts Hws Hall.
  destruct ts as [|t ts]; [reflexivity|].
  apply (tag_list_join_from [] ws (t :: ts)); [reflexivity | exact Hws | exact Hall | discriminate].
Qed.

Lemma tag_list_clean_witness :
  tag_list [44; 32; 44; 9] = [].
Proof. apply (tag_list_clean [44; 32; 44; 9]). reflexivity. Defined.

Lemma tag_list_join_witness :
  tag_list (PyStr.join [PyStr.comma; 32] [[112; 121]; [119; 101; 98]])
  = [[112; 121]; [119; 101; 98]].
Proof.
  apply (tag_list_join [32] [[112; 121]; [119; 101; 98]]).
  - reflexivity.
  - repeat constructor; try discriminate; simpl; intuition discriminate.
Defined.

(** ** Starting a course and reading the progress back *)

Lemma find_none_filter {A} (f : A -> bool) (l : list A) :
  find f l = None -> filter f l = [].
Proof.
  induction l as [|a l IH]; simpl; [reflexivity|].
  destruct (f a); [discriminate | exact IH].
Qed.

Lemma get_object_POST_GET {A} `{Owned A} (objects : list A) u pk obj :
  get_object objects POST u pk = inr obj -> get_object objects GET u pk = inr obj.
Proof.
  unfold get_object.
  destruct (find _ _) as [x|]; [|discriminate].
  destruct (IsOwnerOrReadOnly POST u x); [|discriminate].
  intros Heq. injection Heq as <-. reflexivity.
Qed.

(** X17: a started course can be read back.  When [start_course] answers
    201 with a record, the [progress] action of the same user on the same
    course answered 404 before the start and answers 200 with that record
    after it, and the [progress] action of every other requester, on any
    course, answers after the start what it answered before. *)
Theorem start_course_then_progress :
  forall (db db' : DB) (uid : Z) (now : datetime) (pk : Z) (p : UserCourseProgress.t),
    CourseViewSet.start_course db (User uid) now pk = (db', Data HTTP_201_CREATED p) ->
    CourseProgressAction.progress db (User uid) pk
    = inr (Detail HTTP_404_NOT_FOUND "You have not started this course yet.")
    /\ CourseProgressAction.progress db' (User uid) pk = inr (Data HTTP_200_OK p)
    /\ (forall u' pk',
          u' <> User uid ->
          CourseProgressAction.progress db' u' pk' = CourseProgressAction.progress db u' pk').
Proof.
  intros db db' uid now pk p. unfold CourseViewSet.start_course.
  destruct (get_object (courses db) POST (User uid) pk) as [e|course] eqn:Hget;
    [intros H; discriminate H|].
  destruct (find _ (course_progress db)) eqn:Hfind; [intros H; discriminate H|].
  cbn [extract_model_params]. simpl.
  intros H. injection H as <- <-.
  pose proof (get_object_POST_GET _ _ _ _ Hget) as Hread.
  pose proof (find_none_filter _ _ Hfind) as Hnone.
  split; [|split].
  - unfold CourseProgressAction.progress. rewrite Hread.
    unfold LearningPathViewSet.objects_get, CourseProgressAction.of_user_and_course.
    rewrite Hnone. reflexivity.
  - unfold CourseProgressAction.progress.
    rewrite get_object_with_course_progress, Hread.
    unfold LearningPathViewSet.objects_get, CourseProgressAction.of_user_and_course.
    cbn [course_progress with_course_progress].
    rewrite filter_app, Hnone. simpl. rewrite !Z.eqb_refl. reflexivity.
  - intros u' pk' Hother. unfold CourseProgressAction.progress.
    destruct u' as [|uid']; [reflexivity|].
    rewrite get_object_with_course_progress.
    destruct (get_object (courses db) GET (User uid') pk') as [e|course']; [reflexivity|].
    unfold LearningPathViewSet.objects_get, CourseProgressAction.of_user_and_course.
    cbn [course_progress with_course_progress].
    rewrite filter_app. simpl.
    assert (Hne : (uid =? uid') = false) by (apply Z.eqb_neq; congruence).
    rewrite Hne. simpl. rewrite app_nil_r. reflexivity.
Qed.

Lemma start_course_then_progress_witness :
  CourseProgressAction.progress Scenario.fresh (User Scenario.author) 1
  = inr (Detail HTTP_404_NOT_FOUND "You have not started this course yet.")
  /\ CourseProgressAction.progress
       (with_course_progress Scenario.fresh
          [UserCourseProgress.mk 1 Scenario.author 1 9 None 0 0 ""])
       (User Scenario.author) 1
     = inr (Data HTTP_200_OK (UserCourseProgress.mk 1 Scenario.author 1 9 None 0 0 "")).
Proof.
  destruct (start_course_then_progress Scenario.fresh
              (with_course_progress Scenario.fresh
                 [UserCourseProgress.mk 1 Scenario.author 1 9 None 0 0 ""])
              Scenario.author 9 1
              (UserCourseProgress.mk 1 Scenario.author 1 9 None 0 0 "") eq_refl)
    as [Hbefore [Hafter _]].
  split; [exact Hbefore | exact Hafter].
Defined.

(** ** Who reaches a review *)

Lemma filter_true {A} (l : list A) : filter (fun _ => true) l = l.
Proof. induction l; simpl; congruence. Qed.

(** X18: who may delete a review.  In a store with unique review keys, a
    [destroy] request of an authenticated user for a stored review deletes
    it and recomputes the course's rating when the requester is staff, or
    wrote the review, or the review's course is public and published; the
    author of the review is not compared with the requester beyond that.
    In every other case the answer is 404 and the store is unchanged.  A
    deleted review is gone and every other review stays. *)
Theorem review_destroy_reach :
  forall (db : DB) (uid : Z) (is_staff : bool) (r : CourseReview.t),
    review_ids_unique db ->
    In r (reviews db) ->
    CourseReviewViewSet.destroy db (User uid) is_staff (CourseReview.id r)
    = (if is_staff || (uid =? CourseReview.user r)
          || CourseReviewViewSet.course_public_published db r
       then (CourseReviewViewSet.perform_destroy db r, Data HTTP_204_NO_CONTENT tt)
       else (db, Raise Http404))
    /\ (forall r',
          In r' (reviews (CourseReviewViewSet.perform_destroy db r))
          <-> In r' (reviews db) /\ r' <> r).
Proof.
  intros db uid is_staff r Huniq Hin. split.
  - unfold CourseReviewViewSet.destroy, CourseReviewViewSet.get_object,
      CourseReviewViewSet.get_queryset.
    cbn [IsAuthenticated is_authenticated negb].
    destruct is_staff.
    + rewrite <- (filter_true (reviews db)).
      rewrite (find_by_key CourseReview.id (fun _ => true) _ r Huniq Hin). reflexivity.
    + rewrite (find_by_key CourseReview.id _ _ r Huniq Hin).
      cbn [is_user orb].
      destruct ((uid =? CourseReview.user r)
                || CourseReviewViewSet.course_public_published db r); reflexivity.
  - intros r'. unfold CourseReviewViewSet.perform_destroy,
      CourseReviewViewSet.update_course_rating.
    cbn [reviews with_reviews with_courses]. rewrite filter_In. split.
    + intros [Hr' Hid]. split; [exact Hr'|].
      intros ->. rewrite Z.eqb_refl in Hid. discriminate.
    + intros [Hr' Hne]. split; [exact Hr'|].
      apply negb_true_iff, Z.eqb_neq. intros Hid. apply Hne.
      exact (review_of_id db r r' Huniq Hin Hr' Hid).
Qed.

Lemma review_destroy_reach_witness :
  CourseReviewViewSet.destroy Scenario.reviewed (User 99) false 1
  = (CourseReviewViewSet.perform_destroy Scenario.reviewed
       (CourseReview.mk 1 1 Scenario.learner 5),
     Data HTTP_204_NO_CONTENT tt).
Proof.
  assert (Huniq : review_ids_unique Scenario.reviewed).
  { unfold review_ids_unique. simpl. repeat constructor. intros []. }
  apply (review_destroy_reach Scenario.reviewed 99 false
           (CourseReview.mk 1 1 Scenario.learner 5) Huniq).
  simpl. left. reflexivity.
Defined.

(** ** Completing a course and the progress of a path *)

Lemma step_ok_200 : step_ok_upto 200 = true.
Proof. vm_compute. reflexivity. Qed.

Lemma step_ok_upto_spec (bound n c : nat) :
  step_ok_upto bound = true ->
  (1 <= n <= bound)%nat -> (c < n)%nat ->
  step_ok (Z.of_nat n) (Z.of_nat c) = true.
Proof.
  unfold step_ok_upto. intros Hall Hn Hc.
  rewrite forallb_forall in Hall.
  assert (Hin : In n (seq 1 bound)) by (apply in_seq; lia).
  pose proof (Hall n Hin) as Hrow. rewrite forallb_forall in Hrow.
  apply Hrow. apply in_seq. lia.
Qed.

Lemma percentage_step (n c : Z) :
  1 <= n <= 200 -> 0 <= c < n ->
  percentage c n <= percentage (c + 1) n
  /\ (n <= 99 -> percentage c n < percentage (c + 1) n).
Proof.
  intros Hn Hc.
  assert (Hok : step_ok n c = true).
  { rewrite <- (Z2Nat.id n), <- (Z2Nat.id c) by lia.
    apply (step_ok_upto_spec 200); [exact step_ok_200 | lia | lia]. }
  unfold step_ok in Hok. apply andb_true_iff in Hok. destruct Hok as [Hle Hlt].
  apply Z.leb_le in Hle. split; [exact Hle|].
  intros Hsmall. apply orb_true_iff in Hlt. destruct Hlt as [Hlt | Hlt].
  - apply Z.ltb_lt in Hlt. lia.
  - apply Z.ltb_lt in Hlt. exact Hlt.
Qed.

(** With exactly 100 required courses the step from 28 to 29 completed
    courses does not show. *)
Lemma percentage_step_hidden : percentage 28 100 = 28 /\ percentage 29 100 = 28.
Proof. vm_compute. split; reflexivity. Qed.

Lemma filter_length_map {A} (keep : A -> bool) (f : A -> A) (l : list A) :
  (forall q, In q l -> keep (f q) = keep q) ->
  List.length (filter keep (map f l)) = List.length (filter keep l).
Proof.
  induction l as [|a l IH]; intros Hsame; [reflexivity|].
  simpl. rewrite (Hsame a (or_introl eq_refl)).
  destruct (keep a); simpl; rewrite IH; auto; intros q Hq; apply Hsame; right; exact Hq.
Qed.

Lemma filter_length_replace {A} (key : A -> Z) (keep : A -> bool) (l : list A) (x x' : A) :
  NoDup (map key l) -> In x l -> key x' = key x ->
  keep x = false -> keep x' = true ->
  List.length (filter keep (map (fun q => if key q =? key x' then x' else q) l))
  = S (List.length (filter keep l)).
Proof.
  intros Hnd Hin Hkey Hx Hx'. rewrite Hkey.
  induction l as [|a l IH]; [destruct Hin|].
  simpl in Hnd. apply NoDup_cons_iff in Hnd. destruct Hnd as [Hnotin Hnd].
  destruct Hin as [-> | Hin].
  - simpl. rewrite Z.eqb_refl, Hx, Hx'. simpl. f_equal.
    apply filter_length_map. intros q Hq.
    destruct (key q =? key x) eqn:E; [|reflexivity].
    apply Z.eqb_eq in E. exfalso. apply Hnotin. rewrite <- E. apply in_map. exact Hq.
  - simpl. destruct (key a =? key x) eqn:E.
    + apply Z.eqb_eq in E. exfalso. apply Hnotin. rewrite E. apply in_map. exact Hin.
    + destruct (keep a); simpl; rewrite (IH Hnd Hin); reflexivity.
Qed.

Lemma map_key_replace {A B} (id : A -> Z) (key : A -> B) (l : list A) (x x' : A) :
  NoDup (map id l) -> In x l -> id x' = id x -> key x' = key x ->
  map key (map (fun q => if id q =? id x' then x' else q) l) = map key l.
Proof.
  intros Hnd Hin Hid Hkey. rewrite map_map. apply map_ext_in. intros q Hq.
  destruct (id q =? id x') eqn:E; [|reflexivity].
  apply Z.eqb_eq in E.
  rewrite (same_key_same_row id l q x Hnd Hq Hin) by congruence. exact Hkey.
Qed.

(** X19: completing a required course and the progress of the path.  In a
    store with unique keys and one record per (user, course), when a user
    marks an open course record as completed and the course is required by
    the path of one of the user's path records (at most 200 required
    courses): the count of completed required courses goes up by one; the
    computed progress of the path does not go down, and goes up when the
    path has at most 99 required courses; the progress of every other
    user's path record is what it was. *)
Theorem completing_required_course :
  forall (db : DB) (uid : Z) (now : datetime) (pk : Z)
         (p : UserCourseProgress.t) (self : UserLearningProgress.t),
    course_progress_ids_unique db ->
    course_progress_unique db ->
    UserCourseProgressViewSet.get_object db (User uid) pk = inr p ->
    UserCourseProgress.completed_at p = None ->
    UserLearningProgress.user self = uid ->
    existsb (fun pc => LearningPathCourse.course pc =? UserCourseProgress.course p)
            (required_courses db self) = true ->
    count (required_courses db self) <= 200 ->
    let db' := fst (UserCourseProgressViewSet.mark_completed db (User uid) now pk) in
    completed_courses db' self = completed_courses db self + 1
    /\ calculate_progress db self <= calculate_progress db' self
    /\ (count (required_courses db self) <= 99 ->
        calculate_progress db self < calculate_progress db' self)
    /\ (forall other,
          UserLearningProgress.user other <> uid ->
          calculate_progress db' other = calculate_progress db other).
Proof.
  intros db uid now pk p self Hids Huniq Hget Hopen Hself Hreq Hsize db'.
  destruct (course_get_object_inv _ _ _ _ Hget) as [Hin [Huser Hpk]].
  simpl in Huser. apply Z.eqb_eq in Huser.
  set (p' := UserCourseProgressViewSet.set_progress_percentage 100
               (UserCourseProgressViewSet.set_completed_at (Some now) p)).
  assert (Hdb' : db' = UserCourseProgressViewSet.save db p').
  { unfold db', UserCourseProgressViewSet.mark_completed.
    cbn [IsAuthenticated is_authenticated negb]. rewrite Hget.
    unfold UserCourseProgress.is_completed. rewrite Hopen. reflexivity. }
  clearbody db'. subst db'.
  assert (Hrequired : forall x, required_courses (UserCourseProgressViewSet.save db p') x
                                = required_courses db x) by reflexivity.
  assert (Hcount : completed_courses (UserCourseProgressViewSet.save db p') self
                   = completed_courses db self + 1).
  { unfold completed_courses. rewrite Hrequired.
    unfold UserCourseProgressViewSet.save. cbn [course_progress with_course_progress].
    unfold count.
    rewrite (filter_length_replace UserCourseProgress.id _ (course_progress db) p p'
               Hids Hin eq_refl).
    - lia.
    - unfold UserCourseProgress.is_completed. rewrite Hopen. apply andb_false_r.
    - change (UserCourseProgress.user p') with (UserCourseProgress.user p).
      change (UserCourseProgress.course p') with (UserCourseProgress.course p).
      rewrite Hreq, Hself, <- Huser, Z.eqb_refl. reflexivity. }
  assert (Huniq' : course_progress_unique (UserCourseProgressViewSet.save db p')).
  { unfold course_progress_unique, UserCourseProgressViewSet.save.
    cbn [course_progress with_course_progress].
    rewrite (map_key_replace UserCourseProgress.id
               (fun q => (UserCourseProgress.user q, UserCourseProgress.course q))
               (course_progress db) p p' Hids Hin eq_refl eq_refl).
    exact Huniq. }
  assert (Hne : required_courses db self <> []).
  { intros E. rewrite E in Hreq. discriminate. }
  pose proof (completed_le_required db self Huniq) as Hc.
  pose proof (completed_le_required _ self Huniq') as Hc'.
  rewrite Hrequired, Hcount in Hc'.
  assert (Hn : 1 <= count (required_courses db self) <= 200) by lia.
  assert (Hrange : 0 <= completed_courses db self < count (required_courses db self)) by lia.
  destruct (percentage_step _ _ Hn Hrange) as [Hle Hlt].
  split; [exact Hcount|].
  rewrite (calculate_progress_required db self Hne).
  rewrite (calculate_progress_required (UserCourseProgressViewSet.save db p') self)
    by (rewrite Hrequired; exact Hne).
  rewrite Hrequired, Hcount.
  split; [exact Hle|]. split; [exact Hlt|].
  intros other Hother. unfold calculate_progress. rewrite Hrequired.
  destruct (negb (exists_ (required_courses db other))); [reflexivity|].
  f_equal. unfold completed_courses. rewrite Hrequired.
  unfold UserCourseProgressViewSet.save. cbn [course_progress with_course_progress].
  unfold count. f_equal. apply filter_length_map. intros q Hq.
  destruct (UserCourseProgress.id q =? UserCourseProgress.id p') eqn:E; [|reflexivity].
  apply Z.eqb_eq in E.
  rewrite (same_key_same_row UserCourseProgress.id (course_progress db) q p Hids Hq Hin)
    by exact E.
  change (UserCourseProgress.user p') with (UserCourseProgress.user p).
  assert (Hfalse : (UserCourseProgress.user p =? UserLearningProgress.user other) = false).
  { apply Z.eqb_neq. congruence. }
  rewrite Hfalse. reflexivity.
Qed.

Lemma completing_required_course_witness :
  calculate_progress Scenario.in_progress Scenario.started
  < calculate_progress
      (fst (UserCourseProgressViewSet.mark_completed Scenario.in_progress
              (User Scenario.learner) 9 1))
      Scenario.started.
Proof.
  assert (Hids : course_progress_ids_unique Scenario.in_progress).
  { unfold course_progress_ids_unique. simpl. repeat constructor. intros []. }
  assert (Huniq : course_progress_unique Scenario.in_progress).
  { unfold course_progress_unique. simpl. repeat constructor. intros []. }
  apply (completing_required_course Scenario.in_progress Scenario.learner 9 1
           Scenario.half_way Scenario.started Hids Huniq eq_refl eq_refl eq_refl eq_refl).
  - vm_compute. discriminate.
  - vm_compute. discriminate.
Defined.

(** ** Featured courses *)

Lemma before_total a b :
  CourseFeatured.before a b = false -> CourseFeatured.before b a = true.
Proof.
  unfold CourseFeatured.before. intros H.
  apply orb_false_iff in H. destruct H as [Hlt Heq].
  apply Z.ltb_ge in Hlt. apply orb_true_iff.
  destruct (Z.eq_dec (CourseFeatured.rating_key a) (CourseFeatured.rating_key b)) as [E|E].
  - right. rewrite E in *. rewrite Z.eqb_refl in *. simpl in *.
    apply Z.leb_gt in Heq. apply Z.leb_le. lia.
  - left. apply Z.ltb_lt. lia.
Qed.

Lemma before_trans a b c :
  CourseFeatured.before a b = true -> CourseFeatured.before b c = true ->
  CourseFeatured.before a c = true.
Proof.
  unfold CourseFeatured.before. intros Hab Hbc.
  apply orb_true_iff in Hab. apply orb_true_iff in Hbc. apply orb_true_iff.
  rewrite !andb_true_iff, !Z.ltb_lt, !Z.eqb_eq, !Z.leb_le in *. lia.
Qed.

Lemma insert_In x l c : In c (CourseFeatured.insert x l) <-> c = x \/ In c l.
Proof.
  induction l as [|y l IH]; simpl; [intuition congruence|].
  destruct (CourseFeatured.before x y); simpl; [intuition congruence|].
  rewrite IH. intuition congruence.
Qed.

Lemma insert_length x l :
  List.length (CourseFeatured.insert x l) = S (List.length l).
Proof.
  induction l as [|y l IH]; simpl; [reflexivity|].
  destruct (CourseFeatured.before x y); simpl; congruence.
Qed.

Lemma insert_sorted x l :
  StronglySorted (fun a b => CourseFeatured.before a b = true) l ->
  StronglySorted (fun a b => CourseFeatured.before a b = true) (CourseFeatured.insert x l).
Proof.
  induction 1 as [|y l Hl IH Hy]; simpl.
  - constructor; constructor.
  - destruct (CourseFeatured.before x y) eqn:E.
    + constructor; [constructor; assumption|].
      constructor; [exact E|].
      rewrite Forall_forall in *. intros z Hz. exact (before_trans _ _ _ E (Hy z Hz)).
    + constructor; [exact IH|].
      rewrite Forall_forall in *. intros z Hz. apply insert_In in Hz.
      destruct Hz as [-> | Hz]; [exact (before_total _ _ E) | exact (Hy z Hz)].
Qed.

Lemma order_by_In l c : In c (CourseFeatured.order_by l) <-> In c l.
Proof.
  induction l as [|x l IH]; simpl; [reflexivity|].
  rewrite insert_In, IH. intuition congruence.
Qed.

Lemma order_by_length l : List.length (CourseFeatured.order_by l) = List.length l.
Proof.
  induction l as [|x l IH]; simpl; [reflexivity|]. rewrite insert_length. congruence.
Qed.

Lemma order_by_sorted l :
  StronglySorted (fun a b => CourseFeatured.before a b = true) (CourseFeatured.order_by l).
Proof.
  induction l as [|x l IH]; simpl; [constructor | apply insert_sorted; exact IH].
Qed.

Lemma sorted_app_before {A} (R : A -> A -> Prop) (l1 l2 : list A) :
  StronglySorted R (l1 ++ l2) ->
  StronglySorted R l1 /\ (forall a b, In a l1 -> In b l2 -> R a b).
Proof.
  induction l1 as [|x l1 IH]; simpl; intros Hs.
  - split; [constructor | intros a b []].
  - inversion Hs as [|? ? Htail Hall]; subst.
    destruct (IH Htail) as [Hs1 Hcross].
    rewrite Forall_forall in Hall. split.
    + constructor; [exact Hs1|]. apply Forall_forall. intros z Hz.
      apply Hall. apply in_or_app. left. exact Hz.
    + intros a b [<- | Ha] Hb; [|exact (Hcross a b Ha Hb)].
      apply Hall. apply in_or_app. right. exact Hb.
Qed.

(** X20: the featured courses.  For an authenticated requester the action
    answers 200 with at most 20 courses, as many as qualify when fewer than
    20 do; each of them is a stored course that the requester may see, with
    a rating of at least 4.00 and at least 10 ratings; they are in
    descending order of rating, then of number of ratings; and a qualifying
    visible course that is left out ranks no higher than any course of the
    answer.  An anonymous request is refused. *)
Theorem featured_top_20 :
  forall (db : DB) (u : RequestUser),
    match CourseFeatured.featured db u with
    | Data st l =>
        st = HTTP_200_OK
        /\ List.length l
           = Nat.min 20
               (List.length (filter CourseFeatured.is_featured (get_queryset (courses db) u)))
        /\ (forall c, In c l ->
                      In c (get_queryset (courses db) u)
                      /\ (exists h, Course.rating c = Some h /\ 400 <= h)
                      /\ 10 <= Course.total_ratings c)
        /\ StronglySorted (fun a b => CourseFeatured.before a b = true) l
        /\ (forall c c',
              In c l ->
              In c' (get_queryset (courses db) u) ->
              CourseFeatured.is_featured c' = true ->
              ~ In c' l ->
              CourseFeatured.before c c' = true)
    | Raise e => u = AnonymousUser /\ e = NotAuthenticated
    | Detail _ _ => False
    end.
Proof.
  intros db u. unfold CourseFeatured.featured.
  destruct u as [|uid]; [split; reflexivity|].
  cbn [IsAuthenticated is_authenticated negb].
  set (rows := filter CourseFeatured.is_featured (get_queryset (courses db) (User uid))).
  pose proof (order_by_sorted rows) as Hsorted.
  rewrite <- (firstn_skipn 20 (CourseFeatured.order_by rows)) in Hsorted.
  apply sorted_app_before in Hsorted. destruct Hsorted as [Hfirst Hcross].
  split; [reflexivity|].
  split; [rewrite length_firstn, order_by_length; reflexivity|].
  split; [|split; [exact Hfirst|]].
  - intros c Hc.
    assert (Hall : In c (CourseFeatured.order_by rows)).
    { rewrite <- (firstn_skipn 20 (CourseFeatured.order_by rows)).
      apply in_or_app. left. exact Hc. }
    clear Hc. apply (proj1 (order_by_In _ _)) in Hall. rename Hall into Hc.
    unfold rows in Hc. apply filter_In in Hc. destruct Hc as [Hin Hf].
    split; [exact Hin|].
    unfold CourseFeatured.is_featured in Hf. apply andb_true_iff in Hf.
    destruct Hf as [Hr Ht]. apply Z.leb_le in Ht. split; [|exact Ht].
    destruct (Course.rating c) as [h|]; [|discriminate].
    exists h. split; [reflexivity | apply Z.leb_le; exact Hr].
  - intros c c' Hc Hin Hf Hout. apply Hcross; [exact Hc|].
    assert (Hall : In c' (CourseFeatured.order_by rows)).
    { apply order_by_In. unfold rows. apply filter_In. split; assumption. }
    rewrite <- (firstn_skipn 20 (CourseFeatured.order_by rows)) in Hall.
    apply in_app_or in Hall. destruct Hall as [Hall | Hall]; [contradiction | exact Hall].
Qed.

Lemma featured_top_20_witness :
  StronglySorted (fun a b => CourseFeatured.before a b = true)
    [Course.mk 2 1 true published (Some 480) 30;
     Course.mk 1 1 true published (Some 450) 12].
Proof.
  destruct (featured_top_20
              (mkDB [Course.mk 1 1 true published (Some 450) 12;
                     Course.mk 2 1 true published (Some 480) 30;
                     Course.mk 3 1 true published (Some 390) 50;
                     Course.mk 4 1 false draft (Some 500) 90]
                    [] [] [] [] [])
              (User Scenario.learner)) as [_ [_ [_ [Hsorted _]]]].
  exact Hsorted.
Defined.

(** ** The path-progress table is never written *)




(** ** Dashboard statistics *)

Lemma average_ok_20 : average_ok_upto 20 = true.
Proof. vm_compute. reflexivity. Qed.

Lemma average_ok_upto_spec (bound n t : nat) :
  average_ok_upto bound = true ->
  (1 <= n <= bound)%nat -> (t <= 100 * n)%nat ->
  average_ok (Z.of_nat n) (Z.of_nat t) = true.
Proof.
  unfold average_ok_upto. intros Hall Hn Ht.
  rewrite forallb_forall in Hall.
  assert (Hin : In n (seq 1 bound)) by (apply in_seq; lia).
  pose proof (Hall n Hin) as Hrow. rewrite forallb_forall in Hrow.
  apply Hrow. apply in_seq. lia.
Qed.

Lemma average_bounds (n total : Z) :
  0 <= n <= 20 -> 0 <= total <= 100 * n ->
  0 <= Dashboard.average total n <= 1000
  /\ 2 * Z.abs (Dashboard.average total n * n - 10 * total) <= n.
Proof.
  intros Hn Ht.
  destruct (Z.eq_dec n 0) as [-> | Hpos].
  - assert (total = 0) by lia. subst total. vm_compute. split; [split|]; discriminate.
  - assert (Hok : average_ok n total = true).
    { rewrite <- (Z2Nat.id n), <- (Z2Nat.id total) by lia.
      apply (average_ok_upto_spec 20); [exact average_ok_20 | lia | lia]. }
    unfold average_ok in Hok.
    repeat (apply andb_true_iff in Hok; destruct Hok as [Hok ?]).
    repeat match goal with
           | H : (_ <=? _) = true |- _ => apply Z.leb_le in H
           end.
    split; [lia | assumption].
Qed.

Lemma sum_bounds {A} (f : A -> Z) (l : list A) :
  Forall (fun x => 0 <= f x <= 100) l ->
  0 <= Dashboard.sum (map f l) <= 100 * count l.
Proof.
  unfold count, Dashboard.sum.
  induction 1 as [|x l Hx _ IH]; simpl fold_right; simpl List.length; simpl map; lia.
Qed.

Lemma filter_count_le {A} (f : A -> bool) (l : list A) : 0 <= count (filter f l) <= count l.
Proof.
  unfold count. split; [lia|]. apply inj_le.
  induction l as [|a l IH]; simpl; [lia|]. destruct (f a); simpl; lia.
Qed.

Lemma calculate_progress_range db self :
  course_progress_unique db ->
  count (required_courses db self) <= 200 ->
  0 <= calculate_progress db self <= 100.
Proof.
  intros Huniq Hsize.
  destruct (required_courses db self) as [|pc rest] eqn:E.
  - unfold calculate_progress. rewrite E. simpl.
    destruct (UserLearningProgress.is_completed self); lia.
  - rewrite <- E in Hsize.
    rewrite calculate_progress_required by (rewrite E; discriminate).
    apply percentage_bounds.
    + split; [|exact Hsize]. rewrite E. unfold count. simpl List.length. lia.
    + apply completed_le_required. exact Huniq.
Qed.

(** X22: the statistics of the dashboard.  For a user with at most 20
    started courses and 20 started paths, in a store with valid course
    percentages, one course record per (user, course) and at most 200
    required courses per path: the completed counts are not above the
    started counts; each average lies between 0.0 and 100.0 and is within
    half a tenth of the exact mean of the user's percentages (the stored
    ones for courses, the computed ones for paths); with nothing started
    the average is 0. *)
Theorem dashboard_statistics :
  forall (db : DB) (user : Z),
    course_progress_valid db ->
    course_progress_unique db ->
    (forall self, count (required_courses db self) <= 200) ->
    count (Dashboard.course_progress_of db user) <= 20 ->
    count (Dashboard.learning_progress_of db user) <= 20 ->
    let s := Dashboard.user_dashboard db user in
    let courses := Dashboard.course_progress_of db user in
    let paths := Dashboard.learning_progress_of db user in
    0 <= Dashboard.courses_completed s <= Dashboard.courses_started s
    /\ 0 <= Dashboard.learning_paths_completed s <= Dashboard.learning_paths_started s
    /\ 0 <= Dashboard.avg_course_progress s <= 1000
    /\ 2 * Z.abs (Dashboard.avg_course_progress s * count courses
                  - 10 * Dashboard.sum (map UserCourseProgress.progress_percentage courses))
       <= count courses
    /\ 0 <= Dashboard.avg_learning_path_progress s <= 1000
    /\ 2 * Z.abs (Dashboard.avg_learning_path_progress s * count paths
                  - 10 * Dashboard.sum (map (calculate_progress db) paths))
       <= count paths
    /\ (Dashboard.courses_started s = 0 -> Dashboard.avg_course_progress s = 0)
    /\ (Dashboard.learning_paths_started s = 0 -> Dashboard.avg_learning_path_progress s = 0).
Proof.
  intros db user Hvalid Huniq Hsize Hcourses Hpaths s courses paths.
  assert (Hc : 0 <= Dashboard.sum (map UserCourseProgress.progress_percentage courses)
               <= 100 * count courses).
  { apply sum_bounds. apply Forall_forall. intros p Hp.
    unfold courses, Dashboard.course_progress_of in Hp. apply filter_In in Hp.
    unfold course_progress_valid in Hvalid. rewrite Forall_forall in Hvalid.
    exact (proj1 (Hvalid p (proj1 Hp))). }
  assert (Hp : 0 <= Dashboard.sum (map (calculate_progress db) paths) <= 100 * count paths).
  { apply sum_bounds. apply Forall_forall. intros p _.
    apply calculate_progress_range; [exact Huniq | apply Hsize]. }
  assert (Hnc : 0 <= count courses <= 20) by (split; [unfold count; lia | exact Hcourses]).
  assert (Hnp : 0 <= count paths <= 20) by (split; [unfold count; lia | exact Hpaths]).
  destruct (average_bounds _ _ Hnc Hc) as [Hc1 Hc2].
  destruct (average_bounds _ _ Hnp Hp) as [Hp1 Hp2].
  split; [apply filter_count_le|].
  split; [apply filter_count_le|].
  split; [exact Hc1|]. split; [exact Hc2|].
  split; [exact Hp1|]. split; [exact Hp2|].
  unfold s. cbn [Dashboard.user_dashboard Dashboard.courses_started
                 Dashboard.learning_paths_started Dashboard.avg_course_progress
                 Dashboard.avg_learning_path_progress].
  split; intros Hzero; unfold Dashboard.average; rewrite Hzero; reflexivity.
Qed.

Lemma dashboard_statistics_witness :
  let s := Dashboard.user_dashboard Scenario.in_progress Scenario.learner in
  0 <= Dashboard.courses_completed s <= Dashboard.courses_started s.
Proof.
  assert (Hvalid : course_progress_valid Scenario.in_progress).
  { unfold course_progress_valid, progress_row_valid. simpl.
    constructor; [simpl; lia | constructor]. }
  assert (Huniq : course_progress_unique Scenario.in_progress).
  { unfold course_progress_unique. simpl. repeat constructor. intros []. }
  assert (Hsize : forall self, count (required_courses Scenario.in_progress self) <= 200).
  { intros self. unfold required_courses. simpl.
    destruct (_ && _); unfold count; simpl; lia. }
  apply (dashboard_statistics Scenario.in_progress Scenario.learner Hvalid Huniq Hsize).
  - vm_compute. discriminate.
  - vm_compute. discriminate.
Defined.
